(** * personal-health-ledger: matching, merging and identity generation

    A shallow embedding of the consolidation core of the ledger
    ([domain/weight.py], [utils/timezone_utils.py], [utils/hashing.py],
    [services/consolidation.py], [services/comparison.py]) together with
    the properties its specification states about it.

    Conventions of the embedding.
    - A Python [float] measurement value is an exact rational ([Q]); an
      optional field is [option Q].  NaN and infinities are outside the
      model (the specification rules them out as inputs).
    - A timezone-aware [datetime] is its instant, in microseconds since
      the Unix epoch, together with its [tzinfo].  Equality, hashing and
      ordering of aware datetimes in Python look at the instant only.
    - A [dict] that is iterated is an association list in insertion order;
      a [dict] that is only looked up is a [gmap]; a [set] is a [gset].
    - A raised exception is the [Err] branch of [result]. *)

From stdpp Require Import gmap strings list sorting pretty.
From Stdlib Require Import QArith Qabs ZArith.

Close Scope Q_scope.
Local Open Scope Z_scope.

(** ** Exceptions as values *)

Inductive result (E A : Type) : Type :=
| Ok (a : A)
| Err (e : E).
Arguments Ok {E A} a.
Arguments Err {E A} e.

Definition bind {E A B} (m : result E A) (k : A → result E B) : result E B :=
  match m with
  | Ok a => k a
  | Err e => Err e
  end.

Notation "x ←! m ; k" := (bind m (λ x, k))
  (at level 100, m at next level, right associativity, only parsing).

Definition is_ok {E A} (m : result E A) : bool :=
  match m with Ok _ => true | Err _ => false end.

(** The returned value of a run, forgetting which exception ended a failed one. *)
Definition returned {E A} (m : result E A) : option A :=
  match m with Ok a => Some a | Err _ => None end.

(** ** domain/weight.py *)

Module SourceType.
Inductive t := CSV | FIT.

  (** The [.value] of the string enum. *)
Definition value (st : t) : string :=
    match st with
    | CSV => "csv"
    | FIT => "fit"
    end.

#[global] Instance eq_dec : EqDecision t.
  Proof. solve_decision. Defined.

#[global] Instance countable : Countable t.
  Proof.
    refine (inj_countable' (λ st, match st with CSV => false | FIT => true end)
                           (λ b : bool, if b then FIT else CSV) _).
    by intros [].
  Defined.
End SourceType.

Module FieldSource.
Inductive t := CSV | FIT | MERGED | CONFLICT.

#[global] Instance eq_dec : EqDecision t.
  Proof. solve_decision. Defined.
End FieldSource.

(** A timezone-aware datetime: the instant and the attached zone. *)
Record datetime := mk_datetime {
  epoch_us : Z;
  tzinfo : string;
}.

(** [datetime.__eq__] on aware values compares instants. *)
Definition datetime_eqb (a b : datetime) : bool := epoch_us a =? epoch_us b.
(** [datetime.__le__] / [__lt__] on aware values. *)
Definition datetime_leb (a b : datetime) : bool := epoch_us a <=? epoch_us b.
Definition datetime_ltb (a b : datetime) : bool := epoch_us a <? epoch_us b.

(** A whole-second instant, [s] seconds after the epoch. *)
Definition at_second (s : Z) (tz : string) : datetime :=
  mk_datetime (s * 1000000) tz.

Record RawWeightRecord := mk_raw {
  timestamp : datetime;
  weight_kg : option Q;
  body_fat_pct : option Q;
  fat_mass_kg : option Q;
  fat_free_pct : option Q;
  fat_free_mass_kg : option Q;
  skeletal_muscle_pct : option Q;
  skeletal_muscle_mass_kg : option Q;
  muscle_pct : option Q;
  muscle_mass_kg : option Q;
  bone_mass_kg : option Q;
  body_water : option Q;
  bmr_kcal : option Q;
  metabolic_age : option Q;
  visceral_fat_rating : option Q;
  source_file_name : string;
  source_file_id : string;
  source_type : SourceType.t;
}.

(** The canonical measurement.  The field [ingestion_timestamp] of the
    Python model holds the wall-clock time of the run and carries no
    information about the inputs; it is left out. *)
Record WeightMeasurement := mk_measurement {
  record_id : string;
  m_timestamp : datetime;
  m_weight_kg : option Q;
  m_body_fat_pct : option Q;
  m_fat_mass_kg : option Q;
  m_fat_free_pct : option Q;
  m_fat_free_mass_kg : option Q;
  m_skeletal_muscle_pct : option Q;
  m_skeletal_muscle_mass_kg : option Q;
  m_muscle_pct : option Q;
  m_muscle_mass_kg : option Q;
  m_bone_mass_kg : option Q;
  m_body_water : option Q;
  m_bmr_kcal : option Q;
  m_metabolic_age : option Q;
  m_visceral_fat_rating : option Q;
  source_files : list string;
  source_types : gset SourceType.t;
  drive_file_ids : list string;
  field_sources : gmap string FieldSource.t;
  conflicting_fields : list string;
  chosen_source : option SourceType.t;
  weight_kg_csv : option Q;
  weight_kg_fit : option Q;
  body_fat_pct_csv : option Q;
  body_fat_pct_fit : option Q;
}.

(** The fourteen numeric measurement fields, by name. *)
Definition numeric_fields : list string :=
  ["weight_kg"; "body_fat_pct"; "fat_mass_kg"; "fat_free_pct";
   "fat_free_mass_kg"; "skeletal_muscle_pct"; "skeletal_muscle_mass_kg";
   "muscle_pct"; "muscle_mass_kg"; "bone_mass_kg"; "body_water";
   "bmr_kcal"; "metabolic_age"; "visceral_fat_rating"]%string.

(** [getattr(record, field)] on the numeric fields. *)
Definition getattr (r : RawWeightRecord) (field : string) : option Q :=
  if decide (field = "weight_kg"%string) then weight_kg r
  else if decide (field = "body_fat_pct"%string) then body_fat_pct r
  else if decide (field = "fat_mass_kg"%string) then fat_mass_kg r
  else if decide (field = "fat_free_pct"%string) then fat_free_pct r
  else if decide (field = "fat_free_mass_kg"%string) then fat_free_mass_kg r
  else if decide (field = "skeletal_muscle_pct"%string) then skeletal_muscle_pct r
  else if decide (field = "skeletal_muscle_mass_kg"%string) then skeletal_muscle_mass_kg r
  else if decide (field = "muscle_pct"%string) then muscle_pct r
  else if decide (field = "muscle_mass_kg"%string) then muscle_mass_kg r
  else if decide (field = "bone_mass_kg"%string) then bone_mass_kg r
  else if decide (field = "body_water"%string) then body_water r
  else if decide (field = "bmr_kcal"%string) then bmr_kcal r
  else if decide (field = "metabolic_age"%string) then metabolic_age r
  else if decide (field = "visceral_fat_rating"%string) then visceral_fat_rating r
  else None.

(** ** utils/parameters.py *)

Record RecordIDConfig := mk_record_id_config {
  algorithm : string;
  timestamp_rounding_seconds : Z;
  include_fields : list string;
}.

Record ConflictResolutionConfig := mk_conflict_config {
  default_preference : option string;
  field_preferences : gmap string string;
}.

Record ProcessingConfig := mk_processing_config {
  timestamp_tolerance_seconds : Z;
  numeric_tolerance : Q;
  record_id_config : RecordIDConfig;
  conflict_resolution : ConflictResolutionConfig;
}.

(** ** utils/timezone_utils.py *)

(** [abs((ts1 - ts2).total_seconds()) <= tolerance_seconds], with both
    sides scaled to microseconds. *)
Definition timestamps_match (ts1 ts2 : datetime) (tolerance_seconds : Z) : bool :=
  Z.abs (epoch_us ts1 - epoch_us ts2) <=? tolerance_seconds * 1000000.

(** ** utils/hashing.py *)

Inductive hashing_error :=
| ZeroDivisionError
| UnsupportedHashType.

(** [int(timestamp.timestamp())]: the POSIX time in seconds, with the
    fraction cut off towards zero. *)
Definition posix_seconds (ts : datetime) : Z := Z.quot (epoch_us ts) 1000000.

Definition round_timestamp (ts : datetime) (rounding_seconds : Z)
  : result hashing_error datetime :=
  let total_seconds := posix_seconds ts in
  if rounding_seconds =? 0 then Err ZeroDivisionError
  else
    let rounded_seconds := (total_seconds / rounding_seconds) * rounding_seconds in
    Ok (at_second rounded_seconds (tzinfo ts)).

(** Where the definition above is the code.  Two things the code does far
    from the epoch are left out of it: [timestamp()] is a float, which
    from 2^34 seconds on can round the last microseconds of a second up to
    the next whole second before [int()] cuts it, and
    [datetime.fromtimestamp] raises when the result falls outside the
    years 1 to 9999.  For a timestamp less than 2^34 seconds from the
    epoch (between the years 1425 and 2514) the float stays strictly
    below the next whole second, and with an interval of at most 2^34
    seconds the result lies less than 2^35 seconds from the epoch
    (between the years 881 and 3058), where [datetime.fromtimestamp]
    returns in every zone. *)
Definition rounding_domain (ts : datetime) (rounding_seconds : Z) : Prop :=
  Z.abs (epoch_us ts) < 2 ^ 34 * 1000000 ∧ Z.abs rounding_seconds ≤ 2 ^ 34.

(** [sorted] on strings: a stable insertion sort along [String.leb]. *)
Fixpoint insert_sorted (x : string) (l : list string) : list string :=
  match l with
  | [] => [x]
  | y :: l' => if String.leb x y then x :: y :: l' else y :: insert_sorted x l'
  end.

Definition sorted (l : list string) : list string := foldr insert_sorted [] l.

Section Hashing.
  (** The library functions the identity generator calls: the ISO-8601
      rendering of a datetime, the [.3f] rendering of a float, and
      [hashlib.new(algorithm)] followed by [update] and [hexdigest], which
      is [None] when the algorithm is not supported. *)
Variable isoformat : datetime → string.
Variable format_3f : Q → string.
Variable hexdigest : string → string → option string.

Definition generate_record_id (ts : datetime) (weight : Q)
      (kinds : list SourceType.t) (config : RecordIDConfig)
    : result hashing_error string :=
    rounded_ts ←! round_timestamp ts (timestamp_rounding_seconds config);
    let hash_data :=
      (if decide ("timestamp"%string ∈ include_fields config)
       then [isoformat rounded_ts] else [])
      ++ (if decide ("weight_kg"%string ∈ include_fields config)
          then [format_3f weight] else [])
      ++ (if decide ("source_types"%string ∈ include_fields config)
          then [String.concat "," (sorted (SourceType.value <$> kinds))] else []) in
    let hash_string := String.concat "|" hash_data in
    match hexdigest (algorithm config) hash_string with
    | Some hex => Ok hex
    | None => Err UnsupportedHashType
    end.
End Hashing.

(** ** services/consolidation.py *)

Inductive merge_error :=
| MissingWeight                     (* "Cannot consolidate record without weight_kg" *)
| IndexError                        (* [all_records[0]] on an empty group *)
| HashingError (e : hashing_error). (* raised inside [generate_record_id] *)

(** [raise ConsolidationError(f"Consolidation failed: {e}") from e] *)
Inductive consolidation_error :=
| ConsolidationError (cause : merge_error).

(** [abs(csv_value - fit_value) <= tolerance] *)
Definition within_tolerance (tolerance a b : Q) : bool :=
  Qle_bool (Qabs (a - b)) tolerance.

(** [field_preferences.get(field_name, default_preference)] *)
Definition preference_for (cr : ConflictResolutionConfig) (field_name : string)
  : option string :=
  match field_preferences cr !! field_name with
  | Some p => Some p
  | None => default_preference cr
  end.

Definition _merge_field (config : ProcessingConfig)
    (csv_value fit_value : option Q) (field_name : string)
  : option Q * FieldSource.t * bool :=
  match csv_value, fit_value with
  | None, None => (None, FieldSource.MERGED, false)
  | None, Some _ => (fit_value, FieldSource.FIT, false)
  | Some _, None => (csv_value, FieldSource.CSV, false)
  | Some c, Some f =>
      if within_tolerance (numeric_tolerance config) c f
      then (csv_value, FieldSource.MERGED, false)
      else
        let preference := preference_for (conflict_resolution config) field_name in
        if decide (preference = Some "csv"%string)
        then (csv_value, FieldSource.CONFLICT, true)
        else if decide (preference = Some "fit"%string)
        then (fit_value, FieldSource.CONFLICT, true)
        else (csv_value, FieldSource.CONFLICT, true)
  end.

(** [data.field if data else None] *)
Definition field_or_none (data : option RawWeightRecord)
    (field : RawWeightRecord → option Q) : option Q :=
  match data with
  | Some r => field r
  | None => None
  end.

Section Consolidation.
Variable isoformat : datetime → string.
Variable format_3f : Q → string.
Variable hexdigest : string → string → option string.
Variable config : ProcessingConfig.

Definition _merge_records (csv_records fit_records : list RawWeightRecord)
    : result merge_error WeightMeasurement :=
    let all_records := csv_records ++ fit_records in
    match all_records with
    | [] => Err IndexError
    | first :: _ =>
      let ts := timestamp first in
      let files := source_file_name <$> all_records in
      let ids := source_file_id <$> all_records in
      let kinds : gset SourceType.t := list_to_set (source_type <$> all_records) in
      let csv_data := head csv_records in
      let fit_data := head fit_records in
      let merge f name :=
        _merge_field config (field_or_none csv_data f) (field_or_none fit_data f) name in
      let '(weight, src_weight, conflict_weight) := merge weight_kg "weight_kg"%string in
      let conflicting1 := if conflict_weight then ["weight_kg"%string] else [] in
      let '(body_fat, src_body_fat, conflict_body_fat) :=
        merge body_fat_pct "body_fat_pct"%string in
      let conflicting :=
        conflicting1 ++ (if conflict_body_fat then ["body_fat_pct"%string] else []) in
      let '(fat_mass, src_fat_mass, _) := merge fat_mass_kg "fat_mass_kg"%string in
      let '(fat_free, src_fat_free, _) := merge fat_free_pct "fat_free_pct"%string in
      let '(fat_free_mass, src_fat_free_mass, _) :=
        merge fat_free_mass_kg "fat_free_mass_kg"%string in
      let '(skeletal, src_skeletal, _) :=
        merge skeletal_muscle_pct "skeletal_muscle_pct"%string in
      let '(skeletal_mass, src_skeletal_mass, _) :=
        merge skeletal_muscle_mass_kg "skeletal_muscle_mass_kg"%string in
      let '(muscle, src_muscle, _) := merge muscle_pct "muscle_pct"%string in
      let '(muscle_mass, src_muscle_mass, _) :=
        merge muscle_mass_kg "muscle_mass_kg"%string in
      let '(bone_mass, src_bone_mass, _) := merge bone_mass_kg "bone_mass_kg"%string in
      let '(water, src_water, _) := merge body_water "body_water"%string in
      let '(bmr, src_bmr, _) := merge bmr_kcal "bmr_kcal"%string in
      let '(met_age, src_met_age, _) := merge metabolic_age "metabolic_age"%string in
      let '(visceral, src_visceral, _) :=
        merge visceral_fat_rating "visceral_fat_rating"%string in
      let sources : gmap string FieldSource.t :=
        <["visceral_fat_rating"%string := src_visceral]>
        (<["metabolic_age"%string := src_met_age]>
        (<["bmr_kcal"%string := src_bmr]>
        (<["body_water"%string := src_water]>
        (<["bone_mass_kg"%string := src_bone_mass]>
        (<["muscle_mass_kg"%string := src_muscle_mass]>
        (<["muscle_pct"%string := src_muscle]>
        (<["skeletal_muscle_mass_kg"%string := src_skeletal_mass]>
        (<["skeletal_muscle_pct"%string := src_skeletal]>
        (<["fat_free_mass_kg"%string := src_fat_free_mass]>
        (<["fat_free_pct"%string := src_fat_free]>
        (<["fat_mass_kg"%string := src_fat_mass]>
        (<["body_fat_pct"%string := src_body_fat]>
        (<["weight_kg"%string := src_weight]> ∅))))))))))))) in
      match weight with
      | None => Err MissingWeight
      | Some w =>
        match generate_record_id isoformat format_3f hexdigest
                ts w (elements kinds) (record_id_config config) with
        | Err e => Err (HashingError e)
        | Ok rid =>
          let weight_conflict := bool_decide ("weight_kg"%string ∈ conflicting) in
          let body_fat_conflict := bool_decide ("body_fat_pct"%string ∈ conflicting) in
          Ok {| record_id := rid;
                m_timestamp := ts;
                m_weight_kg := weight;
                m_body_fat_pct := body_fat;
                m_fat_mass_kg := fat_mass;
                m_fat_free_pct := fat_free;
                m_fat_free_mass_kg := fat_free_mass;
                m_skeletal_muscle_pct := skeletal;
                m_skeletal_muscle_mass_kg := skeletal_mass;
                m_muscle_pct := muscle;
                m_muscle_mass_kg := muscle_mass;
                m_bone_mass_kg := bone_mass;
                m_body_water := water;
                m_bmr_kcal := bmr;
                m_metabolic_age := met_age;
                m_visceral_fat_rating := visceral;
                source_files := files;
                source_types := kinds;
                drive_file_ids := ids;
                field_sources := sources;
                conflicting_fields := conflicting;
                chosen_source := None;
                weight_kg_csv :=
                  if weight_conflict then field_or_none csv_data weight_kg else None;
                weight_kg_fit :=
                  if weight_conflict then field_or_none fit_data weight_kg else None;
                body_fat_pct_csv :=
                  if body_fat_conflict then field_or_none csv_data body_fat_pct else None;
                body_fat_pct_fit :=
                  if body_fat_conflict then field_or_none fit_data body_fat_pct else None;
             |}
        end
      end
    end.

  (** [by_timestamp[record.timestamp].append(record)] on a
      [defaultdict(list)]: the entry of an instant keeps the key object
      that created it and its position in the iteration order. *)
Fixpoint group_append (groups : list (datetime * list RawWeightRecord))
      (r : RawWeightRecord) : list (datetime * list RawWeightRecord) :=
    match groups with
    | [] => [(timestamp r, [r])]
    | (k, rs) :: rest =>
        if datetime_eqb k (timestamp r) then (k, rs ++ [r]) :: rest
        else (k, rs) :: group_append rest r
    end.

Definition group_by_timestamp (records : list RawWeightRecord)
    : list (datetime * list RawWeightRecord) :=
    foldl group_append [] records.

  (** The inner loop of [consolidate] over [fit_by_timestamp.items()]. *)
Fixpoint scan_fit_groups (csv_ts : datetime)
      (fit_groups : list (datetime * list RawWeightRecord))
      (matched_fit_recs : list RawWeightRecord) (matched_fit_timestamps : gset Z)
    : list RawWeightRecord * gset Z :=
    match fit_groups with
    | [] => (matched_fit_recs, matched_fit_timestamps)
    | (fit_ts, fit_recs) :: rest =>
        if timestamps_match csv_ts fit_ts (timestamp_tolerance_seconds config)
        then scan_fit_groups csv_ts rest (matched_fit_recs ++ fit_recs)
               ({[epoch_us fit_ts]} ∪ matched_fit_timestamps)
        else scan_fit_groups csv_ts rest matched_fit_recs matched_fit_timestamps
    end.

  (** The loop over [csv_by_timestamp.items()]. *)
Fixpoint merge_csv_groups
      (csv_groups fit_groups : list (datetime * list RawWeightRecord))
      (consolidated : list WeightMeasurement) (matched_fit_timestamps : gset Z)
    : result merge_error (list WeightMeasurement * gset Z) :=
    match csv_groups with
    | [] => Ok (consolidated, matched_fit_timestamps)
    | (csv_ts, csv_recs) :: rest =>
        let '(matched_fit_recs, matched') :=
          scan_fit_groups csv_ts fit_groups [] matched_fit_timestamps in
        measurement ←! _merge_records csv_recs matched_fit_recs;
        merge_csv_groups rest fit_groups (consolidated ++ [measurement]) matched'
    end.

  (** The loop emitting the FIT groups no CSV group has claimed. *)
Fixpoint merge_fit_only (fit_groups : list (datetime * list RawWeightRecord))
      (matched_fit_timestamps : gset Z) (consolidated : list WeightMeasurement)
    : result merge_error (list WeightMeasurement) :=
    match fit_groups with
    | [] => Ok consolidated
    | (fit_ts, fit_recs) :: rest =>
        if decide (epoch_us fit_ts ∈ matched_fit_timestamps)
        then merge_fit_only rest matched_fit_timestamps consolidated
        else
          measurement ←! _merge_records [] fit_recs;
          merge_fit_only rest matched_fit_timestamps (consolidated ++ [measurement])
    end.

  (** [list.sort(key=lambda m: m.timestamp)]: stable, ascending. *)
Fixpoint insert_by_timestamp (m : WeightMeasurement) (l : list WeightMeasurement)
    : list WeightMeasurement :=
    match l with
    | [] => [m]
    | m' :: l' =>
        if datetime_leb (m_timestamp m) (m_timestamp m') then m :: m' :: l'
        else m' :: insert_by_timestamp m l'
    end.

Definition sort_by_timestamp (l : list WeightMeasurement) : list WeightMeasurement :=
    foldr insert_by_timestamp [] l.

Definition is_csv (r : RawWeightRecord) : Prop := source_type r = SourceType.CSV.
Definition is_fit (r : RawWeightRecord) : Prop := source_type r = SourceType.FIT.

#[global] Instance is_csv_dec r : Decision (is_csv r).
  Proof. unfold is_csv. apply _. Defined.
#[global] Instance is_fit_dec r : Decision (is_fit r).
  Proof. unfold is_fit. apply _. Defined.

Definition consolidate_body (raw_records : list RawWeightRecord)
    : result merge_error (list WeightMeasurement) :=
    let csv_records := filter is_csv raw_records in
    let fit_records := filter is_fit raw_records in
    let csv_by_timestamp := group_by_timestamp csv_records in
    let fit_by_timestamp := group_by_timestamp fit_records in
    state ←! merge_csv_groups csv_by_timestamp fit_by_timestamp [] ∅;
    let '(consolidated, matched_fit_timestamps) := state in
    consolidated ←! merge_fit_only fit_by_timestamp matched_fit_timestamps consolidated;
    Ok (sort_by_timestamp consolidated).

  (** The [try] ... [except Exception as e] around the body. *)
Definition consolidate (raw_records : list RawWeightRecord)
    : result consolidation_error (list WeightMeasurement) :=
    match consolidate_body raw_records with
    | Ok measurements => Ok measurements
    | Err e => Err (ConsolidationError e)
    end.
End Consolidation.

(** ** services/comparison.py *)

Record ComparisonResult := mk_comparison_result {
  csv_file_name : string;
  fit_file_name : string;
  csv_drive_id : string;
  fit_drive_id : string;
  csv_only_count : nat;
  fit_only_count : nat;
  both_count : nat;
  mismatches : gmap string nat;
  csv_min_timestamp : option datetime;
  csv_max_timestamp : option datetime;
  fit_min_timestamp : option datetime;
  fit_max_timestamp : option datetime;
  weight_mae : option Q;
}.

(** The truth value of an optional float: [None] and zero are false. *)
Definition truthy (v : option Q) : bool :=
  match v with
  | Some q => negb (Qeq_bool q 0)
  | None => false
  end.

(** [min] and [max] of a non-empty list of datetimes; the first of several
    equal instants wins. *)
Definition min_timestamp (l : list datetime) : option datetime :=
  match l with
  | [] => None
  | d :: l' => Some (foldl (λ acc x, if datetime_ltb x acc then x else acc) d l')
  end.

Definition max_timestamp (l : list datetime) : option datetime :=
  match l with
  | [] => None
  | d :: l' => Some (foldl (λ acc x, if datetime_ltb acc x then x else acc) d l')
  end.

(** [mismatches[field] += 1] on a [defaultdict(int)]. *)
Definition increment (field : string) (m : gmap string nat) : gmap string nat :=
  <[field := S (default 0%nat (m !! field))]> m.

(** The fields compared besides the weight. *)
Definition compared_fields : list string :=
  ["body_fat_pct"; "fat_mass_kg"; "fat_free_pct"; "fat_free_mass_kg"]%string.

(** The accumulators of the matching loop of [_compare_pair]. *)
Record compare_state := mk_compare_state {
  st_matched_fit_indices : gset nat;
  st_weight_differences : list Q;
  st_both_count : nat;
  st_csv_only_count : nat;
  st_mismatches : gmap string nat;
}.

Section Comparison.
Variable config : ProcessingConfig.

  (** The scan of [enumerate(fit_records)] up to the first match. *)
Fixpoint first_match (csv_record : RawWeightRecord)
      (fit_records : list RawWeightRecord) (fit_idx : nat)
    : option (nat * RawWeightRecord) :=
    match fit_records with
    | [] => None
    | fit_record :: rest =>
        if timestamps_match (timestamp csv_record) (timestamp fit_record)
             (timestamp_tolerance_seconds config)
        then Some (fit_idx, fit_record)
        else first_match csv_record rest (S fit_idx)
    end.

  (** The weight test of a matched pair: the difference that is recorded,
      if any. *)
Definition weight_difference (csv_record fit_record : RawWeightRecord) : option Q :=
    if truthy (weight_kg csv_record) && truthy (weight_kg fit_record)
    then
      match weight_kg csv_record, weight_kg fit_record with
      | Some c, Some f => Some (Qabs (c - f))
      | _, _ => None
      end
    else None.

  (** One round of the loop over the other compared fields. *)
Definition compare_field (csv_record fit_record : RawWeightRecord)
      (m : gmap string nat) (field : string) : gmap string nat :=
    match getattr csv_record field, getattr fit_record field with
    | Some c, Some f =>
        if within_tolerance (numeric_tolerance config) c f then m else increment field m
    | _, _ => m
    end.

  (** The body of the loop for a matched pair. *)
Definition compare_matched (st : compare_state) (fit_idx : nat)
      (csv_record fit_record : RawWeightRecord) : compare_state :=
    let diffs_mismatches :=
      match weight_difference csv_record fit_record with
      | Some diff =>
          (st_weight_differences st ++ [diff],
           if Qle_bool diff (numeric_tolerance config) then st_mismatches st
           else increment "weight_kg" (st_mismatches st))
      | None => (st_weight_differences st, st_mismatches st)
      end in
    {| st_matched_fit_indices := {[fit_idx]} ∪ st_matched_fit_indices st;
       st_weight_differences := diffs_mismatches.1;
       st_both_count := S (st_both_count st);
       st_csv_only_count := st_csv_only_count st;
       st_mismatches :=
         foldl (compare_field csv_record fit_record) diffs_mismatches.2 compared_fields |}.

  (** One round of the loop over [csv_records]. *)
Definition compare_step (fit_records : list RawWeightRecord)
      (st : compare_state) (csv_record : RawWeightRecord) : compare_state :=
    match first_match csv_record fit_records 0 with
    | Some (fit_idx, fit_record) => compare_matched st fit_idx csv_record fit_record
    | None =>
        {| st_matched_fit_indices := st_matched_fit_indices st;
           st_weight_differences := st_weight_differences st;
           st_both_count := st_both_count st;
           st_csv_only_count := S (st_csv_only_count st);
           st_mismatches := st_mismatches st |}
    end.

Definition initial_state : compare_state :=
    {| st_matched_fit_indices := ∅;
       st_weight_differences := [];
       st_both_count := 0;
       st_csv_only_count := 0;
       st_mismatches := ∅ |}.

  (** [sum(weight_differences) / len(weight_differences)] *)
Definition mean (l : list Q) : option Q :=
    match l with
    | [] => None
    | _ => Some (Qdiv (foldl Qplus 0%Q l) (inject_Z (Z.of_nat (length l))))
    end.

Definition _compare_pair (csv_records fit_records : list RawWeightRecord)
    : ComparisonResult :=
    let st := foldl (compare_step fit_records) initial_state csv_records in
    {| csv_file_name := from_option source_file_name "N/A"%string (head csv_records);
       fit_file_name := from_option source_file_name "N/A"%string (head fit_records);
       csv_drive_id := from_option source_file_id "N/A"%string (head csv_records);
       fit_drive_id := from_option source_file_id "N/A"%string (head fit_records);
       csv_only_count := st_csv_only_count st;
       fit_only_count :=
         length (filter (λ fit_idx, fit_idx ∉ st_matched_fit_indices st)
                   (seq 0 (length fit_records)));
       both_count := st_both_count st;
       mismatches := st_mismatches st;
       csv_min_timestamp := min_timestamp (timestamp <$> csv_records);
       csv_max_timestamp := max_timestamp (timestamp <$> csv_records);
       fit_min_timestamp := min_timestamp (timestamp <$> fit_records);
       fit_max_timestamp := max_timestamp (timestamp <$> fit_records);
       weight_mae := mean (st_weight_differences st) |}.
End Comparison.

(** ** Sample inputs

    Stand-ins for the library functions, used to run the model on concrete
    records: a rendering of the instant, a rendering of a rational in
    thousandths, and a digest that is the identity on the supported
    algorithm name. *)

Module Sample.
Definition isoformat (d : datetime) : string :=
    pretty (epoch_us d) +:+ "@" +:+ tzinfo d.

Definition format_3f (q : Q) : string :=
    pretty ((Qnum q * 1000) / Zpos (Qden q)).

Definition hexdigest (alg msg : string) : option string :=
    if decide (alg = "sha256"%string) then Some msg else None.

  (** The configuration of the repository's unit tests. *)
Definition config : ProcessingConfig :=
    {| timestamp_tolerance_seconds := 60;
       numeric_tolerance := (1 # 1000)%Q;
       record_id_config :=
         {| algorithm := "sha256";
            timestamp_rounding_seconds := 60;
            include_fields := ["timestamp"; "weight_kg"; "source_types"]%string |};
       conflict_resolution :=
         {| default_preference := None; field_preferences := ∅ |} |}.

  (** The same, with the binary source preferred on conflict. *)
Definition config_prefer_fit : ProcessingConfig :=
    {| timestamp_tolerance_seconds := 60;
       numeric_tolerance := (1 # 1000)%Q;
       record_id_config := record_id_config config;
       conflict_resolution :=
         {| default_preference := Some "fit"%string; field_preferences := ∅ |} |}.

  (** A record carrying a weight only. *)
Definition record (kind : SourceType.t) (seconds : Z) (weight : option Q)
      (file : string) : RawWeightRecord :=
    {| timestamp := at_second seconds "UTC";
       weight_kg := weight;
       body_fat_pct := None; fat_mass_kg := None; fat_free_pct := None;
       fat_free_mass_kg := None; skeletal_muscle_pct := None;
       skeletal_muscle_mass_kg := None; muscle_pct := None; muscle_mass_kg := None;
       bone_mass_kg := None; body_water := None; bmr_kcal := None;
       metabolic_age := None; visceral_fat_rating := None;
       source_file_name := file;
       source_file_id := file;
       source_type := kind |}.

Definition with_fat_mass (r : RawWeightRecord) (v : option Q) : RawWeightRecord :=
    {| timestamp := timestamp r; weight_kg := weight_kg r;
       body_fat_pct := body_fat_pct r; fat_mass_kg := v;
       fat_free_pct := fat_free_pct r; fat_free_mass_kg := fat_free_mass_kg r;
       skeletal_muscle_pct := skeletal_muscle_pct r;
       skeletal_muscle_mass_kg := skeletal_muscle_mass_kg r;
       muscle_pct := muscle_pct r; muscle_mass_kg := muscle_mass_kg r;
       bone_mass_kg := bone_mass_kg r; body_water := body_water r;
       bmr_kcal := bmr_kcal r; metabolic_age := metabolic_age r;
       visceral_fat_rating := visceral_fat_rating r;
       source_file_name := source_file_name r;
       source_file_id := source_file_id r;
       source_type := source_type r |}.

Definition with_body_fat (r : RawWeightRecord) (v : option Q) : RawWeightRecord :=
    {| timestamp := timestamp r; weight_kg := weight_kg r;
       body_fat_pct := v; fat_mass_kg := fat_mass_kg r;
       fat_free_pct := fat_free_pct r; fat_free_mass_kg := fat_free_mass_kg r;
       skeletal_muscle_pct := skeletal_muscle_pct r;
       skeletal_muscle_mass_kg := skeletal_muscle_mass_kg r;
       muscle_pct := muscle_pct r; muscle_mass_kg := muscle_mass_kg r;
       bone_mass_kg := bone_mass_kg r; body_water := body_water r;
       bmr_kcal := bmr_kcal r; metabolic_age := metabolic_age r;
       visceral_fat_rating := visceral_fat_rating r;
       source_file_name := source_file_name r;
       source_file_id := source_file_id r;
       source_type := source_type r |}.

Definition merge_records := _merge_records isoformat format_3f hexdigest.
Definition run := consolidate isoformat format_3f hexdigest.
End Sample.

(** * Properties *)

(** ** The identity generator *)

Section HashingProperties.
Variable isoformat : datetime → string.
Variable format_3f : Q → string.
Variable hexdigest : string → string → option string.

Lemma insert_sorted_csv (a b : nat) :
    insert_sorted "csv" (replicate a "csv"%string ++ replicate b "fit"%string)
    = replicate (S a) "csv"%string ++ replicate b "fit"%string.
  Proof. destruct a; [destruct b|]; reflexivity. Qed.

Lemma insert_sorted_fit (a b : nat) :
    insert_sorted "fit" (replicate a "csv"%string ++ replicate b "fit"%string)
    = replicate a "csv"%string ++ replicate (S b) "fit"%string.
  Proof.
    induction a as [|a IH]; simpl.
    - destruct b; reflexivity.
    - change (String.leb "fit" "csv") with false. simpl. by rewrite IH.
  Qed.

  (** Sorting the values of source kinds only counts them: all the "csv"
      come first, then all the "fit". *)
Lemma sorted_kinds (kinds : list SourceType.t) :
    sorted (SourceType.value <$> kinds)
    = replicate (length (filter (λ k, k = SourceType.CSV) kinds)) "csv"%string
      ++ replicate (length (filter (λ k, k = SourceType.FIT) kinds)) "fit"%string.
  Proof.
    induction kinds as [|k kinds IH]; [reflexivity|].
    rewrite fmap_cons. unfold sorted in *. cbn [foldr]. rewrite IH.
    destruct k; rewrite !filter_cons; simpl.
    - apply insert_sorted_csv.
    - apply insert_sorted_fit.
  Qed.

Lemma sorted_kinds_Permutation (kinds1 kinds2 : list SourceType.t) :
    kinds1 ≡ₚ kinds2 →
    sorted (SourceType.value <$> kinds1) = sorted (SourceType.value <$> kinds2).
  Proof. intros Hp. rewrite !sorted_kinds. by rewrite Hp. Qed.

  (** The identifier depends on the timestamp through its bucket only and
      on the kinds through their collection only. *)
Lemma generate_record_id_ext ts1 ts2 weight kinds1 kinds2 config :
    round_timestamp ts1 (timestamp_rounding_seconds config)
    = round_timestamp ts2 (timestamp_rounding_seconds config) →
    kinds1 ≡ₚ kinds2 →
    generate_record_id isoformat format_3f hexdigest ts1 weight kinds1 config
    = generate_record_id isoformat format_3f hexdigest ts2 weight kinds2 config.
  Proof.
    intros Hts Hk. unfold generate_record_id.
    by rewrite Hts, (sorted_kinds_Permutation _ _ Hk).
  Qed.

  (** C6.  Two calls of [generate_record_id] whose timestamps fall in the
      same bucket, with the same weight, the same configuration and the
      same source kinds presented in any two orders, return the same
      outcome: the same identifier string, or the same error. *)
Theorem generate_record_id_order_independent
      (ts1 ts2 : datetime) (weight : Q) (kinds1 kinds2 : list SourceType.t)
      (config : RecordIDConfig) :
    round_timestamp ts1 (timestamp_rounding_seconds config)
    = round_timestamp ts2 (timestamp_rounding_seconds config) →
    kinds1 ≡ₚ kinds2 →
    generate_record_id isoformat format_3f hexdigest ts1 weight kinds1 config
    = generate_record_id isoformat format_3f hexdigest ts2 weight kinds2 config.
  Proof. apply generate_record_id_ext. Qed.
End HashingProperties.

Lemma generate_record_id_order_independent_witness :
  generate_record_id Sample.isoformat Sample.format_3f Sample.hexdigest
    (at_second 1705314600 "UTC") (151 # 2)%Q [SourceType.CSV; SourceType.FIT]
    (record_id_config Sample.config)
  = generate_record_id Sample.isoformat Sample.format_3f Sample.hexdigest
      (at_second 1705314659 "UTC") (151 # 2)%Q [SourceType.FIT; SourceType.CSV]
      (record_id_config Sample.config).
Proof.
  apply (generate_record_id_order_independent
           Sample.isoformat Sample.format_3f Sample.hexdigest).
  - reflexivity.
  - apply perm_swap.
Defined.

(** Whole-second instants are bucketed by floor division, whatever their
    sign. *)
Lemma round_timestamp_whole_second (s n : Z) (tz : string) :
  n ≠ 0 → round_timestamp (at_second s tz) n = Ok (at_second (s / n * n) tz).
Proof.
  intros Hn. unfold round_timestamp, posix_seconds. cbn [at_second epoch_us tzinfo].
  rewrite Z.quot_mul by lia.
  destruct (Z.eqb_spec n 0); [lia|done].
Qed.

(** From the epoch on, and less than 2^34 seconds from it, every instant
    is bucketed by floor division of its second. *)
Lemma round_timestamp_from_epoch (ts : datetime) (n : Z) :
  0 ≤ epoch_us ts < 2 ^ 34 * 1000000 → n ≠ 0 →
  round_timestamp ts n = Ok (at_second (epoch_us ts / 1000000 / n * n) (tzinfo ts)).
Proof.
  intros Hts Hn. unfold round_timestamp, posix_seconds.
  rewrite Z.quot_div_nonneg by lia.
  destruct (Z.eqb_spec n 0); [lia|done].
Qed.

(** With a 60-second bucket, second 0 and second 59 of every minute share
    the bucket that starts at that minute, and second 0 of the next minute
    starts the next one. *)
Lemma round_timestamp_minute (minute : Z) (tz : string) :
  round_timestamp (at_second (60 * minute) tz) 60 = Ok (at_second (60 * minute) tz)
  ∧ round_timestamp (at_second (60 * minute + 59) tz) 60 = Ok (at_second (60 * minute) tz)
  ∧ round_timestamp (at_second (60 * (minute + 1)) tz) 60
    = Ok (at_second (60 * minute + 60) tz).
Proof.
  rewrite !round_timestamp_whole_second by lia.
  repeat split; do 2 f_equal.
  - rewrite (Z.mul_comm 60), Z.div_mul by lia. lia.
  - replace (60 * minute + 59) with (59 + minute * 60) by lia.
    rewrite Z.div_add by lia. change (59 / 60) with 0. lia.
  - rewrite (Z.mul_comm 60), Z.div_mul by lia. lia.
Qed.

(** C7.  The bucketing cuts the POSIX time to whole seconds towards zero
    before it divides, so an instant before the epoch with a fraction of a
    second is moved up: half a second before the epoch, inside second 59 of
    the minute 23:59 of 1969-12-31, lands in the bucket of the epoch itself,
    after the instant, while second 0 of the same minute lands in the
    bucket sixty seconds earlier. *)
Theorem round_timestamp_before_epoch_rounds_up :
  let second_59 := mk_datetime (-500000) "UTC" in
  let second_0 := at_second (-60) "UTC" in
  round_timestamp second_59 60 = Ok (at_second 0 "UTC")
  ∧ round_timestamp second_0 60 = Ok (at_second (-60) "UTC")
  ∧ datetime_ltb second_59 (at_second 0 "UTC") = true.
Proof. repeat split. Qed.

(** ** The field merge resolver *)

(** The value a conflict resolves to, in the words of the specification:
    the per-field preference, falling back to the default preference,
    falling back to the tabular value. *)
Definition spec_conflict_value (cr : ConflictResolutionConfig) (field_name : string)
    (c f : Q) : Q :=
  let by_name (p : string) :=
    if decide (p = "csv"%string) then c
    else if decide (p = "fit"%string) then f
    else c in
  match field_preferences cr !! field_name with
  | Some p => by_name p
  | None =>
      match default_preference cr with
      | Some p => by_name p
      | None => c
      end
  end.

Lemma within_tolerance_le (tolerance a b : Q) :
  within_tolerance tolerance a b = true ↔ (Qabs (a - b) <= tolerance)%Q.
Proof. apply Qle_bool_iff. Qed.

Lemma within_tolerance_not_le (tolerance a b : Q) :
  within_tolerance tolerance a b = false ↔ ¬ (Qabs (a - b) <= tolerance)%Q.
Proof.
  rewrite <- within_tolerance_le. destruct (within_tolerance tolerance a b); naive_solver.
Qed.

Lemma merge_field_conflict_value (config : ProcessingConfig) (field_name : string)
    (c f : Q) :
  within_tolerance (numeric_tolerance config) c f = false →
  _merge_field config (Some c) (Some f) field_name
  = (Some (spec_conflict_value (conflict_resolution config) field_name c f),
     FieldSource.CONFLICT, true).
Proof.
  intros Htol. unfold _merge_field, spec_conflict_value, preference_for. rewrite Htol.
  destruct (field_preferences (conflict_resolution config) !! field_name) as [p|];
    [|destruct (default_preference (conflict_resolution config)) as [p|]];
    repeat case_decide; simplify_eq; done.
Qed.

(** C3.  The four cases of the single-field merge: nothing on either side;
    a value on one side only; two values within the numeric tolerance; two
    values beyond it, where the preferred value is returned under the
    conflict tag with the conflict flag raised. *)
Theorem merge_field_cases (config : ProcessingConfig) (field_name : string) :
  _merge_field config None None field_name = (None, FieldSource.MERGED, false)
  ∧ (∀ c, _merge_field config (Some c) None field_name
          = (Some c, FieldSource.CSV, false))
  ∧ (∀ f, _merge_field config None (Some f) field_name
          = (Some f, FieldSource.FIT, false))
  ∧ (∀ c f, (Qabs (c - f) <= numeric_tolerance config)%Q →
            _merge_field config (Some c) (Some f) field_name
            = (Some c, FieldSource.MERGED, false))
  ∧ (∀ c f, ¬ (Qabs (c - f) <= numeric_tolerance config)%Q →
            _merge_field config (Some c) (Some f) field_name
            = (Some (spec_conflict_value (conflict_resolution config) field_name c f),
               FieldSource.CONFLICT, true)).
Proof.
  repeat split; try done.
  - intros c f Hle. unfold _merge_field.
    by rewrite (proj2 (within_tolerance_le _ _ _) Hle).
  - intros c f Hnle. apply merge_field_conflict_value.
    by apply within_tolerance_not_le.
Qed.

(** The conflict flag of a field merge is raised exactly when both sides
    carry a value and the two differ by more than the tolerance. *)
Lemma merge_field_conflict_iff (config : ProcessingConfig) (a b : option Q)
    (field_name : string) :
  (_merge_field config a b field_name).2 = true
  ↔ ∃ c f, a = Some c ∧ b = Some f ∧ ¬ (Qabs (c - f) <= numeric_tolerance config)%Q.
Proof.
  split.
  - destruct a as [c|], b as [f|]; try done.
    destruct (within_tolerance (numeric_tolerance config) c f) eqn:Htol.
    + unfold _merge_field. by rewrite Htol.
    + intros _. exists c, f. by rewrite <- within_tolerance_not_le.
  - intros (c & f & -> & -> & Hnle).
    apply within_tolerance_not_le in Hnle.
    by rewrite merge_field_conflict_value.
Qed.

(** The provenance tag says "conflict" exactly when the flag is raised. *)
Lemma merge_field_tag_conflict (config : ProcessingConfig) (a b : option Q)
    (field_name : string) :
  (_merge_field config a b field_name).1.2 = FieldSource.CONFLICT
  ↔ (_merge_field config a b field_name).2 = true.
Proof.
  unfold _merge_field. destruct a, b; try done.
  destruct (within_tolerance _ _ _); [done|]. by repeat case_decide.
Qed.

(** ** Merging one group *)

(** The value a side supplies for a field: that of its first record. *)
Definition representative_value (records : list RawWeightRecord) (field : string)
  : option Q :=
  head records ≫= λ r, getattr r field.

Lemma field_or_none_head (records : list RawWeightRecord) (field : string)
    (proj : RawWeightRecord → option Q) :
  (∀ r, getattr r field = proj r) →
  field_or_none (head records) proj = representative_value records field.
Proof.
  intros Hproj. unfold representative_value.
  destruct (head records) as [r|]; simpl; [by rewrite Hproj|done].
Qed.

Section MergeRecordsProperties.
Variable isoformat : datetime → string.
Variable format_3f : Q → string.
Variable hexdigest : string → string → option string.
Variable config : ProcessingConfig.

Abbreviation merge_records := (_merge_records isoformat format_3f hexdigest config).

  (** The field merge a group performs for a field. *)
Definition field_merge (csv_records fit_records : list RawWeightRecord)
      (field : string) : option Q * FieldSource.t * bool :=
    _merge_field config (representative_value csv_records field)
      (representative_value fit_records field) field.

  (** The source kinds of a group, as the identity generator receives them. *)
Definition group_kinds (csv_records fit_records : list RawWeightRecord)
    : gset SourceType.t :=
    list_to_set (source_type <$> csv_records ++ fit_records).

Ltac expose_merges :=
    repeat match goal with
    | |- context [match _merge_field ?c ?a ?b ?n with _ => _ end] =>
        let H := fresh "Hmerge" in
        destruct (_merge_field c a b n) as [[? ?] ?] eqn:H
    | H : context [match _merge_field ?c ?a ?b ?n with _ => _ end] |- _ =>
        let H' := fresh "Hmerge" in
        destruct (_merge_field c a b n) as [[? ?] ?] eqn:H'
    end.

  (** What a successful merge returns. *)
Lemma merge_records_Ok_inv (csv_records fit_records : list RawWeightRecord)
      (m : WeightMeasurement) :
    merge_records csv_records fit_records = Ok m →
    ∃ first rest w,
      csv_records ++ fit_records = first :: rest
      ∧ (field_merge csv_records fit_records "weight_kg").1.1 = Some w
      ∧ generate_record_id isoformat format_3f hexdigest (timestamp first) w
          (elements (group_kinds csv_records fit_records)) (record_id_config config)
        = Ok (record_id m)
      ∧ m_timestamp m = timestamp first
      ∧ m_weight_kg m = Some w
      ∧ source_files m = source_file_name <$> csv_records ++ fit_records
      ∧ drive_file_ids m = source_file_id <$> csv_records ++ fit_records
      ∧ source_types m = group_kinds csv_records fit_records
      ∧ conflicting_fields m
        = (if (field_merge csv_records fit_records "weight_kg").2
           then ["weight_kg"%string] else [])
          ++ (if (field_merge csv_records fit_records "body_fat_pct").2
              then ["body_fat_pct"%string] else [])
      ∧ chosen_source m = None.
  Proof.
    unfold _merge_records, field_merge, group_kinds.
    rewrite <- !(field_or_none_head csv_records _ weight_kg) by done.
    rewrite <- !(field_or_none_head fit_records _ weight_kg) by done.
    rewrite <- !(field_or_none_head csv_records _ body_fat_pct) by done.
    rewrite <- !(field_or_none_head fit_records _ body_fat_pct) by done.
    destruct (csv_records ++ fit_records) as [|first rest] eqn:Hall; [done|].
    rewrite <- Hall. cbv zeta. expose_merges.
    destruct o as [w|]; [|done].
    destruct (generate_record_id _ _ _ _ _ _ _) as [rid|e] eqn:Hid; [|done].
    intros [= <-]. exists first, rest, w. simpl. by rewrite Hid.
  Qed.

  (** When a merge succeeds. *)
Lemma merge_records_Ok (csv_records fit_records : list RawWeightRecord)
      (first : RawWeightRecord) (rest : list RawWeightRecord) (w : Q) (rid : string) :
    csv_records ++ fit_records = first :: rest →
    (field_merge csv_records fit_records "weight_kg").1.1 = Some w →
    generate_record_id isoformat format_3f hexdigest (timestamp first) w
      (elements (group_kinds csv_records fit_records)) (record_id_config config)
    = Ok rid →
    ∃ m, merge_records csv_records fit_records = Ok m.
  Proof.
    unfold _merge_records, field_merge, group_kinds.
    rewrite <- !(field_or_none_head csv_records _ weight_kg) by done.
    rewrite <- !(field_or_none_head fit_records _ weight_kg) by done.
    intros Hall. rewrite Hall, <- Hall. cbv zeta. expose_merges.
    simpl. intros -> ->. eauto.
  Qed.

  (** A group whose merged weight is absent raises the missing-weight
      error. *)
Lemma merge_records_missing_weight (csv_records fit_records : list RawWeightRecord) :
    csv_records ++ fit_records ≠ [] →
    (field_merge csv_records fit_records "weight_kg").1.1 = None →
    merge_records csv_records fit_records = Err MissingWeight.
  Proof.
    unfold _merge_records, field_merge.
    rewrite <- !(field_or_none_head csv_records _ weight_kg) by done.
    rewrite <- !(field_or_none_head fit_records _ weight_kg) by done.
    destruct (csv_records ++ fit_records) as [|first rest] eqn:Hall; [done|].
    intros _. cbv zeta. expose_merges. simpl. by intros ->.
  Qed.

  (** The merged weight of a group is absent exactly when neither
      representative carries one. *)
Lemma field_merge_value_None (csv_records fit_records : list RawWeightRecord)
      (field : string) :
    (field_merge csv_records fit_records field).1.1 = None
    ↔ representative_value csv_records field = None
      ∧ representative_value fit_records field = None.
  Proof.
    unfold field_merge. split; [|by intros [-> ->]].
    unfold _merge_field.
    destruct (representative_value csv_records field),
             (representative_value fit_records field); try done.
    destruct (within_tolerance _ _ _); [done|]. by repeat case_decide.
  Qed.
End MergeRecordsProperties.

Section ConflictListing.
Variable isoformat : datetime → string.
Variable format_3f : Q → string.
Variable hexdigest : string → string → option string.
Variable config : ProcessingConfig.

(** Both sides supply a value for the field and the two differ by more
    than the numeric tolerance. *)
Definition supplied_and_differ (csv_records fit_records : list RawWeightRecord)
    (field : string) : Prop :=
  ∃ c f, representative_value csv_records field = Some c
         ∧ representative_value fit_records field = Some f
         ∧ ¬ (Qabs (c - f) <= numeric_tolerance config)%Q.

(** The listing of conflicts the measurement model describes: each of the
    fourteen fields is listed exactly when it conflicts. *)
Definition lists_every_conflict (csv_records fit_records : list RawWeightRecord)
    (m : WeightMeasurement) : Prop :=
  ∀ field, field ∈ numeric_fields →
    (field ∈ conflicting_fields m ↔ supplied_and_differ csv_records fit_records field).

(** What the list of conflicting fields holds: every listed field is one
    of the fourteen numeric fields for which both sides supplied a value,
    the two differing by more than the numeric tolerance; and the weight
    and the body-fat percentage are listed whenever they conflict in this
    sense. *)
Theorem conflicting_fields_characterised
    (csv_records fit_records : list RawWeightRecord) (m : WeightMeasurement) :
  _merge_records isoformat format_3f hexdigest config csv_records fit_records = Ok m →
  (∀ field, field ∈ conflicting_fields m →
     field ∈ numeric_fields ∧ supplied_and_differ csv_records fit_records field)
  ∧ (∀ field, field = "weight_kg"%string ∨ field = "body_fat_pct"%string →
       supplied_and_differ csv_records fit_records field →
       field ∈ conflicting_fields m).
Proof.
  intros Hm.
  apply merge_records_Ok_inv in Hm
    as (first & rest & w & _ & _ & _ & _ & _ & _ & _ & _ & Hconf & _).
  rewrite Hconf. unfold supplied_and_differ, field_merge.
  setoid_rewrite <- merge_field_conflict_iff. split.
  - intros field [Hin|Hin]%elem_of_app.
    + destruct (_merge_field _ _ _ "weight_kg").2 eqn:Hflag;
        [|by apply elem_of_nil in Hin].
      apply list_elem_of_singleton in Hin as ->. split; [|done].
      unfold numeric_fields. set_solver.
    + destruct (_merge_field _ _ _ "body_fat_pct").2 eqn:Hflag;
        [|by apply elem_of_nil in Hin].
      apply list_elem_of_singleton in Hin as ->. split; [|done].
      unfold numeric_fields. set_solver.
  - intros field [->| ->] ->; set_solver.
Qed.

(** Only the weight and the body-fat percentage are ever listed: the
    conflict flag of the twelve other field merges is dropped. *)
Lemma conflicting_fields_among_two
    (csv_records fit_records : list RawWeightRecord) (m : WeightMeasurement) :
  _merge_records isoformat format_3f hexdigest config csv_records fit_records = Ok m →
  ∀ field, field ∈ conflicting_fields m →
    field = "weight_kg"%string ∨ field = "body_fat_pct"%string.
Proof.
  intros Hm.
  apply merge_records_Ok_inv in Hm
    as (first & rest & w & _ & _ & _ & _ & _ & _ & _ & _ & Hconf & _).
  rewrite Hconf. intros field [Hin|Hin]%elem_of_app.
  - destruct (field_merge _ _ _ "weight_kg").2; [|by apply elem_of_nil in Hin].
    left. by apply list_elem_of_singleton in Hin.
  - destruct (field_merge _ _ _ "body_fat_pct").2; [|by apply elem_of_nil in Hin].
    right. by apply list_elem_of_singleton in Hin.
Qed.

(** No merge sets the chosen-source tag. *)
Lemma merge_records_chosen_source
    (csv_records fit_records : list RawWeightRecord) (m : WeightMeasurement) :
  _merge_records isoformat format_3f hexdigest config csv_records fit_records = Ok m →
  chosen_source m = None.
Proof.
  intros Hm.
  by apply merge_records_Ok_inv in Hm
    as (first & rest & w & _ & _ & _ & _ & _ & _ & _ & _ & _ & Hchosen).
Qed.
End ConflictListing.

Module Scenario.
Import Sample.

(** The records of the repository's conflict test: the same instant,
    75.5 kg in the tabular export and 76.0 kg in the binary one. *)
Definition csv_755 : RawWeightRecord :=
  with_body_fat (record SourceType.CSV 1705314600 (Some (151 # 2)%Q) "test.csv")
    (Some (91 # 5)%Q).
Definition fit_760 : RawWeightRecord :=
  with_body_fat (record SourceType.FIT 1705314600 (Some (76 # 1)%Q) "test.fit")
    (Some (37 # 2)%Q).

(** Equal weights, fat masses of 10 kg and 20 kg. *)
Definition csv_fat_10 : RawWeightRecord :=
  with_fat_mass (record SourceType.CSV 1705314600 (Some (151 # 2)%Q) "test.csv")
    (Some (10 # 1)%Q).
Definition fit_fat_20 : RawWeightRecord :=
  with_fat_mass (record SourceType.FIT 1705314600 (Some (151 # 2)%Q) "test.fit")
    (Some (20 # 1)%Q).

(** A tabular record with a weight, and a binary record a long time
    later that carries no weight. *)
Definition csv_valid : RawWeightRecord :=
  record SourceType.CSV 1705314600 (Some (151 # 2)%Q) "test.csv".
Definition fit_no_weight : RawWeightRecord :=
  record SourceType.FIT 1705400000 None "late.fit".
End Scenario.

Lemma conflicting_fields_characterised_witness :
  ∃ m, Sample.merge_records Sample.config [Scenario.csv_755] [Scenario.fit_760] = Ok m
       ∧ (∀ field, field ∈ conflicting_fields m →
            field ∈ numeric_fields
            ∧ supplied_and_differ Sample.config
                [Scenario.csv_755] [Scenario.fit_760] field)
       ∧ (∀ field, field = "weight_kg"%string ∨ field = "body_fat_pct"%string →
            supplied_and_differ Sample.config
              [Scenario.csv_755] [Scenario.fit_760] field →
            field ∈ conflicting_fields m).
Proof.
  eexists. split; [vm_compute; reflexivity|].
  apply (conflicting_fields_characterised
           Sample.isoformat Sample.format_3f Sample.hexdigest).
  vm_compute. reflexivity.
Defined.

(** C1.  One tabular and one binary record at the same instant agree on
    the weight and carry fat masses of 10 kg and 20 kg, which differ by
    far more than the tolerance of 0.001.  The measurement is built, its
    provenance map tags the fat mass as conflicting, and its list of
    conflicting fields is empty: the list does not hold every field in
    conflict. *)
Theorem fat_mass_conflict_not_listed :
  ∃ m, Sample.run Sample.config [Scenario.csv_fat_10; Scenario.fit_fat_20] = Ok [m]
       ∧ supplied_and_differ Sample.config
           [Scenario.csv_fat_10] [Scenario.fit_fat_20] "fat_mass_kg"
       ∧ field_sources m !! "fat_mass_kg"%string = Some FieldSource.CONFLICT
       ∧ conflicting_fields m = []
       ∧ ¬ lists_every_conflict Sample.config
             [Scenario.csv_fat_10] [Scenario.fit_fat_20] m.
Proof.
  assert (supplied_and_differ Sample.config
            [Scenario.csv_fat_10] [Scenario.fit_fat_20] "fat_mass_kg") as Hdiffer.
  { exists (10 # 1)%Q, (20 # 1)%Q. repeat split.
    intros Hle. by vm_compute in Hle. }
  eexists. split; [vm_compute; reflexivity|].
  split; [exact Hdiffer|]. split; [reflexivity|]. split; [reflexivity|].
  intros Hall.
  destruct (Hall "fat_mass_kg"%string) as [_ Hlisted].
  { apply list_elem_of_In. simpl. tauto. }
  by apply Hlisted, elem_of_nil in Hdiffer.
Qed.

(** The merge reads the first record of each side only.  The tabular
    source has two records at the same instant, the second of which
    carries a body-fat percentage of 18.2 against 25 in the binary source:
    the body-fat percentage is not listed. *)
Lemma later_record_conflict_not_listed :
  ∃ m, Sample.run Sample.config
         [Scenario.csv_valid; Scenario.csv_755;
          Sample.with_body_fat Scenario.fit_760 (Some (25 # 1)%Q)] = Ok [m]
       ∧ body_fat_pct Scenario.csv_755 = Some (91 # 5)%Q
       ∧ ¬ (Qabs ((91 # 5) - (25 # 1)) <= numeric_tolerance Sample.config)%Q
       ∧ "body_fat_pct"%string ∉ conflicting_fields m.
Proof.
  eexists. split; [vm_compute; reflexivity|].
  repeat split.
  - intros Hle. by vm_compute in Hle.
  - intros Hin. apply list_elem_of_In in Hin. simpl in Hin.
    destruct Hin as [Hin|[]]. discriminate Hin.
Qed.

(** C8.  With the binary source preferred by default, the conflicting
    weights 75.5 and 76.0 resolve to the binary value 76.0 under the
    conflict tag, and the measurement carries no chosen-source tag. *)
Theorem chosen_source_absent_after_preference :
  ∃ m, Sample.run Sample.config_prefer_fit [Scenario.csv_755; Scenario.fit_760] = Ok [m]
       ∧ m_weight_kg m = Some (76 # 1)%Q
       ∧ field_sources m !! "weight_kg"%string = Some FieldSource.CONFLICT
       ∧ "weight_kg"%string ∈ conflicting_fields m
       ∧ chosen_source m = None.
Proof.
  eexists. split; [vm_compute; reflexivity|].
  repeat split; try reflexivity. set_solver.
Qed.

(** ** The loops of [consolidate] as maps over the groups *)

(** Running a fallible function over a list, stopping at the first error. *)
Fixpoint traverse {E A B} (f : A → result E B) (l : list A) : result E (list B) :=
  match l with
  | [] => Ok []
  | x :: l' =>
      y ←! f x;
      ys ←! traverse f l';
      Ok (y :: ys)
  end.

Lemma traverse_app {E A B} (f : A → result E B) (l1 l2 : list A) :
  traverse f (l1 ++ l2)
  = (ys1 ←! traverse f l1; ys2 ←! traverse f l2; Ok (ys1 ++ ys2)).
Proof.
  induction l1 as [|x l1 IH]; simpl.
  - by destruct (traverse f l2).
  - destruct (f x); [|done]. simpl. rewrite IH.
    destruct (traverse f l1); [|done]. simpl. by destruct (traverse f l2).
Qed.

Lemma traverse_Ok_Forall2 {E A B} (f : A → result E B) (l : list A) (ys : list B) :
  traverse f l = Ok ys ↔ Forall2 (λ x y, f x = Ok y) l ys.
Proof.
  revert ys. induction l as [|x l IH]; intros ys; simpl.
  - split; [by intros [= <-]|by intros ->%Forall2_nil_inv_l].
  - destruct (f x) as [y|e] eqn:Hx; simpl.
    + destruct (traverse f l) as [ys'|e] eqn:Hl; simpl.
      * split.
        -- intros [= <-]. constructor; [done|]. by apply IH.
        -- intros (y' & ys'' & Hy & Hys & ->)%Forall2_cons_inv_l.
           apply IH in Hys. congruence.
      * split; [done|].
        intros (y' & ys'' & Hy & Hys & ->)%Forall2_cons_inv_l.
        by apply IH in Hys.
    + split; [done|].
      intros (y' & ys'' & Hy & Hys & ->)%Forall2_cons_inv_l. congruence.
Qed.

Lemma traverse_Err_elem {E A B} (f : A → result E B) (l : list A) (x : A) (e : E) :
  x ∈ l → f x = Err e → ∃ e', traverse f l = Err e'.
Proof.
  intros Hin Hx. induction Hin as [x l|x y l Hin IH]; simpl.
  - rewrite Hx. eauto.
  - destruct (f y); [|eauto]. simpl. destruct (IH Hx) as [e' ->]. eauto.
Qed.

Lemma traverse_Ok_all {E A B} (f : A → result E B) (l : list A) :
  (∀ x, x ∈ l → ∃ y, f x = Ok y) → ∃ ys, traverse f l = Ok ys.
Proof.
  induction l as [|x l IH]; intros Hall; simpl; [eauto|].
  destruct (Hall x) as [y ->]; [left|]. simpl.
  destruct IH as [ys ->]; [|simpl; eauto].
  intros x' Hx'. apply Hall. by right.
Qed.

Lemma traverse_Ok_length {E A B} (f : A → result E B) (l : list A) (ys : list B) :
  traverse f l = Ok ys → length ys = length l.
Proof. intros H%traverse_Ok_Forall2. symmetry. by eapply Forall2_length. Qed.

Lemma traverse_Ok_elem_l {E A B} (f : A → result E B) (l : list A) (ys : list B)
    (x : A) :
  traverse f l = Ok ys → x ∈ l → ∃ y, y ∈ ys ∧ f x = Ok y.
Proof.
  intros H%traverse_Ok_Forall2 Hin.
  induction H as [|x' y' l ys Hxy H IH]; [by apply elem_of_nil in Hin|].
  apply elem_of_cons in Hin as [->|Hin].
  - exists y'. split; [left|done].
  - destruct (IH Hin) as (y & Hy & Hfx). exists y. split; [by right|done].
Qed.

Lemma traverse_Ok_elem_r {E A B} (f : A → result E B) (l : list A) (ys : list B)
    (y : B) :
  traverse f l = Ok ys → y ∈ ys → ∃ x, x ∈ l ∧ f x = Ok y.
Proof.
  intros H%traverse_Ok_Forall2 Hin.
  induction H as [|x' y' l ys Hxy H IH]; [by apply elem_of_nil in Hin|].
  apply elem_of_cons in Hin as [->|Hin].
  - exists x'. split; [left|done].
  - destruct (IH Hin) as (x & Hx & Hfx). exists x. split; [by right|done].
Qed.

Section ConsolidateStructure.
Variable isoformat : datetime → string.
Variable format_3f : Q → string.
Variable hexdigest : string → string → option string.
Variable config : ProcessingConfig.

Abbreviation groups := (list (datetime * list RawWeightRecord)).

(** The binary group lies within the timestamp tolerance of the instant. *)
Definition matches (csv_ts : datetime) (g : datetime * list RawWeightRecord) : Prop :=
  timestamps_match csv_ts g.1 (timestamp_tolerance_seconds config) = true.

#[global] Instance matches_dec csv_ts g : Decision (matches csv_ts g).
Proof. unfold matches. apply _. Defined.

(** The binary records a tabular group absorbs, in encounter order. *)
Definition matched_records (csv_ts : datetime) (fit_groups : groups)
  : list RawWeightRecord :=
  filter (matches csv_ts) fit_groups ≫= snd.

Definition matched_instants (csv_ts : datetime) (fit_groups : groups) : gset Z :=
  list_to_set ((λ g, epoch_us g.1) <$> filter (matches csv_ts) fit_groups).

(** The instants of the binary groups some tabular group absorbs. *)
Definition claimed_instants (csv_groups fit_groups : groups) : gset Z :=
  ⋃ ((λ g, matched_instants g.1 fit_groups) <$> csv_groups).

Definition unclaimed (csv_groups fit_groups : groups)
    (g : datetime * list RawWeightRecord) : Prop :=
  epoch_us g.1 ∉ claimed_instants csv_groups fit_groups.

(** The groups that are merged, each as its tabular and its binary
    records: the tabular groups with what they absorb, then the binary
    groups left over. *)
Definition groupings (csv_groups fit_groups : groups)
  : list (list RawWeightRecord * list RawWeightRecord) :=
  ((λ g, (g.2, matched_records g.1 fit_groups)) <$> csv_groups)
  ++ ((λ g, ([], g.2)) <$> filter (unclaimed csv_groups fit_groups) fit_groups).

Definition csv_groups_of (raw_records : list RawWeightRecord) : groups :=
  group_by_timestamp (filter is_csv raw_records).
Definition fit_groups_of (raw_records : list RawWeightRecord) : groups :=
  group_by_timestamp (filter is_fit raw_records).

Definition groupings_of (raw_records : list RawWeightRecord)
  : list (list RawWeightRecord * list RawWeightRecord) :=
  groupings (csv_groups_of raw_records) (fit_groups_of raw_records).

Definition merge_grouping (g : list RawWeightRecord * list RawWeightRecord)
  : result merge_error WeightMeasurement :=
  _merge_records isoformat format_3f hexdigest config g.1 g.2.

Lemma scan_fit_groups_spec (csv_ts : datetime) (fit_groups : groups)
    (recs : list RawWeightRecord) (matched : gset Z) :
  scan_fit_groups config csv_ts fit_groups recs matched
  = (recs ++ matched_records csv_ts fit_groups,
     matched_instants csv_ts fit_groups ∪ matched).
Proof.
  unfold matched_records, matched_instants.
  revert recs matched. induction fit_groups as [|[fit_ts fit_recs] rest IH];
    intros recs matched; simpl.
  - rewrite app_nil_r. f_equal. by rewrite union_empty_l_L.
  - destruct (decide (matches csv_ts (fit_ts, fit_recs))) as [Hm|Hm].
    + rewrite filter_cons_True by done. unfold matches in Hm. simpl in Hm.
      rewrite Hm, IH. simpl. rewrite <- app_assoc, union_assoc_L.
      by rewrite (union_comm_L _ {[epoch_us fit_ts]}).
    + rewrite filter_cons_False by done. unfold matches in Hm. simpl in Hm.
      apply not_true_is_false in Hm. rewrite Hm. apply IH.
Qed.

Lemma merge_csv_groups_spec (csv_groups fit_groups : groups)
    (consolidated : list WeightMeasurement) (matched : gset Z) :
  merge_csv_groups isoformat format_3f hexdigest config
    csv_groups fit_groups consolidated matched
  = (ms ←! traverse merge_grouping
             ((λ g, (g.2, matched_records g.1 fit_groups)) <$> csv_groups);
     Ok (consolidated ++ ms, claimed_instants csv_groups fit_groups ∪ matched)).
Proof.
  unfold claimed_instants.
  revert consolidated matched. induction csv_groups as [|[csv_ts csv_recs] rest IH];
    intros consolidated matched; simpl.
  - by rewrite app_nil_r, union_empty_l_L.
  - rewrite scan_fit_groups_spec. simpl. unfold merge_grouping at 1. simpl.
    destruct (_merge_records _ _ _ _ _ _) as [m|e]; [|done]. simpl.
    rewrite IH. destruct (traverse _ _) as [ms|e]; [|done]. simpl.
    rewrite <- app_assoc, union_assoc_L.
    by rewrite (union_comm_L _ (matched_instants _ _)).
Qed.

Lemma merge_fit_only_spec (fit_groups : groups) (matched : gset Z)
    (consolidated : list WeightMeasurement) :
  merge_fit_only isoformat format_3f hexdigest config fit_groups matched consolidated
  = (ms ←! traverse merge_grouping
             ((λ g, ([], g.2)) <$> filter (λ g, epoch_us g.1 ∉ matched) fit_groups);
     Ok (consolidated ++ ms)).
Proof.
  revert consolidated. induction fit_groups as [|[fit_ts fit_recs] rest IH];
    intros consolidated; simpl.
  - by rewrite app_nil_r.
  - rewrite filter_cons. simpl. destruct (decide (epoch_us fit_ts ∈ matched)).
    + rewrite decide_False by (by intros ?). apply IH.
    + rewrite decide_True by done. simpl. unfold merge_grouping at 1. simpl.
      destruct (_merge_records _ _ _ _ _ _) as [m|e]; [|done]. simpl.
      rewrite IH. destruct (traverse _ _) as [ms|e]; [|done]. simpl.
      by rewrite <- app_assoc.
Qed.

(** [consolidate] merges every grouping in turn and sorts what it got. *)
Lemma consolidate_body_spec (raw_records : list RawWeightRecord) :
  consolidate_body isoformat format_3f hexdigest config raw_records
  = (ms ←! traverse merge_grouping (groupings_of raw_records);
     Ok (sort_by_timestamp ms)).
Proof.
  unfold consolidate_body, groupings_of, groupings.
  fold (csv_groups_of raw_records). fold (fit_groups_of raw_records).
  rewrite merge_csv_groups_spec, traverse_app.
  destruct (traverse merge_grouping (_ <$> csv_groups_of raw_records)) as [ms1|e];
    [|done].
  simpl. rewrite merge_fit_only_spec, union_empty_r_L.
  by destruct (traverse _ _).
Qed.
End ConsolidateStructure.

(** ** Grouping by instant *)

Definition instant (r : RawWeightRecord) : Z := epoch_us (timestamp r).

Definition group_instants (gs : list (datetime * list RawWeightRecord)) : list Z :=
  (λ g, epoch_us g.1) <$> gs.

Lemma group_by_timestamp_snoc (l : list RawWeightRecord) (r : RawWeightRecord) :
  group_by_timestamp (l ++ [r]) = group_append (group_by_timestamp l) r.
Proof. unfold group_by_timestamp. by rewrite foldl_app. Qed.

(** A record at a new instant opens a group at the end. *)
Lemma group_append_fresh (gs : list (datetime * list RawWeightRecord))
    (r : RawWeightRecord) :
  instant r ∉ group_instants gs → group_append gs r = gs ++ [(timestamp r, [r])].
Proof.
  induction gs as [|[k rs] gs IH]; simpl; [done|].
  intros Hfresh. apply not_elem_of_cons in Hfresh as [Hne Hfresh].
  unfold datetime_eqb. destruct (Z.eqb_spec (epoch_us k) (epoch_us (timestamp r)));
    [by unfold instant in Hne|].
  by rewrite IH.
Qed.

(** A record at a known instant joins the group of that instant, at its
    end. *)
Lemma group_append_known (gs : list (datetime * list RawWeightRecord))
    (r : RawWeightRecord) :
  instant r ∈ group_instants gs →
  ∃ gs1 k rs gs2,
    gs = gs1 ++ (k, rs) :: gs2
    ∧ epoch_us k = instant r
    ∧ (instant r ∉ group_instants gs1)
    ∧ group_append gs r = gs1 ++ (k, rs ++ [r]) :: gs2.
Proof.
  induction gs as [|[k rs] gs IH]; simpl; [by intros ?%elem_of_nil|].
  intros Hin. unfold datetime_eqb.
  destruct (Z.eqb_spec (epoch_us k) (epoch_us (timestamp r))) as [Heq|Hne].
  - exists [], k, rs, gs. repeat split; try done. apply not_elem_of_nil.
  - apply elem_of_cons in Hin as [Heq|Hin]; [by unfold instant in Heq|].
    destruct (IH Hin) as (gs1 & k' & rs' & gs2 & -> & Hk & Hfresh & ->).
    exists ((k, rs) :: gs1), k', rs', gs2. repeat split; try done.
    simpl. apply not_elem_of_cons. by unfold instant.
Qed.

Lemma group_append_instants (gs : list (datetime * list RawWeightRecord))
    (r : RawWeightRecord) :
  group_instants (group_append gs r)
  = if decide (instant r ∈ group_instants gs) then group_instants gs
    else group_instants gs ++ [instant r].
Proof.
  case_decide as Hin.
  - destruct (group_append_known gs r Hin)
      as (gs1 & k & rs & gs2 & -> & _ & _ & ->).
    unfold group_instants. by rewrite !fmap_app.
  - rewrite group_append_fresh by done. unfold group_instants. by rewrite fmap_app.
Qed.

(** The shape of the groups of a list of records: every group starts with
    the record whose timestamp is its key, holds records of the list at
    the instant of the key only, no two groups share an instant, and
    every record of the list is in a group. *)
Record grouped (l : list RawWeightRecord)
    (gs : list (datetime * list RawWeightRecord)) : Prop := {
  grouped_head : ∀ k rs, (k, rs) ∈ gs →
    ∃ r0 rest, rs = r0 :: rest ∧ timestamp r0 = k;
  grouped_members : ∀ k rs r, (k, rs) ∈ gs → r ∈ rs → instant r = epoch_us k ∧ r ∈ l;
  grouped_NoDup : NoDup (group_instants gs);
  grouped_cover : ∀ r, r ∈ l → ∃ k rs, (k, rs) ∈ gs ∧ r ∈ rs;
}.

Lemma grouped_append (l : list RawWeightRecord)
    (gs : list (datetime * list RawWeightRecord)) (r : RawWeightRecord) :
  grouped l gs → grouped (l ++ [r]) (group_append gs r).
Proof.
  intros [Hhead Hmem Hnd Hcover].
  destruct (decide (instant r ∈ group_instants gs)) as [Hin|Hfresh].
  - destruct (group_append_known gs r Hin)
      as (gs1 & k0 & rs0 & gs2 & -> & Hk0 & _ & Happ).
    split.
    + intros k rs. rewrite Happ.
      intros [Hg|[[= -> ->]|Hg]%elem_of_cons]%elem_of_app.
      * apply Hhead. set_solver.
      * destruct (Hhead k0 rs0) as (r0 & rest & -> & Hr0); [set_solver|].
        by exists r0, (rest ++ [r]).
      * apply Hhead. set_solver.
    + intros k rs r'. rewrite Happ.
      intros [Hg|[[= -> ->]|Hg]%elem_of_cons]%elem_of_app Hr'.
      * destruct (Hmem k rs r') as [? ?]; [set_solver|done|]. set_solver.
      * apply elem_of_app in Hr' as [Hr'| ->%list_elem_of_singleton].
        -- destruct (Hmem k0 rs0 r') as [? ?]; [set_solver|done|]. set_solver.
        -- split; [done|set_solver].
      * destruct (Hmem k rs r') as [? ?]; [set_solver|done|]. set_solver.
    + rewrite group_append_instants. by rewrite decide_True.
    + intros r' [Hr'| ->%list_elem_of_singleton]%elem_of_app.
      * destruct (Hcover r' Hr') as (k & rs & Hg & Hrs).
        rewrite Happ.
        apply elem_of_app in Hg as [Hg|[[= -> ->]|Hg]%elem_of_cons].
        -- exists k, rs. set_solver.
        -- exists k0, (rs0 ++ [r]). set_solver.
        -- exists k, rs. set_solver.
      * exists k0, (rs0 ++ [r]). rewrite Happ. set_solver.
  - rewrite group_append_fresh by done. split.
    + intros k rs [Hg|[= -> ->]%list_elem_of_singleton]%elem_of_app.
      * by apply Hhead.
      * by exists r, [].
    + intros k rs r' [Hg|[= -> ->]%list_elem_of_singleton]%elem_of_app Hr'.
      * destruct (Hmem k rs r') as [? ?]; [done..|]. set_solver.
      * apply list_elem_of_singleton in Hr' as ->. split; [done|set_solver].
    + unfold group_instants. rewrite fmap_app. apply NoDup_app. repeat split.
      * done.
      * intros x Hx ->%list_elem_of_singleton. by apply Hfresh.
      * apply NoDup_singleton.
    + intros r' [Hr'| ->%list_elem_of_singleton]%elem_of_app.
      * destruct (Hcover r' Hr') as (k & rs & Hg & Hrs). exists k, rs. set_solver.
      * exists (timestamp r), [r]. set_solver.
Qed.

Lemma group_by_timestamp_grouped (l : list RawWeightRecord) :
  grouped l (group_by_timestamp l).
Proof.
  induction l as [|r l IH] using rev_ind.
  - split; try (intros; set_solver). constructor.
  - rewrite group_by_timestamp_snoc. by apply grouped_append.
Qed.

(** Records at pairwise different instants are grouped one by one, in
    their order. *)
Lemma group_by_timestamp_singletons (l : list RawWeightRecord) :
  NoDup (instant <$> l) →
  group_by_timestamp l = (λ r, (timestamp r, [r])) <$> l.
Proof.
  induction l as [|r l IH] using rev_ind; [done|].
  rewrite fmap_app. intros (Hnd & Hfresh & _)%NoDup_app.
  rewrite group_by_timestamp_snoc, IH by done.
  rewrite group_append_fresh; [by rewrite fmap_app|].
  unfold group_instants. rewrite <- list_fmap_compose.
  intros Hin. apply (Hfresh _ Hin). set_solver.
Qed.

Lemma group_by_timestamp_nil_inv (l : list RawWeightRecord) :
  group_by_timestamp l = [] → l = [].
Proof.
  intros Hnil. destruct l as [|r l]; [done|].
  destruct (grouped_cover _ _ (group_by_timestamp_grouped (r :: l)) r)
    as (k & rs & Hg & _); [left|].
  rewrite Hnil in Hg. by apply elem_of_nil in Hg.
Qed.

(** ** Sorting by timestamp *)

Lemma insert_by_timestamp_Permutation (m : WeightMeasurement)
    (l : list WeightMeasurement) :
  insert_by_timestamp m l ≡ₚ m :: l.
Proof.
  induction l as [|m' l IH]; simpl; [done|].
  destruct (datetime_leb _ _); [done|]. rewrite IH. apply perm_swap.
Qed.

Lemma sort_by_timestamp_Permutation (l : list WeightMeasurement) :
  sort_by_timestamp l ≡ₚ l.
Proof.
  induction l as [|m l IH]; simpl; [done|].
  by rewrite insert_by_timestamp_Permutation, IH.
Qed.

Lemma sort_by_timestamp_elem (l : list WeightMeasurement) (m : WeightMeasurement) :
  m ∈ sort_by_timestamp l ↔ m ∈ l.
Proof. by rewrite sort_by_timestamp_Permutation. Qed.

Lemma sort_by_timestamp_nil_inv (l : list WeightMeasurement) :
  sort_by_timestamp l = [] → l = [].
Proof.
  intros Hnil. apply Permutation_nil_r.
  by rewrite <- Hnil, sort_by_timestamp_Permutation.
Qed.

(** Ascending order of the instants. *)
Definition ascending (l : list WeightMeasurement) : Prop :=
  Sorted (λ a b, epoch_us (m_timestamp a) ≤ epoch_us (m_timestamp b)) l.

Lemma insert_by_timestamp_ascending (m : WeightMeasurement)
    (l : list WeightMeasurement) :
  ascending l → ascending (insert_by_timestamp m l).
Proof.
  unfold ascending. induction l as [|m' l IH]; simpl; intros Hl.
  - by repeat constructor.
  - unfold datetime_leb in *.
    destruct (Z.leb_spec (epoch_us (m_timestamp m)) (epoch_us (m_timestamp m'))).
    + constructor; [done|by constructor].
    + apply Sorted_inv in Hl as [Hl Hhd]. constructor; [by apply IH|].
      destruct l as [|m'' l]; simpl.
      * constructor. lia.
      * unfold datetime_leb.
        destruct (Z.leb_spec (epoch_us (m_timestamp m)) (epoch_us (m_timestamp m''))).
        -- constructor. lia.
        -- constructor. by apply HdRel_inv in Hhd.
Qed.

Lemma sort_by_timestamp_ascending (l : list WeightMeasurement) :
  ascending (sort_by_timestamp l).
Proof.
  induction l as [|m l IH]; simpl; [constructor|].
  by apply insert_by_timestamp_ascending.
Qed.

(** ** Failure and emptiness of a run *)

Section ConsolidateOutcome.
Variable isoformat : datetime → string.
Variable format_3f : Q → string.
Variable hexdigest : string → string → option string.
Variable config : ProcessingConfig.

Abbreviation run := (consolidate isoformat format_3f hexdigest config).
Abbreviation merge := (merge_grouping isoformat format_3f hexdigest config).

Lemma consolidate_Ok_inv (raw_records : list RawWeightRecord)
    (out : list WeightMeasurement) :
  run raw_records = Ok out →
  ∃ ms, traverse merge (groupings_of config raw_records) = Ok ms
        ∧ out = sort_by_timestamp ms.
Proof.
  unfold consolidate. rewrite consolidate_body_spec.
  destruct (traverse _ _) as [ms|e]; [|done]. simpl. intros [= <-]. eauto.
Qed.

Lemma consolidate_Err (raw_records : list RawWeightRecord) (e : merge_error) :
  traverse merge (groupings_of config raw_records) = Err e →
  run raw_records = Err (ConsolidationError e).
Proof.
  intros Htr. unfold consolidate. by rewrite consolidate_body_spec, Htr.
Qed.

(** Without tabular groups no binary group is claimed. *)
Lemma claimed_instants_nil (fit_groups : list (datetime * list RawWeightRecord)) :
  claimed_instants config [] fit_groups = ∅.
Proof. done. Qed.

Lemma groupings_of_nil_inv (raw_records : list RawWeightRecord) :
  groupings_of config raw_records = [] → raw_records = [].
Proof.
  unfold groupings_of, groupings.
  intros [Hcsv Hfit]%app_eq_nil.
  apply fmap_nil_inv in Hcsv. apply fmap_nil_inv in Hfit.
  rewrite Hcsv in Hfit.
  assert (fit_groups_of raw_records = []) as Hfit'.
  { destruct (fit_groups_of raw_records) as [|g gs]; [done|].
    rewrite filter_cons_True in Hfit; [done|].
    unfold unclaimed. rewrite claimed_instants_nil. apply not_elem_of_empty. }
  apply group_by_timestamp_nil_inv in Hcsv, Hfit'.
  destruct raw_records as [|r l]; [done|].
  destruct (source_type r) eqn:Hkind.
  - by rewrite filter_cons_True in Hcsv.
  - by rewrite filter_cons_True in Hfit'.
Qed.

(** C4.  [consolidate] returns the empty list without error exactly on
    the empty input; on any other input a run that returns, returns at
    least one measurement. *)
Theorem consolidate_empty_iff (raw_records : list RawWeightRecord) :
  run raw_records = Ok [] ↔ raw_records = [].
Proof.
  split; [|by intros ->].
  intros (ms & Htr & Hsort)%consolidate_Ok_inv.
  symmetry in Hsort. apply sort_by_timestamp_nil_inv in Hsort as ->.
  apply traverse_Ok_length in Htr. apply groupings_of_nil_inv.
  by apply nil_length_inv.
Qed.

(** A grouping whose merged weight is absent cannot be merged. *)
Lemma merge_grouping_absent_weight
    (g : list RawWeightRecord * list RawWeightRecord) :
  (field_merge config g.1 g.2 "weight_kg").1.1 = None → ∃ e, merge g = Err e.
Proof.
  intros Hweight. unfold merge_grouping.
  destruct (g.1 ++ g.2) as [|first rest] eqn:Hall.
  - exists IndexError. unfold _merge_records. by rewrite Hall.
  - exists MissingWeight. apply merge_records_missing_weight; [|done].
    by rewrite Hall.
Qed.

(** C2.  When any one of the groups that [consolidate] merges resolves to
    an absent primary weight, the whole run fails with a consolidation
    error, whatever the other groups hold. *)
Theorem absent_weight_fails_run (raw_records : list RawWeightRecord)
    (g : list RawWeightRecord * list RawWeightRecord) :
  g ∈ groupings_of config raw_records →
  (field_merge config g.1 g.2 "weight_kg").1.1 = None →
  ∃ cause, run raw_records = Err (ConsolidationError cause).
Proof.
  intros Hin [e He]%merge_grouping_absent_weight.
  destruct (traverse_Err_elem merge _ g e Hin He) as [cause Hcause].
  exists cause. by apply consolidate_Err.
Qed.
End ConsolidateOutcome.

(** The empty input is consolidated to the empty list, without error. *)
Lemma consolidate_empty_input_returns :
  Sample.run Sample.config [] = Ok [].
Proof. reflexivity. Qed.

Lemma absent_weight_fails_run_witness :
  ∃ cause, Sample.run Sample.config [Scenario.csv_valid; Scenario.fit_no_weight]
           = Err (ConsolidationError cause).
Proof.
  apply (absent_weight_fails_run Sample.isoformat Sample.format_3f Sample.hexdigest
           Sample.config _ ([], [Scenario.fit_no_weight])).
  - apply list_elem_of_In. vm_compute. right. left. reflexivity.
  - reflexivity.
Defined.

(** One group with a valid weight and one group without a weight: the
    run returns nothing, although the first group alone is consolidated. *)
Lemma absent_weight_group_not_excluded :
  Sample.run Sample.config [Scenario.csv_valid; Scenario.fit_no_weight]
  = Err (ConsolidationError MissingWeight)
  ∧ ∃ m, Sample.run Sample.config [Scenario.csv_valid] = Ok [m].
Proof. split; [|eexists]; vm_compute; reflexivity. Qed.

(** ** Absorption of binary groups *)

Lemma timestamps_match_instants (a a' b b' : datetime) (tolerance : Z) :
  epoch_us a = epoch_us a' → epoch_us b = epoch_us b' →
  timestamps_match a b tolerance = timestamps_match a' b' tolerance.
Proof. unfold timestamps_match. by intros -> ->. Qed.

Section Absorption.
Variable isoformat : datetime → string.
Variable format_3f : Q → string.
Variable hexdigest : string → string → option string.
Variable config : ProcessingConfig.

Abbreviation run := (consolidate isoformat format_3f hexdigest config).
Abbreviation merge_records := (_merge_records isoformat format_3f hexdigest config).
Abbreviation tolerance := (timestamp_tolerance_seconds config).

(** The binary record is among the records merged into the measurement,
    and the measurement names it in its lineage. *)
Definition absorbed (f : RawWeightRecord) (m : WeightMeasurement) : Prop :=
  ∃ csv_records fit_records,
    merge_records csv_records fit_records = Ok m
    ∧ csv_records ≠ []
    ∧ f ∈ fit_records
    ∧ source_file_name f ∈ source_files m
    ∧ source_file_id f ∈ drive_file_ids m
    ∧ SourceType.FIT ∈ source_types m.

Lemma elem_of_matched_records (csv_ts k : datetime) (rs : list RawWeightRecord)
    (fit_groups : list (datetime * list RawWeightRecord)) (f : RawWeightRecord) :
  (k, rs) ∈ fit_groups → f ∈ rs →
  timestamps_match csv_ts k tolerance = true →
  f ∈ matched_records config csv_ts fit_groups.
Proof.
  intros Hg Hf Hm. unfold matched_records. apply list_elem_of_bind.
  exists (k, rs). split; [done|]. by apply list_elem_of_filter.
Qed.

Lemma elem_of_claimed_instants (csv_groups fit_groups : list (datetime * list RawWeightRecord))
    (csv_ts k : datetime) (crs rs : list RawWeightRecord) :
  (csv_ts, crs) ∈ csv_groups → (k, rs) ∈ fit_groups →
  timestamps_match csv_ts k tolerance = true →
  epoch_us k ∈ claimed_instants config csv_groups fit_groups.
Proof.
  intros Hc Hg Hm. unfold claimed_instants. apply elem_of_union_list.
  exists (matched_instants config csv_ts fit_groups). split.
  - apply list_elem_of_fmap. by exists (csv_ts, crs).
  - unfold matched_instants. apply elem_of_list_to_set, list_elem_of_fmap.
    exists (k, rs). split; [done|]. by apply list_elem_of_filter.
Qed.

(** No measurement built from binary records alone stands at the instant
    of a binary record that lies within tolerance of a tabular record. *)
Lemma claimed_not_fit_only (raw_records : list RawWeightRecord)
    (out : list WeightMeasurement) (c f : RawWeightRecord) (m : WeightMeasurement) :
  run raw_records = Ok out →
  c ∈ raw_records → f ∈ raw_records →
  source_type c = SourceType.CSV → source_type f = SourceType.FIT →
  timestamps_match (timestamp c) (timestamp f) tolerance = true →
  m ∈ out → source_types m = {[SourceType.FIT]} →
  epoch_us (m_timestamp m) ≠ instant f.
Proof.
  intros (ms & Htr & ->)%consolidate_Ok_inv Hc Hf Hcsv Hfit Hmatch Hm Hkinds.
  apply (proj1 (sort_by_timestamp_elem _ _)) in Hm.
  pose proof (group_by_timestamp_grouped (filter is_csv raw_records)) as Gc.
  pose proof (group_by_timestamp_grouped (filter is_fit raw_records)) as Gf.
  destruct (traverse_Ok_elem_r _ _ _ _ Htr Hm) as ([crs frs] & Hg & Hmerge).
  unfold merge_grouping in Hmerge. simpl in Hmerge.
  apply merge_records_Ok_inv in Hmerge
    as (first & rest & w & Hall & _ & _ & Hts & _ & _ & _ & Hkinds' & _).
  unfold groupings_of, groupings in Hg.
  apply elem_of_app in Hg as [Hg|Hg]; apply list_elem_of_fmap in Hg
    as ([k rs] & [= -> ->] & Hg); simpl in *.
  - (* a tabular group: its measurement has the tabular kind *)
    destruct (grouped_head _ _ Gc _ _ Hg) as (r0 & rest0 & -> & _).
    destruct (grouped_members _ _ Gc _ _ r0 Hg) as [_ Hr0]; [left|].
    apply list_elem_of_filter in Hr0 as [Hr0 _].
    assert (SourceType.CSV ∈ source_types m) as Habs.
    { rewrite Hkinds'. unfold group_kinds. apply elem_of_list_to_set.
      simpl. rewrite Hr0. left. }
    rewrite Hkinds in Habs. by apply elem_of_singleton in Habs.
  - (* a binary group left over: it is not claimed, the group of [f] is *)
    apply list_elem_of_filter in Hg as [Hfree Hg].
    destruct (grouped_head _ _ Gf _ _ Hg) as (r0 & rest0 & -> & Hr0).
    injection Hall as <- _. rewrite Hts, Hr0. intros Heq. apply Hfree. simpl.
    destruct (grouped_cover _ _ Gc c) as (kc & crs & Hkc & Hcrs);
      [by apply list_elem_of_filter|].
    destruct (grouped_cover _ _ Gf f) as (kf & frs & Hkf & Hfrs);
      [by apply list_elem_of_filter|].
    destruct (grouped_members _ _ Gc _ _ _ Hkc Hcrs) as [Hck _].
    destruct (grouped_members _ _ Gf _ _ _ Hkf Hfrs) as [Hfk _].
    rewrite Heq, Hfk.
    apply (elem_of_claimed_instants _ _ kc kf crs frs Hkc Hkf).
    by rewrite <- (timestamps_match_instants _ _ _ _ _ Hck Hfk).
Qed.

End Absorption.

Module Overlap.
Import Sample.

(** Two tabular records 100 seconds apart and one binary record half-way,
    within the 60-second tolerance of both. *)
Definition csv_early : RawWeightRecord :=
  record SourceType.CSV 1705314600 (Some (151 # 2)%Q) "early.csv".
Definition csv_late : RawWeightRecord :=
  record SourceType.CSV 1705314700 (Some (152 # 2)%Q) "late.csv".
Definition fit_between : RawWeightRecord :=
  record SourceType.FIT 1705314650 (Some (153 # 2)%Q) "between.fit".

Definition records : list RawWeightRecord := [csv_early; fit_between; csv_late].
End Overlap.

(** ** The comparison reporter *)

Definition with_weight (r : RawWeightRecord) (v : option Q) : RawWeightRecord :=
  {| timestamp := timestamp r; weight_kg := v;
     body_fat_pct := body_fat_pct r; fat_mass_kg := fat_mass_kg r;
     fat_free_pct := fat_free_pct r; fat_free_mass_kg := fat_free_mass_kg r;
     skeletal_muscle_pct := skeletal_muscle_pct r;
     skeletal_muscle_mass_kg := skeletal_muscle_mass_kg r;
     muscle_pct := muscle_pct r; muscle_mass_kg := muscle_mass_kg r;
     bone_mass_kg := bone_mass_kg r; body_water := body_water r;
     bmr_kcal := bmr_kcal r; metabolic_age := metabolic_age r;
     visceral_fat_rating := visceral_fat_rating r;
     source_file_name := source_file_name r;
     source_file_id := source_file_id r;
     source_type := source_type r |}.

(** The record with a weight of zero taken for an absent weight. *)
Definition zero_weight_absent (r : RawWeightRecord) : RawWeightRecord :=
  if truthy (weight_kg r) then r else with_weight r None.

Section ComparisonProperties.
Variable config : ProcessingConfig.

Lemma zero_weight_absent_timestamp (r : RawWeightRecord) :
  timestamp (zero_weight_absent r) = timestamp r.
Proof. unfold zero_weight_absent. by destruct (truthy _). Qed.

Lemma zero_weight_absent_getattr (r : RawWeightRecord) (field : string) :
  field ≠ "weight_kg"%string → getattr (zero_weight_absent r) field = getattr r field.
Proof.
  intros Hne. unfold zero_weight_absent, getattr.
  rewrite !(decide_False (P := field = "weight_kg"%string)) by done.
  by destruct (truthy _).
Qed.

Lemma zero_weight_absent_truthy (r : RawWeightRecord) :
  truthy (weight_kg (zero_weight_absent r)) = truthy (weight_kg r).
Proof. unfold zero_weight_absent. by destruct (truthy (weight_kg r)) eqn:Ht. Qed.

Lemma zero_weight_absent_difference (c f : RawWeightRecord) :
  weight_difference (zero_weight_absent c) (zero_weight_absent f)
  = weight_difference c f.
Proof.
  unfold weight_difference. rewrite !zero_weight_absent_truthy.
  unfold zero_weight_absent.
  by destruct (truthy (weight_kg c)), (truthy (weight_kg f)).
Qed.

Lemma zero_weight_absent_compare_field (c f : RawWeightRecord)
    (m : gmap string nat) (field : string) :
  field ≠ "weight_kg"%string →
  compare_field config (zero_weight_absent c) (zero_weight_absent f) m field
  = compare_field config c f m field.
Proof.
  intros Hne. unfold compare_field. by rewrite !zero_weight_absent_getattr.
Qed.

Lemma zero_weight_absent_matched (st : compare_state) (fit_idx : nat)
    (c f : RawWeightRecord) :
  compare_matched config st fit_idx (zero_weight_absent c) (zero_weight_absent f)
  = compare_matched config st fit_idx c f.
Proof.
  unfold compare_matched. rewrite zero_weight_absent_difference. simpl.
  by rewrite !zero_weight_absent_compare_field.
Qed.

Lemma zero_weight_absent_first_match (c : RawWeightRecord)
    (fit_records : list RawWeightRecord) (fit_idx : nat) :
  first_match config (zero_weight_absent c) (zero_weight_absent <$> fit_records) fit_idx
  = prod_map id zero_weight_absent <$> first_match config c fit_records fit_idx.
Proof.
  revert fit_idx. induction fit_records as [|f rest IH]; intros fit_idx; simpl; [done|].
  rewrite !zero_weight_absent_timestamp.
  by destruct (timestamps_match _ _ _).
Qed.

Lemma zero_weight_absent_step (fit_records : list RawWeightRecord)
    (st : compare_state) (c : RawWeightRecord) :
  compare_step config (zero_weight_absent <$> fit_records) st (zero_weight_absent c)
  = compare_step config fit_records st c.
Proof.
  unfold compare_step. rewrite zero_weight_absent_first_match.
  destruct (first_match config c fit_records 0) as [[fit_idx f]|]; simpl; [|done].
  apply zero_weight_absent_matched.
Qed.

Lemma zero_weight_absent_loop (fit_records csv_records : list RawWeightRecord)
    (st : compare_state) :
  foldl (compare_step config (zero_weight_absent <$> fit_records)) st
    (zero_weight_absent <$> csv_records)
  = foldl (compare_step config fit_records) st csv_records.
Proof.
  revert st. induction csv_records as [|c rest IH]; intros st; simpl; [done|].
  by rewrite zero_weight_absent_step, IH.
Qed.

Lemma zero_weight_absent_head {A} (proj : RawWeightRecord → A) (d : A)
    (records : list RawWeightRecord) :
  (∀ r, proj (zero_weight_absent r) = proj r) →
  from_option proj d (head (zero_weight_absent <$> records))
  = from_option proj d (head records).
Proof. intros Hproj. destruct records; simpl; [done|apply Hproj]. Qed.

(** Taking zero weights for absent ones changes nothing in the report. *)
Lemma compare_pair_zero_weight_absent (csv_records fit_records : list RawWeightRecord) :
  _compare_pair config (zero_weight_absent <$> csv_records)
    (zero_weight_absent <$> fit_records)
  = _compare_pair config csv_records fit_records.
Proof.
  unfold _compare_pair. rewrite zero_weight_absent_loop, !length_fmap.
  rewrite <- !list_fmap_compose.
  rewrite !(list_fmap_ext (timestamp ∘ zero_weight_absent) timestamp)
    by (intros; apply zero_weight_absent_timestamp).
  rewrite !zero_weight_absent_head;
    [done|intros r; unfold zero_weight_absent; by destruct (truthy _)..].
Qed.
End ComparisonProperties.

Section ComparisonCounts.
Variable config : ProcessingConfig.

Lemma compare_field_lookup_ne (c f : RawWeightRecord) (m : gmap string nat)
    (field field' : string) :
  field ≠ field' → compare_field config c f m field' !! field = m !! field.
Proof.
  intros Hne. unfold compare_field.
  destruct (getattr c field'), (getattr f field'); try done.
  destruct (within_tolerance _ _ _); [done|].
  unfold increment. by rewrite lookup_insert_ne.
Qed.

Lemma compare_field_lookup_beyond (c f : RawWeightRecord) (m : gmap string nat)
    (field : string) (a b : Q) :
  getattr c field = Some a → getattr f field = Some b →
  within_tolerance (numeric_tolerance config) a b = false →
  compare_field config c f m field !! field = Some (S (default 0%nat (m !! field))).
Proof.
  intros Ha Hb Htol. unfold compare_field, increment.
  by rewrite Ha, Hb, Htol, lookup_insert_eq.
Qed.

Lemma compare_fields_lookup_notin (c f : RawWeightRecord) (fields : list string)
    (m : gmap string nat) (field : string) :
  field ∉ fields → foldl (compare_field config c f) m fields !! field = m !! field.
Proof.
  revert m. induction fields as [|x fields IH]; intros m Hnotin; simpl; [done|].
  apply not_elem_of_cons in Hnotin as [Hne Hnotin].
  by rewrite IH, compare_field_lookup_ne.
Qed.

(** A compared field whose two values lie beyond the tolerance is counted
    once for the pair. *)
Lemma compare_fields_lookup_beyond (c f : RawWeightRecord) (fields : list string)
    (m : gmap string nat) (field : string) (a b : Q) :
  NoDup fields → field ∈ fields →
  getattr c field = Some a → getattr f field = Some b →
  within_tolerance (numeric_tolerance config) a b = false →
  foldl (compare_field config c f) m fields !! field
  = Some (S (default 0%nat (m !! field))).
Proof.
  intros Hnd Hin Ha Hb Htol. revert m.
  induction Hnd as [|x fields Hx Hnd IH]; intros m; [by apply elem_of_nil in Hin|].
  simpl. apply elem_of_cons in Hin as [->|Hin].
  - rewrite compare_fields_lookup_notin by done.
    by apply compare_field_lookup_beyond with a b.
  - rewrite IH by done. rewrite compare_field_lookup_ne; [done|].
    intros ->. by apply Hx.
Qed.

Lemma truthy_zero (q : Q) : (q == 0)%Q → truthy (Some q) = false.
Proof. intros Hq. simpl. by rewrite (proj2 (Qeq_bool_iff q 0) Hq). Qed.

(** A matched pair one of whose weights is zero records no weight
    difference. *)
Lemma weight_difference_zero (c f : RawWeightRecord) (q : Q) :
  weight_kg c = Some q ∨ weight_kg f = Some q → (q == 0)%Q →
  weight_difference c f = None.
Proof.
  intros [Hw|Hw] Hq; unfold weight_difference; rewrite Hw, (truthy_zero q Hq);
    [done|by rewrite andb_false_r].
Qed.

Lemma compare_pair_single_match (c f : RawWeightRecord) :
  timestamps_match (timestamp c) (timestamp f) (timestamp_tolerance_seconds config)
  = true →
  foldl (compare_step config [f]) initial_state [c]
  = compare_matched config initial_state 0 c f.
Proof. intros Hmatch. simpl. unfold compare_step. simpl. by rewrite Hmatch. Qed.

(** C9.  The comparison reporter tests the weights of a matched pair for
    truthiness: the report is the same when every weight of zero is taken
    for an absent weight; a single matched pair with a zero weight on
    either side is counted as matched and adds nothing to the weight
    mismatches nor to the mean absolute error; whereas for each of the
    other compared fields a value of zero on the tabular side is compared
    like any other value, and counted as a mismatch when the binary value
    lies beyond the tolerance. *)
Theorem weight_presence_by_truthiness (csv_records fit_records : list RawWeightRecord) :
  _compare_pair config (zero_weight_absent <$> csv_records)
    (zero_weight_absent <$> fit_records)
  = _compare_pair config csv_records fit_records
  ∧ (∀ c f q,
       timestamps_match (timestamp c) (timestamp f)
         (timestamp_tolerance_seconds config) = true →
       weight_kg c = Some q ∨ weight_kg f = Some q → (q == 0)%Q →
       both_count (_compare_pair config [c] [f]) = 1%nat
       ∧ mismatches (_compare_pair config [c] [f]) !! "weight_kg"%string = None
       ∧ weight_mae (_compare_pair config [c] [f]) = None)
  ∧ (∀ c f field q v,
       timestamps_match (timestamp c) (timestamp f)
         (timestamp_tolerance_seconds config) = true →
       field ∈ compared_fields →
       getattr c field = Some q → (q == 0)%Q → getattr f field = Some v →
       ¬ (Qabs (q - v) <= numeric_tolerance config)%Q →
       mismatches (_compare_pair config [c] [f]) !! field = Some 1%nat).
Proof.
  split; [apply compare_pair_zero_weight_absent|]. split.
  - intros c f q Hmatch Hw Hq. unfold _compare_pair.
    rewrite (compare_pair_single_match c f Hmatch). unfold compare_matched.
    rewrite (weight_difference_zero c f q Hw Hq). simpl. repeat split.
    rewrite !compare_field_lookup_ne by done. done.
  - intros c f field q v Hmatch Hin Hc _ Hf Hbeyond. unfold _compare_pair.
    rewrite (compare_pair_single_match c f Hmatch). unfold compare_matched.
    cbn [st_mismatches mismatches].
    rewrite (compare_fields_lookup_beyond c f compared_fields _ field q v);
      try done.
    + assert (field ≠ "weight_kg"%string) as Hne.
      { intros ->. apply list_elem_of_In in Hin. simpl in Hin. naive_solver. }
      destruct (weight_difference c f) as [diff|]; simpl; [|done].
      destruct (Qle_bool _ _); simpl; [done|].
      unfold increment. by rewrite lookup_insert_ne.
    + apply NoDup_ListNoDup. repeat constructor; simpl; naive_solver.
    + by apply within_tolerance_not_le.
Qed.
End ComparisonCounts.

(** ** Independence of the arrival order *)

(** The outcomes of two runs over rearranged inputs: both fail, or both
    return, and then rearranged results. *)
Definition same_outcome {E A} (r1 r2 : result E (list A)) : Prop :=
  match r1, r2 with
  | Ok ys1, Ok ys2 => ys1 ≡ₚ ys2
  | Err _, Err _ => True
  | _, _ => False
  end.

Lemma same_outcome_refl {E A} (r : result E (list A)) : same_outcome r r.
Proof. destruct r; simpl; done. Qed.

Lemma same_outcome_trans {E A} (r1 r2 r3 : result E (list A)) :
  same_outcome r1 r2 → same_outcome r2 r3 → same_outcome r1 r3.
Proof.
  destruct r1, r2, r3; simpl; try done. intros H1 H2. by rewrite H1.
Qed.

Lemma traverse_Permutation {E A B} (f : A → result E B) (l1 l2 : list A) :
  l1 ≡ₚ l2 → same_outcome (traverse f l1) (traverse f l2).
Proof.
  induction 1 as [|x l1 l2 Hp IH|x y l|l1 l2 l3 Hp1 IH1 Hp2 IH2].
  - apply same_outcome_refl.
  - simpl. destruct (f x); [|done]. simpl.
    destruct (traverse f l1), (traverse f l2); simpl in *; try done.
    by constructor.
  - simpl. destruct (f x), (f y); simpl; try done;
      destruct (traverse f l); simpl; try done. apply perm_swap.
  - by eapply same_outcome_trans.
Qed.

(** Measurements that share an instant come in the order: with a tabular
    source first, without one second. *)
Definition tie (a b : WeightMeasurement) : Prop :=
  epoch_us (m_timestamp a) = epoch_us (m_timestamp b) →
  SourceType.CSV ∈ source_types a ∧ SourceType.CSV ∉ source_types b.

(** The order in which a stable sort leaves such measurements. *)
Definition before (a b : WeightMeasurement) : Prop :=
  epoch_us (m_timestamp a) < epoch_us (m_timestamp b)
  ∨ (epoch_us (m_timestamp a) = epoch_us (m_timestamp b)
     ∧ SourceType.CSV ∈ source_types a ∧ SourceType.CSV ∉ source_types b).

Lemma before_le (a b : WeightMeasurement) :
  before a b → epoch_us (m_timestamp a) ≤ epoch_us (m_timestamp b).
Proof. intros [?|[? _]]; lia. Qed.

Lemma insert_by_timestamp_before (m : WeightMeasurement) (l : list WeightMeasurement) :
  StronglySorted before l → Forall (tie m) l →
  StronglySorted before (insert_by_timestamp m l).
Proof.
  induction l as [|m' l IH]; simpl; intros Hl Hties.
  - by repeat constructor.
  - apply StronglySorted_inv in Hl as [Hl Hm'].
    apply Forall_cons in Hties as [Htie Hties].
    unfold datetime_leb.
    destruct (Z.leb_spec (epoch_us (m_timestamp m)) (epoch_us (m_timestamp m'))) as [Hle|Hlt].
    + constructor; [by constructor|]. constructor.
      * destruct (decide (epoch_us (m_timestamp m) = epoch_us (m_timestamp m')))
          as [Heq|Hne]; [right; split; [done|by apply Htie]|left; lia].
      * rewrite Forall_forall in Hm', Hties. apply Forall_forall. intros z Hz.
        pose proof (before_le _ _ (Hm' z Hz)) as Hz'.
        destruct (decide (epoch_us (m_timestamp m) = epoch_us (m_timestamp z)))
          as [Heq|Hne]; [right; split; [done|by apply (Hties z Hz)]|left; lia].
    + constructor; [by apply IH|].
      rewrite insert_by_timestamp_Permutation. constructor; [by left|done].
Qed.

Lemma sort_by_timestamp_before (l : list WeightMeasurement) :
  StronglySorted tie l → StronglySorted before (sort_by_timestamp l).
Proof.
  induction 1 as [|m l Hl IH Hties]; simpl; [constructor|].
  apply insert_by_timestamp_before; [done|].
  by rewrite sort_by_timestamp_Permutation.
Qed.

(** Two rearrangements of the same measurements, each with its ties in
    order, are sorted to the same list. *)
Lemma sort_by_timestamp_unique (l1 l2 : list WeightMeasurement) :
  l1 ≡ₚ l2 → StronglySorted tie l1 → StronglySorted tie l2 →
  sort_by_timestamp l1 = sort_by_timestamp l2.
Proof.
  intros Hp H1 H2. apply (StronglySorted_unique_strong before).
  - intros a b _ _ [Hab|(Hab & Ha & Hb)] [Hba|(Hba & Ha' & Hb')]; try lia. done.
  - by apply sort_by_timestamp_before.
  - by apply sort_by_timestamp_before.
  - by rewrite !sort_by_timestamp_Permutation.
Qed.

(** Distinct keys leave no tie to order. *)
Lemma NoDup_StronglySorted_tie (l : list WeightMeasurement) :
  NoDup ((λ m, epoch_us (m_timestamp m)) <$> l) → StronglySorted tie l.
Proof.
  induction l as [|m l IH]; [constructor|].
  rewrite fmap_cons. intros [Hm Hl]%NoDup_cons. constructor; [by apply IH|].
  apply Forall_forall. intros m' Hm' Heq. destruct Hm.
  rewrite Heq. by apply (list_elem_of_fmap_2 (λ m, epoch_us (m_timestamp m))).
Qed.

Section Determinism.
Variable isoformat : datetime → string.
Variable format_3f : Q → string.
Variable hexdigest : string → string → option string.
Variable config : ProcessingConfig.

Abbreviation run := (consolidate isoformat format_3f hexdigest config).
Abbreviation merge := (merge_grouping isoformat format_3f hexdigest config).
Abbreviation tolerance := (timestamp_tolerance_seconds config).

(** Within each source, no two records stand at the same instant. *)
Definition one_record_per_instant (raw_records : list RawWeightRecord) : Prop :=
  NoDup (instant <$> filter is_csv raw_records)
  ∧ NoDup (instant <$> filter is_fit raw_records).

(** No tabular record lies within tolerance of binary records at two
    different instants. *)
Definition at_most_one_match (raw_records : list RawWeightRecord) : Prop :=
  ∀ c f1 f2,
    c ∈ raw_records → f1 ∈ raw_records → f2 ∈ raw_records →
    source_type c = SourceType.CSV →
    source_type f1 = SourceType.FIT → source_type f2 = SourceType.FIT →
    timestamps_match (timestamp c) (timestamp f1) tolerance = true →
    timestamps_match (timestamp c) (timestamp f2) tolerance = true →
    instant f1 = instant f2.

Definition singleton_group (r : RawWeightRecord) : datetime * list RawWeightRecord :=
  (timestamp r, [r]).

(** The binary records within tolerance of a tabular record. *)
Definition near (c : RawWeightRecord) (fits : list RawWeightRecord)
  : list RawWeightRecord :=
  filter (λ f, timestamps_match (timestamp c) (timestamp f) tolerance = true) fits.

Definition claimed (csvs fits : list RawWeightRecord) : gset Z :=
  claimed_instants config (singleton_group <$> csvs) (singleton_group <$> fits).

(** The groupings when every group is a single record. *)
Definition simple_groupings (csvs fits : list RawWeightRecord)
  : list (list RawWeightRecord * list RawWeightRecord) :=
  ((λ c, ([c], near c fits)) <$> csvs)
  ++ ((λ f, ([], [f])) <$> filter (λ f, instant f ∉ claimed csvs fits) fits).

Lemma matched_records_singletons (c : RawWeightRecord) (fits : list RawWeightRecord) :
  matched_records config (timestamp c) (singleton_group <$> fits) = near c fits.
Proof.
  unfold matched_records, near. induction fits as [|f fits IH]; [done|].
  rewrite fmap_cons, !filter_cons. unfold matches at 1. simpl.
  repeat case_decide; try done. by rewrite bind_cons, IH.
Qed.

Lemma filter_unclaimed_singletons (csv_groups : list (datetime * list RawWeightRecord))
    (fits : list RawWeightRecord) (claimed_set : gset Z) :
  filter (λ g : datetime * list RawWeightRecord, epoch_us g.1 ∉ claimed_set)
    (singleton_group <$> fits)
  = singleton_group <$> filter (λ f, instant f ∉ claimed_set) fits.
Proof.
  induction fits as [|f fits IH]; [done|].
  rewrite fmap_cons, !filter_cons. simpl. unfold instant at 1.
  repeat case_decide; try done. by rewrite fmap_cons, IH.
Qed.

Lemma groupings_of_singletons (raw_records : list RawWeightRecord) :
  one_record_per_instant raw_records →
  groupings_of config raw_records
  = simple_groupings (filter is_csv raw_records) (filter is_fit raw_records).
Proof.
  intros [Hcsv Hfit]. unfold groupings_of, groupings, csv_groups_of, fit_groups_of.
  rewrite !group_by_timestamp_singletons by done.
  unfold simple_groupings, claimed, unclaimed. f_equal.
  - rewrite <- list_fmap_compose. apply list_fmap_ext. intros i c _. simpl.
    by rewrite matched_records_singletons.
  - rewrite (filter_unclaimed_singletons []). by rewrite <- list_fmap_compose.
Qed.

Lemma elem_of_claimed (csvs fits : list RawWeightRecord) (x : Z) :
  x ∈ claimed csvs fits
  ↔ ∃ c f, c ∈ csvs ∧ f ∈ fits
           ∧ timestamps_match (timestamp c) (timestamp f) tolerance = true
           ∧ x = instant f.
Proof.
  unfold claimed, claimed_instants, matched_instants.
  rewrite elem_of_union_list. split.
  - intros (X & HX & Hx).
    apply list_elem_of_fmap in HX as (gc & -> & Hgc).
    apply list_elem_of_fmap in Hgc as (c & -> & Hc).
    apply elem_of_list_to_set, list_elem_of_fmap in Hx as (gf & -> & Hgf).
    apply list_elem_of_filter in Hgf as [Hm Hgf].
    apply list_elem_of_fmap in Hgf as (f & -> & Hf).
    by exists c, f.
  - intros (c & f & Hc & Hf & Hm & ->).
    exists (list_to_set ((λ g : datetime * list RawWeightRecord, epoch_us g.1)
              <$> filter (matches config (timestamp c)) (singleton_group <$> fits))).
    split.
    + apply list_elem_of_fmap. exists (singleton_group c). split; [done|].
      by apply list_elem_of_fmap_2.
    + apply elem_of_list_to_set, list_elem_of_fmap. exists (singleton_group f).
      split; [done|]. apply list_elem_of_filter. split; [done|].
      by apply list_elem_of_fmap_2.
Qed.

Lemma claimed_Permutation (csvs csvs' fits fits' : list RawWeightRecord) :
  csvs ≡ₚ csvs' → fits ≡ₚ fits' → claimed csvs fits = claimed csvs' fits'.
Proof.
  intros Hc Hf. apply set_eq. intros x. rewrite !elem_of_claimed.
  by setoid_rewrite Hc; setoid_rewrite Hf.
Qed.

(** A list without repetition all of whose elements share a key holds at
    most one element, and so has one arrangement only. *)
Lemma one_arrangement (l l' : list RawWeightRecord) :
  NoDup (instant <$> l) →
  (∀ x y, x ∈ l → y ∈ l → instant x = instant y) →
  l ≡ₚ l' → l = l'.
Proof.
  intros Hnd Hsame Hp. destruct l as [|x [|y l]].
  - by apply Permutation_nil_l.
  - by apply Permutation_singleton_l.
  - rewrite !fmap_cons in Hnd. apply NoDup_cons in Hnd as [Hx _].
    destruct Hx. rewrite (Hsame x y); [left|left|right; left].
Qed.

Lemma near_Permutation (raw_records : list RawWeightRecord)
    (c : RawWeightRecord) (fits' : list RawWeightRecord) :
  one_record_per_instant raw_records → at_most_one_match raw_records →
  c ∈ filter is_csv raw_records →
  filter is_fit raw_records ≡ₚ fits' →
  near c (filter is_fit raw_records) = near c fits'.
Proof.
  intros [_ Hfit] Hone [Hcsv Hc]%list_elem_of_filter Hp.
  apply one_arrangement.
  - eapply sublist_NoDup; [exact Hfit|]. apply fmap_sublist, sublist_filter.
  - intros f1 f2 [Hm1 [Hf1 Hin1]%list_elem_of_filter]%list_elem_of_filter
                 [Hm2 [Hf2 Hin2]%list_elem_of_filter]%list_elem_of_filter.
    by apply (Hone c f1 f2).
  - unfold near. by rewrite Hp.
Qed.

Lemma simple_groupings_Permutation (raw_records raw_records' : list RawWeightRecord) :
  raw_records ≡ₚ raw_records' →
  one_record_per_instant raw_records → at_most_one_match raw_records →
  simple_groupings (filter is_csv raw_records) (filter is_fit raw_records)
  ≡ₚ simple_groupings (filter is_csv raw_records') (filter is_fit raw_records').
Proof.
  intros Hp Hper Hone. unfold simple_groupings.
  assert (filter is_csv raw_records ≡ₚ filter is_csv raw_records') as Hc
    by (by rewrite Hp).
  assert (filter is_fit raw_records ≡ₚ filter is_fit raw_records') as Hf
    by (by rewrite Hp).
  rewrite (claimed_Permutation _ _ _ _ Hc Hf).
  apply Permutation_app.
  - trans ((λ c, ([c], near c (filter is_fit raw_records')))
             <$> filter is_csv raw_records); [|by rewrite Hc].
    assert ((λ c, ([c], near c (filter is_fit raw_records)))
              <$> filter is_csv raw_records
            = (λ c, ([c], near c (filter is_fit raw_records')))
                <$> filter is_csv raw_records) as ->; [|done].
    apply Forall_fmap_ext, Forall_forall.
    intros c Hin. f_equal. by apply (near_Permutation raw_records).
  - by rewrite Hf.
Qed.

Lemma merge_grouping_timestamp (first : RawWeightRecord)
    (csv_records fit_records : list RawWeightRecord) (m : WeightMeasurement) :
  (∃ rest, csv_records ++ fit_records = first :: rest) →
  merge (csv_records, fit_records) = Ok m →
  epoch_us (m_timestamp m) = instant first.
Proof.
  intros [rest Hfirst] Hm. unfold merge_grouping in Hm. simpl in Hm.
  apply merge_records_Ok_inv in Hm
    as (first' & rest' & w & Hall & _ & _ & Hts & _).
  rewrite Hfirst in Hall. injection Hall as <- _. by rewrite Hts.
Qed.

Lemma merge_grouping_kinds (csv_records fit_records : list RawWeightRecord)
    (m : WeightMeasurement) :
  merge (csv_records, fit_records) = Ok m →
  source_types m = list_to_set (source_type <$> csv_records ++ fit_records).
Proof.
  intros Hm. unfold merge_grouping in Hm. simpl in Hm.
  by apply merge_records_Ok_inv in Hm
    as (first' & rest' & w & _ & _ & _ & _ & _ & _ & _ & Hkinds & _).
Qed.

Lemma Forall2_instants {A} (f : A → list RawWeightRecord * list RawWeightRecord)
    (first : A → RawWeightRecord) (l : list A) (ys : list WeightMeasurement) :
  (∀ x, ∃ rest, (f x).1 ++ (f x).2 = first x :: rest) →
  traverse merge (f <$> l) = Ok ys →
  (λ m, epoch_us (m_timestamp m)) <$> ys = (instant ∘ first) <$> l.
Proof.
  intros Hfirst Htr. apply traverse_Ok_Forall2, Forall2_fmap_l in Htr.
  induction Htr as [|x m l ys Hm Htr IH]; [done|].
  rewrite !fmap_cons, IH. f_equal. simpl in Hm.
  apply (merge_grouping_timestamp (first x) (f x).1 (f x).2); [done|].
  by destruct (f x).
Qed.

(** The measurements of single-record groups come with their ties in
    order: those of the tabular records first, at pairwise different
    instants, then those of the binary records left over, at pairwise
    different instants. *)
Lemma simple_groupings_ties (csvs fits : list RawWeightRecord)
    (ys : list WeightMeasurement) :
  NoDup (instant <$> csvs) → NoDup (instant <$> fits) →
  Forall is_csv csvs → Forall is_fit fits →
  traverse merge (simple_groupings csvs fits) = Ok ys →
  StronglySorted tie ys.
Proof.
  intros Hndc Hndf Hcsv Hfit. unfold simple_groupings. rewrite traverse_app.
  destruct (traverse merge (_ <$> csvs)) as [ys1|e] eqn:H1; [|done]. simpl.
  destruct (traverse merge (_ <$> filter _ fits)) as [ys2|e] eqn:H2; [|done]. simpl.
  intros [= <-]. apply StronglySorted_app_2.
  - intros m1 m2 Hm1 Hm2 _.
    destruct (traverse_Ok_elem_r _ _ _ _ H1 Hm1) as (g1 & Hg1 & Hmerge1).
    destruct (traverse_Ok_elem_r _ _ _ _ H2 Hm2) as (g2 & Hg2 & Hmerge2).
    apply list_elem_of_fmap in Hg1 as (c & -> & Hc).
    apply list_elem_of_fmap in Hg2 as (f & -> & Hf).
    apply list_elem_of_filter in Hf as [_ Hf].
    rewrite Forall_forall in Hcsv, Hfit.
    rewrite (merge_grouping_kinds _ _ _ Hmerge1), (merge_grouping_kinds _ _ _ Hmerge2).
    simpl. rewrite (Hcsv c Hc), (Hfit f Hf). set_solver.
  - apply NoDup_StronglySorted_tie.
    rewrite (Forall2_instants (λ c, ([c], near c fits)) (λ c, c) csvs ys1);
      [done|by eexists|done].
  - apply NoDup_StronglySorted_tie.
    rewrite (Forall2_instants (λ f, ([], [f])) (λ f, f)
               (filter (λ f, instant f ∉ claimed csvs fits) fits) ys2);
      [|by eexists|done].
    eapply sublist_NoDup; [exact Hndf|]. apply fmap_sublist, sublist_filter.
Qed.

Lemma one_record_per_instant_Permutation (l l' : list RawWeightRecord) :
  l ≡ₚ l' → one_record_per_instant l → one_record_per_instant l'.
Proof. unfold one_record_per_instant. by intros ->. Qed.

Lemma consolidate_ascending (raw_records : list RawWeightRecord)
    (out : list WeightMeasurement) :
  run raw_records = Ok out → ascending out.
Proof.
  intros (ms & _ & ->)%consolidate_Ok_inv. apply sort_by_timestamp_ascending.
Qed.

(** C5.  The list [consolidate] returns is in ascending order of the
    timestamps.  For an input in which no source has two records at the
    same instant and no tabular record lies within tolerance of binary
    records at two different instants, every rearrangement of the input
    is consolidated to the same list of measurements, in the same order,
    or fails as the input does. *)
Theorem consolidate_order_independent (raw_records raw_records' : list RawWeightRecord) :
  raw_records ≡ₚ raw_records' →
  one_record_per_instant raw_records →
  at_most_one_match raw_records →
  returned (run raw_records') = returned (run raw_records)
  ∧ (∀ out, run raw_records = Ok out → ascending out).
Proof.
  intros Hp Hper Hone. split; [|apply consolidate_ascending].
  pose proof (one_record_per_instant_Permutation _ _ Hp Hper) as Hper'.
  unfold consolidate. rewrite !consolidate_body_spec.
  rewrite !groupings_of_singletons by done.
  pose proof (traverse_Permutation merge _ _
                (simple_groupings_Permutation _ _ Hp Hper Hone)) as Hsame.
  destruct Hper as [Hc Hf], Hper' as [Hc' Hf'].
  destruct (traverse merge (simple_groupings (filter is_csv raw_records) _))
    as [ys|e] eqn:Hys;
    destruct (traverse merge (simple_groupings (filter is_csv raw_records') _))
      as [ys'|e'] eqn:Hys'; simpl in *; try done.
  apply (f_equal Some). symmetry. apply sort_by_timestamp_unique; [done|..].
  - apply (simple_groupings_ties _ _ _ Hc Hf); [| |done];
      apply Forall_forall; by intros r [? _]%list_elem_of_filter.
  - apply (simple_groupings_ties _ _ _ Hc' Hf'); [| |done];
      apply Forall_forall; by intros r [? _]%list_elem_of_filter.
Qed.
End Determinism.

Lemma consolidate_order_independent_witness :
  returned (Sample.run Sample.config
              [Overlap.csv_late; Overlap.csv_early; Overlap.fit_between])
  = returned (Sample.run Sample.config Overlap.records)
  ∧ (∀ out, Sample.run Sample.config Overlap.records = Ok out → ascending out).
Proof.
  apply (consolidate_order_independent
           Sample.isoformat Sample.format_3f Sample.hexdigest Sample.config).
  - unfold Overlap.records.
    etrans; [apply perm_skip, perm_swap|]. apply perm_swap.
  - split; apply (bool_decide_unpack _); vm_compute; reflexivity.
  - intros c f1 f2 _ Hf1 Hf2 _ Hk1 Hk2 _ _.
    apply list_elem_of_In in Hf1, Hf2. simpl in Hf1, Hf2.
    destruct Hf1 as [<-|[<-|[<-|[]]]]; try discriminate Hk1.
    destruct Hf2 as [<-|[<-|[<-|[]]]]; try discriminate Hk2.
    reflexivity.
Defined.

Module SameInstant.
Import Sample.

(** Two tabular records at the same instant, of 70 kg and of 80 kg. *)
Definition csv_70 : RawWeightRecord :=
  record SourceType.CSV 1705314600 (Some (70 # 1)%Q) "first.csv".
Definition csv_80 : RawWeightRecord :=
  record SourceType.CSV 1705314600 (Some (80 # 1)%Q) "second.csv".
End SameInstant.

(** The same two records in their two orders are consolidated to one
    measurement each, of 70 kg in one order and of 80 kg in the other. *)
Lemma same_instant_order_changes_weight :
  [SameInstant.csv_70; SameInstant.csv_80] ≡ₚ [SameInstant.csv_80; SameInstant.csv_70]
  ∧ ∃ m1 m2,
      Sample.run Sample.config [SameInstant.csv_70; SameInstant.csv_80] = Ok [m1]
      ∧ Sample.run Sample.config [SameInstant.csv_80; SameInstant.csv_70] = Ok [m2]
      ∧ m_weight_kg m1 = Some (70 # 1)%Q
      ∧ m_weight_kg m2 = Some (80 # 1)%Q
      ∧ m_weight_kg m1 ≠ m_weight_kg m2
      ∧ record_id m1 ≠ record_id m2.
Proof.
  split; [apply perm_swap|].
  eexists _, _. split; [vm_compute; reflexivity|].
  split; [vm_compute; reflexivity|].
  repeat split; discriminate.
Qed.

(** ** The scenarios of the unit tests *)

(** Same instant, 75.5 kg on both sides: one measurement, no conflict,
    the weight tagged as merged. *)
Example scenario_agreement :
  ∃ m, Sample.run Sample.config
         [Scenario.csv_755; with_weight Scenario.fit_760 (Some (151 # 2)%Q)] = Ok [m]
       ∧ m_weight_kg m = Some (151 # 2)%Q
       ∧ field_sources m !! "weight_kg"%string = Some FieldSource.MERGED
       ∧ source_files m = ["test.csv"; "test.fit"]%string.
Proof. eexists. split; [vm_compute; reflexivity|]. by repeat split. Qed.

(** Same instant, 75.5 kg against 76.0 kg: the weight is listed as
    conflicting and both values are kept for audit. *)
Example scenario_conflict :
  ∃ m, Sample.run Sample.config [Scenario.csv_755; Scenario.fit_760] = Ok [m]
       ∧ conflicting_fields m = ["weight_kg"; "body_fat_pct"]%string
       ∧ weight_kg_csv m = Some (151 # 2)%Q
       ∧ weight_kg_fit m = Some (76 # 1)%Q
       ∧ field_sources m !! "weight_kg"%string = Some FieldSource.CONFLICT.
Proof. eexists. split; [vm_compute; reflexivity|]. by repeat split. Qed.

(** Two tabular records, one of them matched by the only binary record. *)
Example scenario_comparison :
  let r := _compare_pair Sample.config
             [Overlap.csv_early;
              Sample.record SourceType.CSV 1705400000 (Some (151 # 2)%Q) "early.csv"]
             [Overlap.fit_between] in
  both_count r = 1%nat ∧ csv_only_count r = 1%nat ∧ fit_only_count r = 0%nat
  ∧ mismatches r !! "weight_kg"%string = Some 1%nat.
Proof. by vm_compute. Qed.

(** * Further properties of the code *)

(** ** The temporal matcher *)

(** X1.  [timestamps_match] is symmetric in its two timestamps, looks at
    their instants only, not at their zones, and matches a timestamp with
    itself exactly when the tolerance is not negative. *)
Theorem timestamps_match_symmetric_reflexive (a b : datetime) (tolerance : Z) :
  timestamps_match a b tolerance = timestamps_match b a tolerance
  ∧ (∀ zone_a zone_b,
       timestamps_match (mk_datetime (epoch_us a) zone_a)
         (mk_datetime (epoch_us b) zone_b) tolerance
       = timestamps_match a b tolerance)
  ∧ (timestamps_match a a tolerance = true ↔ 0 ≤ tolerance).
Proof.
  unfold timestamps_match. repeat split.
  - f_equal. lia.
  - intros H%Z.leb_le. lia.
  - intros H. apply Z.leb_le. lia.
Qed.

(** X2.  Widening the tolerance keeps every match, and with a negative
    tolerance no two timestamps match, not even equal ones. *)
Theorem timestamps_match_tolerance (a b : datetime) (tolerance : Z) :
  (∀ wider, tolerance ≤ wider →
     timestamps_match a b tolerance = true → timestamps_match a b wider = true)
  ∧ (tolerance < 0 → timestamps_match a b tolerance = false).
Proof.
  unfold timestamps_match. split.
  - intros wider Hle H%Z.leb_le. apply Z.leb_le. lia.
  - intros Hneg. apply Z.leb_gt. lia.
Qed.

(** ** Bucketing of timestamps *)

Lemma round_timestamp_Ok_inv (ts r : datetime) (n : Z) :
  round_timestamp ts n = Ok r →
  n ≠ 0 ∧ r = at_second (posix_seconds ts / n * n) (tzinfo ts).
Proof.
  unfold round_timestamp. destruct (Z.eqb_spec n 0); [done|]. by intros [= <-].
Qed.

(** Less than 2^34 seconds from the epoch, the whole seconds are too. *)
Lemma posix_seconds_bound (ts : datetime) :
  Z.abs (epoch_us ts) < 2 ^ 34 * 1000000 → Z.abs (posix_seconds ts) < 2 ^ 34.
Proof.
  intros Hts. unfold posix_seconds.
  pose proof (Z.quot_rem' (epoch_us ts) 1000000) as Hqr.
  pose proof (Z.rem_bound_abs (epoch_us ts) 1000000 ltac:(lia)) as Habs.
  pose proof (Z.rem_sign_mul (epoch_us ts) 1000000 ltac:(lia)) as Hsign.
  nia.
Qed.

(** X3.  [round_timestamp] raises a division by zero for an interval of
    zero and for no other.  For a timestamp less than 2^34 seconds from
    the epoch and an interval other than zero of at most 2^34 seconds it
    returns: a whole number of seconds, a multiple of the interval, less
    than 2^35 seconds from the epoch, in the zone of its argument. *)
Theorem round_timestamp_outcome (ts : datetime) (n : Z) :
  (round_timestamp ts n = Err ZeroDivisionError ↔ n = 0)
  ∧ (n ≠ 0 → rounding_domain ts n →
     ∃ s, round_timestamp ts n = Ok (at_second s (tzinfo ts))
          ∧ (n | s) ∧ Z.abs s < 2 ^ 35).
Proof.
  unfold round_timestamp. destruct (Z.eqb_spec n 0) as [->|Hn]; split; try done.
  intros _ [Hts Hint]. eexists. split; [done|].
  split; [apply Z.divide_factor_r|].
  apply posix_seconds_bound in Hts.
  pose proof (Z.div_mod (posix_seconds ts) n Hn) as Hdm.
  destruct (Z.lt_total n 0) as [Hneg|[->|Hpos]]; [|done|].
  - pose proof (Z.mod_neg_bound (posix_seconds ts) n Hneg) as Hm. lia.
  - pose proof (Z.mod_pos_bound (posix_seconds ts) n Hpos) as Hm. lia.
Qed.

(** X4.  Bucketing is idempotent: a timestamp that [round_timestamp]
    returned is returned unchanged when bucketed again with the same
    interval, whatever the sign of the interval. *)
Theorem round_timestamp_idempotent (ts r : datetime) (n : Z) :
  round_timestamp ts n = Ok r → round_timestamp r n = Ok r.
Proof.
  intros [Hn ->]%round_timestamp_Ok_inv.
  unfold round_timestamp, posix_seconds. cbn [at_second epoch_us tzinfo].
  destruct (Z.eqb_spec n 0); [done|].
  by rewrite Z.quot_mul, Z.div_mul by lia.
Qed.

Lemma round_timestamp_idempotent_witness :
  round_timestamp (at_second 1705314600 "UTC") 60 = Ok (at_second 1705314600 "UTC").
Proof.
  apply (round_timestamp_idempotent (mk_datetime 1705314659500000 "UTC")).
  reflexivity.
Defined.

(** X5.  For a timestamp less than 2^34 seconds from the epoch and a
    positive interval of at most 2^34 seconds, the bucket starts less than
    one second after the timestamp at the latest and ends after it; from
    the epoch on the bucket starts at or before the timestamp. *)
Theorem round_timestamp_bucket_bounds (ts r : datetime) (n : Z) :
  0 < n → rounding_domain ts n → round_timestamp ts n = Ok r →
  epoch_us r - 1000000 < epoch_us ts < epoch_us r + n * 1000000
  ∧ (0 ≤ epoch_us ts → epoch_us r ≤ epoch_us ts).
Proof.
  intros Hn _ [_ ->]%round_timestamp_Ok_inv.
  unfold posix_seconds. cbn [at_second epoch_us].
  pose proof (Z.mul_div_le (epoch_us ts ÷ 1000000) n Hn) as Hlow.
  pose proof (Z.mul_succ_div_gt (epoch_us ts ÷ 1000000) n Hn) as Hhigh.
  pose proof (Z.quot_rem' (epoch_us ts) 1000000) as Hqr.
  pose proof (Z.rem_bound_abs (epoch_us ts) 1000000 ltac:(lia)) as Habs.
  split; [|intros Hpos;
           pose proof (Z.rem_nonneg (epoch_us ts) 1000000 ltac:(lia) Hpos)]; nia.
Qed.

Lemma round_timestamp_bucket_bounds_witness :
  epoch_us (at_second 1705314600 "UTC") - 1000000 < 1705314659500000
    < epoch_us (at_second 1705314600 "UTC") + 60 * 1000000
  ∧ (0 ≤ 1705314659500000 →
     epoch_us (at_second 1705314600 "UTC") ≤ 1705314659500000).
Proof.
  apply (round_timestamp_bucket_bounds (mk_datetime 1705314659500000 "UTC")
           (at_second 1705314600 "UTC") 60).
  - lia.
  - unfold rounding_domain. cbn [epoch_us]. lia.
  - reflexivity.
Defined.

(** ** The identity generator, continued *)

Section RecordIdProperties.
Variable isoformat : datetime → string.
Variable format_3f : Q → string.
Variable hexdigest : string → string → option string.

Abbreviation record_id_of := (generate_record_id isoformat format_3f hexdigest).

Definition with_include_fields (config : RecordIDConfig) (fields : list string)
  : RecordIDConfig :=
  {| algorithm := algorithm config;
     timestamp_rounding_seconds := timestamp_rounding_seconds config;
     include_fields := fields |}.

(** X6.  The identifier depends on the inclusion list as a set only: the
    fragments are always put in the order timestamp, weight, source kinds,
    so reordering the list or repeating a name in it changes nothing. *)
Theorem generate_record_id_include_set (ts : datetime) (weight : Q)
    (kinds : list SourceType.t) (config : RecordIDConfig) (fields : list string) :
  (∀ name, name ∈ fields ↔ name ∈ include_fields config) →
  record_id_of ts weight kinds (with_include_fields config fields)
  = record_id_of ts weight kinds config.
Proof.
  intros Hsame. unfold generate_record_id. cbn [with_include_fields
    algorithm timestamp_rounding_seconds include_fields].
  destruct (round_timestamp ts _) as [rounded|e]; [|done]. simpl.
  by rewrite !(decide_ext _ _ _ _ (Hsame _)).
Qed.

(** X7.  A field left out of the inclusion list has no influence on the
    identifier: not the weight, not the source kinds, and not the
    timestamp, among the timestamps less than 2^34 seconds from the epoch
    and with a bucket size other than zero of at most 2^34 seconds (the
    bucketing runs, and can fail, also when the timestamp is left out). *)
Theorem generate_record_id_ignores_excluded (ts ts' : datetime) (weight weight' : Q)
    (kinds kinds' : list SourceType.t) (config : RecordIDConfig) :
  ("weight_kg"%string ∉ include_fields config →
     record_id_of ts weight kinds config = record_id_of ts weight' kinds config)
  ∧ ("source_types"%string ∉ include_fields config →
     record_id_of ts weight kinds config = record_id_of ts weight kinds' config)
  ∧ ("timestamp"%string ∉ include_fields config →
     timestamp_rounding_seconds config ≠ 0 →
     rounding_domain ts (timestamp_rounding_seconds config) →
     rounding_domain ts' (timestamp_rounding_seconds config) →
     record_id_of ts weight kinds config = record_id_of ts' weight kinds config).
Proof.
  unfold generate_record_id. repeat split.
  - intros Hout. destruct (round_timestamp ts _); [|done]. simpl.
    by rewrite !(decide_False (P := "weight_kg"%string ∈ _)).
  - intros Hout. destruct (round_timestamp ts _); [|done]. simpl.
    by rewrite !(decide_False (P := "source_types"%string ∈ _)).
  - intros Hout Hn _ _. unfold round_timestamp.
    destruct (Z.eqb_spec (timestamp_rounding_seconds config) 0); [done|]. simpl.
    by rewrite !(decide_False (P := "timestamp"%string ∈ _)).
Qed.

(** X8.  A bucket size of zero makes [generate_record_id] raise a division
    by zero, also when the timestamp is not among the included fields.
    For a timestamp less than 2^34 seconds from the epoch and any other
    bucket size of at most 2^34 seconds, it returns an identifier when the
    digest algorithm is supported and fails on the algorithm when it is
    not. *)
Theorem generate_record_id_errors (ts : datetime) (weight : Q)
    (kinds : list SourceType.t) (config : RecordIDConfig) :
  (timestamp_rounding_seconds config = 0 →
     record_id_of ts weight kinds config = Err ZeroDivisionError)
  ∧ (timestamp_rounding_seconds config ≠ 0 →
     rounding_domain ts (timestamp_rounding_seconds config) →
     (∀ message, hexdigest (algorithm config) message = None) →
     record_id_of ts weight kinds config = Err UnsupportedHashType)
  ∧ (timestamp_rounding_seconds config ≠ 0 →
     rounding_domain ts (timestamp_rounding_seconds config) →
     (∀ message, is_Some (hexdigest (algorithm config) message)) →
     ∃ hex, record_id_of ts weight kinds config = Ok hex).
Proof.
  unfold generate_record_id, round_timestamp. repeat split.
  - by intros ->.
  - intros Hn _ Hnone.
    destruct (Z.eqb_spec (timestamp_rounding_seconds config) 0); [done|]. simpl.
    by rewrite Hnone.
  - intros Hn _ Hsome.
    destruct (Z.eqb_spec (timestamp_rounding_seconds config) 0); [done|]. simpl.
    match goal with |- context [hexdigest ?a ?s] => destruct (Hsome s) as [hex ->] end.
    eauto.
Qed.
End RecordIdProperties.

Lemma generate_record_id_include_set_witness :
  generate_record_id Sample.isoformat Sample.format_3f Sample.hexdigest
    (at_second 1705314600 "UTC") (151 # 2)%Q [SourceType.CSV]
    (with_include_fields (record_id_config Sample.config)
       ["source_types"; "timestamp"; "weight_kg"; "timestamp"]%string)
  = generate_record_id Sample.isoformat Sample.format_3f Sample.hexdigest
      (at_second 1705314600 "UTC") (151 # 2)%Q [SourceType.CSV]
      (record_id_config Sample.config).
Proof.
  apply (generate_record_id_include_set
           Sample.isoformat Sample.format_3f Sample.hexdigest).
  intros name. rewrite !list_elem_of_In. simpl. tauto.
Defined.

(** ** The field merge resolver, continued *)

(** X9.  The value [_merge_field] returns is always one of its two inputs,
    and it is absent only when both inputs are absent. *)
Theorem merge_field_value_from_inputs (config : ProcessingConfig)
    (csv_value fit_value : option Q) (field_name : string) :
  let value := (_merge_field config csv_value fit_value field_name).1.1 in
  (value = csv_value ∨ value = fit_value)
  ∧ (value = None ↔ csv_value = None ∧ fit_value = None).
Proof.
  unfold _merge_field. destruct csv_value as [c|], fit_value as [f|]; simpl;
    try (split; [tauto|]; split; [done|by intros []]).
  destruct (within_tolerance _ _ _); simpl;
    [|repeat case_decide; simpl];
    (split; [tauto|]; split; [done|by intros []]).
Qed.

Lemma within_tolerance_sym (tolerance a b : Q) :
  within_tolerance tolerance a b = within_tolerance tolerance b a.
Proof.
  unfold within_tolerance. apply Qleb_comp; [|done].
  rewrite <- (Qabs_opp (a - b)). apply Qabs_wd. ring.
Qed.

(** X10.  Conflict detection does not depend on which source is which:
    exchanging the two inputs leaves the conflict flag unchanged. *)
Theorem merge_field_flag_symmetric (config : ProcessingConfig)
    (csv_value fit_value : option Q) (field_name : string) :
  (_merge_field config csv_value fit_value field_name).2
  = (_merge_field config fit_value csv_value field_name).2.
Proof.
  unfold _merge_field. destruct csv_value as [c|], fit_value as [f|]; try done.
  rewrite (within_tolerance_sym _ f c).
  destruct (within_tolerance _ _ _); [done|]. by repeat case_decide.
Qed.

(** X11.  Two equal values merge without conflict exactly when the numeric
    tolerance is not negative; with a negative tolerance every field that
    both sources supply is a conflict. *)
Theorem merge_field_equal_values (config : ProcessingConfig) (field_name : string) :
  (∀ v, (_merge_field config (Some v) (Some v) field_name).2 = false
        ↔ (0 <= numeric_tolerance config)%Q)
  ∧ ((numeric_tolerance config < 0)%Q →
     ∀ c f, (_merge_field config (Some c) (Some f) field_name).2 = true).
Proof.
  split.
  - intros v. assert (Qabs (v - v) == 0)%Q as Hzero.
    { assert (v - v == 0)%Q as -> by ring. reflexivity. }
    split.
    + intros Hflag. destruct (Qlt_le_dec (numeric_tolerance config) 0) as [Hneg|]; [|done].
      assert ((_merge_field config (Some v) (Some v) field_name).2 = true) as Htrue.
      { apply merge_field_conflict_iff. exists v, v. repeat split.
        rewrite Hzero. by apply Qlt_not_le. }
      congruence.
    + intros Hpos. unfold _merge_field.
      rewrite (proj2 (within_tolerance_le _ _ _)); [done|]. by rewrite Hzero.
  - intros Hneg c f. apply merge_field_conflict_iff. exists c, f. repeat split.
    apply Qlt_not_le. eapply Qlt_le_trans; [exact Hneg|apply Qabs_nonneg].
Qed.

(** ** Merging one group, continued *)

(** [getattr(measurement, field)] on the numeric fields. *)
Definition measurement_value (m : WeightMeasurement) (field : string) : option Q :=
  if decide (field = "weight_kg"%string) then m_weight_kg m
  else if decide (field = "body_fat_pct"%string) then m_body_fat_pct m
  else if decide (field = "fat_mass_kg"%string) then m_fat_mass_kg m
  else if decide (field = "fat_free_pct"%string) then m_fat_free_pct m
  else if decide (field = "fat_free_mass_kg"%string) then m_fat_free_mass_kg m
  else if decide (field = "skeletal_muscle_pct"%string) then m_skeletal_muscle_pct m
  else if decide (field = "skeletal_muscle_mass_kg"%string)
       then m_skeletal_muscle_mass_kg m
  else if decide (field = "muscle_pct"%string) then m_muscle_pct m
  else if decide (field = "muscle_mass_kg"%string) then m_muscle_mass_kg m
  else if decide (field = "bone_mass_kg"%string) then m_bone_mass_kg m
  else if decide (field = "body_water"%string) then m_body_water m
  else if decide (field = "bmr_kcal"%string) then m_bmr_kcal m
  else if decide (field = "metabolic_age"%string) then m_metabolic_age m
  else if decide (field = "visceral_fat_rating"%string) then m_visceral_fat_rating m
  else None.

Section MergeRecordsFields.
Variable isoformat : datetime → string.
Variable format_3f : Q → string.
Variable hexdigest : string → string → option string.
Variable config : ProcessingConfig.

Abbreviation merge_records := (_merge_records isoformat format_3f hexdigest config).

Ltac expose_field_merges Hm :=
  repeat match type of Hm with
  | context [match _merge_field ?c ?a ?b ?n with _ => _ end] =>
      let H := fresh "Hmerge" in
      destruct (_merge_field c a b n) as [[? ?] ?] eqn:H
  end.

Ltac use_field_merges :=
  repeat match goal with
  | |- context [getattr ?r ?n] =>
      first
        [ change (getattr r n) with (weight_kg r)
        | change (getattr r n) with (body_fat_pct r)
        | change (getattr r n) with (fat_mass_kg r)
        | change (getattr r n) with (fat_free_pct r)
        | change (getattr r n) with (fat_free_mass_kg r)
        | change (getattr r n) with (skeletal_muscle_pct r)
        | change (getattr r n) with (skeletal_muscle_mass_kg r)
        | change (getattr r n) with (muscle_pct r)
        | change (getattr r n) with (muscle_mass_kg r)
        | change (getattr r n) with (bone_mass_kg r)
        | change (getattr r n) with (body_water r)
        | change (getattr r n) with (bmr_kcal r)
        | change (getattr r n) with (metabolic_age r)
        | change (getattr r n) with (visceral_fat_rating r) ]
  end;
  repeat match goal with
  | H : _merge_field _ _ _ _ = _ |- _ => try rewrite H; clear H
  end.

(** The value and the provenance tag a merge records for each of the
    fourteen fields are those of the field merge of the representatives. *)
Lemma merge_records_fields (csv_records fit_records : list RawWeightRecord)
    (m : WeightMeasurement) (field : string) :
  merge_records csv_records fit_records = Ok m →
  field ∈ numeric_fields →
  measurement_value m field = (field_merge config csv_records fit_records field).1.1
  ∧ field_sources m !! field
    = Some (field_merge config csv_records fit_records field).1.2.
Proof.
  intros Hm Hin. unfold _merge_records in Hm.
  destruct (csv_records ++ fit_records) as [|first rest] eqn:Hall; [done|].
  cbv zeta in Hm. unfold field_merge, representative_value.
  destruct (head csv_records) as [c|], (head fit_records) as [f|];
    cbn [field_or_none mbind option_bind] in *;
    expose_field_merges Hm;
    (match type of Hm with
     | match ?w with Some _ => _ | None => _ end = _ => destruct w; [|done]
     end);
    (destruct (generate_record_id _ _ _ _ _ _ _); [|done]);
    injection Hm as <-;
    apply list_elem_of_In in Hin; simpl in Hin;
    repeat (destruct Hin as [<-|Hin]; [split; [by use_field_merges|
      cbn [field_sources]; by use_field_merges]|]);
    done.
Qed.
(** The provenance map of a measurement has the fourteen field names as
    its keys. *)
Lemma merge_records_field_sources_dom (csv_records fit_records : list RawWeightRecord)
    (m : WeightMeasurement) :
  merge_records csv_records fit_records = Ok m →
  dom (field_sources m) = list_to_set numeric_fields.
Proof.
  intros Hm. unfold _merge_records in Hm.
  destruct (csv_records ++ fit_records) as [|first rest] eqn:Hall; [done|].
  cbv zeta in Hm. expose_field_merges Hm.
  (match type of Hm with
   | match ?w with Some _ => _ | None => _ end = _ => destruct w; [|done]
   end).
  destruct (generate_record_id _ _ _ _ _ _ _); [|done].
  injection Hm as <-. cbn [field_sources].
  rewrite !dom_insert_L, dom_empty_L. unfold numeric_fields. set_solver.
Qed.

(** The audit values of a measurement: the representatives' values of a
    field that is listed as conflicting, nothing otherwise. *)
Lemma merge_records_audit (csv_records fit_records : list RawWeightRecord)
    (m : WeightMeasurement) :
  merge_records csv_records fit_records = Ok m →
  (weight_kg_csv m, weight_kg_fit m)
  = (if bool_decide ("weight_kg"%string ∈ conflicting_fields m)
     then (representative_value csv_records "weight_kg",
           representative_value fit_records "weight_kg")
     else (None, None))
  ∧ (body_fat_pct_csv m, body_fat_pct_fit m)
    = (if bool_decide ("body_fat_pct"%string ∈ conflicting_fields m)
       then (representative_value csv_records "body_fat_pct",
             representative_value fit_records "body_fat_pct")
       else (None, None)).
Proof.
  intros Hm. unfold _merge_records in Hm.
  destruct (csv_records ++ fit_records) as [|first rest] eqn:Hall; [done|].
  cbv zeta in Hm. expose_field_merges Hm.
  (match type of Hm with
   | match ?w with Some _ => _ | None => _ end = _ => destruct w; [|done]
   end).
  destruct (generate_record_id _ _ _ _ _ _ _); [|done].
  injection Hm as <-.
  cbn [weight_kg_csv weight_kg_fit body_fat_pct_csv body_fat_pct_fit
       conflicting_fields].
  rewrite !(field_or_none_head _ "weight_kg"%string weight_kg) by done.
  rewrite !(field_or_none_head _ "body_fat_pct"%string body_fat_pct) by done.
  split; by case_bool_decide.
Qed.

(** A group whose merged weight is present and whose identifier cannot be
    generated raises the error of the generator. *)
Lemma merge_records_hashing_error (csv_records fit_records : list RawWeightRecord)
    (first : RawWeightRecord) (rest : list RawWeightRecord) (w : Q)
    (e : hashing_error) :
  csv_records ++ fit_records = first :: rest →
  (field_merge config csv_records fit_records "weight_kg").1.1 = Some w →
  generate_record_id isoformat format_3f hexdigest (timestamp first) w
    (elements (group_kinds csv_records fit_records)) (record_id_config config)
  = Err e →
  merge_records csv_records fit_records = Err (HashingError e).
Proof.
  unfold _merge_records, field_merge, group_kinds.
  rewrite <- !(field_or_none_head csv_records _ weight_kg) by done.
  rewrite <- !(field_or_none_head fit_records _ weight_kg) by done.
  intros Hall. rewrite Hall, <- Hall. cbv zeta.
  repeat match goal with
  | |- context [match _merge_field ?c ?a ?b ?n with _ => _ end] =>
      destruct (_merge_field c a b n) as [[? ?] ?]
  end.
  simpl. by intros -> ->.
Qed.
End MergeRecordsFields.

Lemma elem_of_if_singleton {A} (b : bool) (x y : A) :
  x ∈ (if b then [y] else []) ↔ b = true ∧ x = y.
Proof.
  destruct b.
  - rewrite list_elem_of_singleton. naive_solver.
  - split; [by intros ?%elem_of_nil|by intros []].
Qed.

Section MergeRecordsExtras.
Variable isoformat : datetime → string.
Variable format_3f : Q → string.
Variable hexdigest : string → string → option string.
Variable config : ProcessingConfig.

Abbreviation merge_records := (_merge_records isoformat format_3f hexdigest config).

(** X12.  In a merged measurement the provenance map tags a field as
    conflicting exactly when it is one of the fourteen numeric fields and
    both representatives supplied a value for it, the two differing by
    more than the numeric tolerance: the conflicts that the list of
    conflicting fields leaves out are all in the map. *)
Theorem field_sources_conflict_iff (csv_records fit_records : list RawWeightRecord)
    (m : WeightMeasurement) (field : string) :
  merge_records csv_records fit_records = Ok m →
  (field_sources m !! field = Some FieldSource.CONFLICT
   ↔ field ∈ numeric_fields ∧ supplied_and_differ config csv_records fit_records field).
Proof.
  intros Hm. unfold supplied_and_differ.
  rewrite <- (merge_field_conflict_iff config _ _ field),
          <- merge_field_tag_conflict.
  split.
  - intros Htag.
    assert (field ∈ numeric_fields) as Hin.
    { apply (elem_of_list_to_set (C := gset string)).
      rewrite <- (merge_records_field_sources_dom _ _ _ _ _ _ _ Hm).
      apply elem_of_dom. by rewrite Htag. }
    split; [done|].
    destruct (merge_records_fields _ _ _ _ _ _ _ field Hm Hin) as [_ Htag'].
    unfold field_merge in Htag'. congruence.
  - intros [Hin Htag].
    destruct (merge_records_fields _ _ _ _ _ _ _ field Hm Hin) as [_ Htag'].
    unfold field_merge in Htag'. by rewrite Htag', Htag.
Qed.

(** X13.  For each of the fourteen numeric fields a merged measurement
    holds the value and the provenance tag that the field merge of the
    two representatives returns under the name of that field, and the
    provenance map has no other key. *)
Theorem merged_values_and_tags (csv_records fit_records : list RawWeightRecord)
    (m : WeightMeasurement) :
  merge_records csv_records fit_records = Ok m →
  (∀ field, field ∈ numeric_fields →
     measurement_value m field
     = (_merge_field config (representative_value csv_records field)
          (representative_value fit_records field) field).1.1
     ∧ field_sources m !! field
       = Some (_merge_field config (representative_value csv_records field)
                 (representative_value fit_records field) field).1.2)
  ∧ (∀ field, field ∉ numeric_fields → field_sources m !! field = None).
Proof.
  intros Hm. split.
  - intros field Hin. by apply (merge_records_fields _ _ _ _ _ _ _ field Hm).
  - intros field Hout. apply not_elem_of_dom.
    rewrite (merge_records_field_sources_dom _ _ _ _ _ _ _ Hm).
    by rewrite elem_of_list_to_set.
Qed.

(** X14.  The per-source audit values of the weight are kept exactly when
    the weight is listed as conflicting: then both are present and differ
    by more than the tolerance, otherwise both are absent.  The same holds
    for the body-fat percentage. *)
Theorem audit_values_kept_on_conflict (csv_records fit_records : list RawWeightRecord)
    (m : WeightMeasurement) :
  merge_records csv_records fit_records = Ok m →
  ("weight_kg"%string ∈ conflicting_fields m →
     ∃ c f, weight_kg_csv m = Some c ∧ weight_kg_fit m = Some f
            ∧ ¬ (Qabs (c - f) <= numeric_tolerance config)%Q)
  ∧ ("weight_kg"%string ∉ conflicting_fields m →
       weight_kg_csv m = None ∧ weight_kg_fit m = None)
  ∧ ("body_fat_pct"%string ∈ conflicting_fields m →
       ∃ c f, body_fat_pct_csv m = Some c ∧ body_fat_pct_fit m = Some f
              ∧ ¬ (Qabs (c - f) <= numeric_tolerance config)%Q)
  ∧ ("body_fat_pct"%string ∉ conflicting_fields m →
       body_fat_pct_csv m = None ∧ body_fat_pct_fit m = None).
Proof.
  intros Hm.
  destruct (merge_records_audit _ _ _ _ _ _ _ Hm) as [Hweight Hfat].
  apply merge_records_Ok_inv in Hm
    as (first & rest & w & _ & _ & _ & _ & _ & _ & _ & _ & Hconf & _).
  split; [|split; [|split]].
  - intros Hin. rewrite bool_decide_eq_true_2 in Hweight by done.
    injection Hweight as -> ->.
    rewrite Hconf, elem_of_app, !elem_of_if_singleton in Hin.
    destruct Hin as [[Hflag _]|[_ [=]]].
    apply merge_field_conflict_iff in Hflag as (c & f & -> & -> & Hbeyond). eauto.
  - intros Hout. rewrite bool_decide_eq_false_2 in Hweight by done.
    by injection Hweight as -> ->.
  - intros Hin. rewrite bool_decide_eq_true_2 in Hfat by done.
    injection Hfat as -> ->.
    rewrite Hconf, elem_of_app, !elem_of_if_singleton in Hin.
    destruct Hin as [[_ [=]]|[Hflag _]].
    apply merge_field_conflict_iff in Hflag as (c & f & -> & -> & Hbeyond). eauto.
  - intros Hout. rewrite bool_decide_eq_false_2 in Hfat by done.
    by injection Hfat as -> ->.
Qed.

(** X15.  The errors of a merge, in their order: an empty group raises an
    index error; a group whose representatives carry no weight raises the
    missing-weight error, whatever the configuration of the identifier;
    a group with a weight raises the error of the identity generator, if
    it has one. *)
Theorem merge_records_errors (csv_records fit_records : list RawWeightRecord) :
  merge_records [] [] = Err IndexError
  ∧ (csv_records ++ fit_records ≠ [] →
     representative_value csv_records "weight_kg" = None →
     representative_value fit_records "weight_kg" = None →
     merge_records csv_records fit_records = Err MissingWeight)
  ∧ (∀ first rest w e,
       csv_records ++ fit_records = first :: rest →
       (field_merge config csv_records fit_records "weight_kg").1.1 = Some w →
       generate_record_id isoformat format_3f hexdigest (timestamp first) w
         (elements (group_kinds csv_records fit_records)) (record_id_config config)
       = Err e →
       merge_records csv_records fit_records = Err (HashingError e)).
Proof.
  repeat split.
  - intros Hne Hcsv Hfit. apply merge_records_missing_weight; [done|].
    by apply field_merge_value_None.
  - intros first rest w e. apply merge_records_hashing_error.
Qed.

(** X16.  The identifier of a measurement is a function of the bucket of
    its timestamp, its weight and its set of source kinds: two merged
    measurements that agree on the three carry the same identifier. *)
Theorem record_id_function_of_bucket_weight_kinds
    (csv1 fit1 csv2 fit2 : list RawWeightRecord) (m1 m2 : WeightMeasurement) :
  merge_records csv1 fit1 = Ok m1 → merge_records csv2 fit2 = Ok m2 →
  round_timestamp (m_timestamp m1)
    (timestamp_rounding_seconds (record_id_config config))
  = round_timestamp (m_timestamp m2)
      (timestamp_rounding_seconds (record_id_config config)) →
  m_weight_kg m1 = m_weight_kg m2 →
  source_types m1 = source_types m2 →
  record_id m1 = record_id m2.
Proof.
  intros (first1 & rest1 & w1 & _ & _ & Hid1 & Hts1 & Hw1 & _ & _ & Hk1 & _)
           %merge_records_Ok_inv
         (first2 & rest2 & w2 & _ & _ & Hid2 & Hts2 & Hw2 & _ & _ & Hk2 & _)
           %merge_records_Ok_inv
         Hbucket Hweight Hkinds.
  rewrite Hts1, Hts2 in Hbucket. rewrite Hw1, Hw2 in Hweight.
  injection Hweight as ->. rewrite Hk1, Hk2 in Hkinds.
  rewrite (generate_record_id_ext _ _ _ _ (timestamp first2) w2 _
             (elements (group_kinds csv2 fit2)) _ Hbucket) in Hid1;
    [congruence|by rewrite Hkinds].
Qed.
End MergeRecordsExtras.

Lemma field_sources_conflict_iff_witness :
  ∃ m, Sample.merge_records Sample.config [Scenario.csv_fat_10] [Scenario.fit_fat_20]
       = Ok m
       ∧ (field_sources m !! "fat_mass_kg"%string = Some FieldSource.CONFLICT
          ↔ "fat_mass_kg"%string ∈ numeric_fields
            ∧ supplied_and_differ Sample.config
                [Scenario.csv_fat_10] [Scenario.fit_fat_20] "fat_mass_kg").
Proof.
  eexists. split; [vm_compute; reflexivity|].
  apply (field_sources_conflict_iff
           Sample.isoformat Sample.format_3f Sample.hexdigest).
  vm_compute. reflexivity.
Defined.

Lemma merged_values_and_tags_witness :
  ∃ m, Sample.merge_records Sample.config [Scenario.csv_755] [Scenario.fit_760] = Ok m
       ∧ (∀ field, field ∈ numeric_fields →
            measurement_value m field
            = (_merge_field Sample.config
                 (representative_value [Scenario.csv_755] field)
                 (representative_value [Scenario.fit_760] field) field).1.1
            ∧ field_sources m !! field
              = Some (_merge_field Sample.config
                        (representative_value [Scenario.csv_755] field)
                        (representative_value [Scenario.fit_760] field) field).1.2)
       ∧ (∀ field, field ∉ numeric_fields → field_sources m !! field = None).
Proof.
  eexists. split; [vm_compute; reflexivity|].
  apply (merged_values_and_tags Sample.isoformat Sample.format_3f Sample.hexdigest).
  vm_compute. reflexivity.
Defined.

Lemma audit_values_kept_on_conflict_witness :
  ∃ m, Sample.merge_records Sample.config [Scenario.csv_755] [Scenario.fit_760] = Ok m
       ∧ ("weight_kg"%string ∈ conflicting_fields m →
            ∃ c f, weight_kg_csv m = Some c ∧ weight_kg_fit m = Some f
                   ∧ ¬ (Qabs (c - f) <= numeric_tolerance Sample.config)%Q)
       ∧ ("weight_kg"%string ∉ conflicting_fields m →
            weight_kg_csv m = None ∧ weight_kg_fit m = None)
       ∧ ("body_fat_pct"%string ∈ conflicting_fields m →
            ∃ c f, body_fat_pct_csv m = Some c ∧ body_fat_pct_fit m = Some f
                   ∧ ¬ (Qabs (c - f) <= numeric_tolerance Sample.config)%Q)
       ∧ ("body_fat_pct"%string ∉ conflicting_fields m →
            body_fat_pct_csv m = None ∧ body_fat_pct_fit m = None).
Proof.
  eexists. split; [vm_compute; reflexivity|].
  apply (audit_values_kept_on_conflict
           Sample.isoformat Sample.format_3f Sample.hexdigest Sample.config
           [Scenario.csv_755] [Scenario.fit_760]).
  vm_compute. reflexivity.
Defined.

(** Two groups twenty seconds apart in the same minute, with the same
    weight and the same kind, get the same identifier. *)
Lemma record_id_function_of_bucket_weight_kinds_witness :
  ∃ m1 m2,
    Sample.merge_records Sample.config [Scenario.csv_valid] [] = Ok m1
    ∧ Sample.merge_records Sample.config
        [Sample.record SourceType.CSV 1705314620 (Some (151 # 2)%Q) "other.csv"] []
      = Ok m2
    ∧ record_id m1 = record_id m2.
Proof.
  eexists _, _. split; [vm_compute; reflexivity|]. split; [vm_compute; reflexivity|].
  eapply (record_id_function_of_bucket_weight_kinds
            Sample.isoformat Sample.format_3f Sample.hexdigest Sample.config
            [Scenario.csv_valid] []
            [Sample.record SourceType.CSV 1705314620 (Some (151 # 2)%Q) "other.csv"] []);
    vm_compute; reflexivity.
Defined.

(** ** Runs of [consolidate], continued *)

Lemma merge_field_value_cases (config : ProcessingConfig)
    (a b : option Q) (field_name : string) :
  (_merge_field config a b field_name).1.1 = a
  ∨ (_merge_field config a b field_name).1.1 = b.
Proof.
  unfold _merge_field. destruct a, b; simpl; try tauto.
  destruct (within_tolerance _ _ _); simpl; [tauto|].
  repeat case_decide; simpl; tauto.
Qed.

Lemma length_filter_kinds (raw_records : list RawWeightRecord) :
  (length (filter is_csv raw_records) + length (filter is_fit raw_records)
   = length raw_records)%nat.
Proof.
  induction raw_records as [|r l IH]; [done|].
  destruct (source_type r) eqn:Hkind.
  - rewrite (filter_cons_True is_csv), (filter_cons_False is_fit);
      [simpl; lia|unfold is_fit; congruence|done].
  - rewrite (filter_cons_False is_csv), (filter_cons_True is_fit);
      [simpl; lia|done|unfold is_csv; congruence].
Qed.

Lemma group_by_timestamp_length (l : list RawWeightRecord) :
  (length (group_by_timestamp l) ≤ length l)%nat.
Proof.
  induction l as [|r l IH] using rev_ind; [done|].
  rewrite group_by_timestamp_snoc, length_app. simpl.
  pose proof (group_append_instants (group_by_timestamp l) r) as Hinst.
  apply (f_equal length) in Hinst. unfold group_instants in Hinst.
  case_decide; rewrite ?length_app, !length_fmap in Hinst; simpl in Hinst; lia.
Qed.

Lemma NoDup_fmap_elem_inj {A B} (f : A → B) (l : list A) (x y : A) :
  NoDup (f <$> l) → x ∈ l → y ∈ l → f x = f y → x = y.
Proof.
  induction l as [|z l IH]; [by intros _ ?%elem_of_nil|].
  rewrite fmap_cons. intros [Hz Hnd]%NoDup_cons.
  intros [->|Hx]%elem_of_cons [->|Hy]%elem_of_cons Heq; try done.
  - destruct Hz. rewrite Heq. by apply list_elem_of_fmap_2.
  - destruct Hz. rewrite <- Heq. by apply list_elem_of_fmap_2.
  - by apply IH.
Qed.

Section ConsolidateExtras.
Variable isoformat : datetime → string.
Variable format_3f : Q → string.
Variable hexdigest : string → string → option string.
Variable config : ProcessingConfig.

Abbreviation run := (consolidate isoformat format_3f hexdigest config).
Abbreviation merge := (merge_grouping isoformat format_3f hexdigest config).

Lemma generate_record_id_total (ts : datetime) (weight : Q)
    (kinds : list SourceType.t) (id_config : RecordIDConfig) :
  timestamp_rounding_seconds id_config ≠ 0 →
  (∀ message, is_Some (hexdigest (algorithm id_config) message)) →
  ∃ hex, generate_record_id isoformat format_3f hexdigest ts weight kinds id_config
         = Ok hex.
Proof.
  intros Hn Hsome. unfold generate_record_id, round_timestamp.
  destruct (Z.eqb_spec (timestamp_rounding_seconds id_config) 0); [done|]. simpl.
  match goal with |- context [hexdigest ?a ?s] => destruct (Hsome s) as [hex ->] end.
  eauto.
Qed.

(** The groups that are merged: a tabular group with what it absorbs, or
    a binary group that no tabular group claims. *)
Lemma groupings_of_elem (raw_records : list RawWeightRecord)
    (g : list RawWeightRecord * list RawWeightRecord) :
  g ∈ groupings_of config raw_records →
  ∃ k r0 rest,
    (g = (r0 :: rest, matched_records config k (fit_groups_of raw_records))
     ∧ (k, r0 :: rest) ∈ csv_groups_of raw_records ∧ timestamp r0 = k)
    ∨ (g = ([], r0 :: rest)
       ∧ (k, r0 :: rest) ∈ fit_groups_of raw_records ∧ timestamp r0 = k
       ∧ unclaimed config (csv_groups_of raw_records) (fit_groups_of raw_records)
           (k, r0 :: rest)).
Proof.
  unfold groupings_of, groupings.
  intros [Hg|Hg]%elem_of_app; apply list_elem_of_fmap in Hg as ([k rs] & -> & Hg).
  - destruct (grouped_head _ _ (group_by_timestamp_grouped _) _ _ Hg)
      as (r0 & rest & -> & Hk).
    exists k, r0, rest. by left.
  - apply list_elem_of_filter in Hg as [Hfree Hg].
    destruct (grouped_head _ _ (group_by_timestamp_grouped _) _ _ Hg)
      as (r0 & rest & -> & Hk).
    exists k, r0, rest. by right.
Qed.

(** Every record of a group that is merged is a record of the input. *)
Lemma groupings_of_records (raw_records : list RawWeightRecord)
    (g : list RawWeightRecord * list RawWeightRecord) (r : RawWeightRecord) :
  g ∈ groupings_of config raw_records → r ∈ g.1 ++ g.2 → r ∈ raw_records.
Proof.
  pose proof (group_by_timestamp_grouped (filter is_csv raw_records)) as Gc.
  pose proof (group_by_timestamp_grouped (filter is_fit raw_records)) as Gf.
  intros (k & r0 & rest & [(-> & Hg & _)|(-> & Hg & _)])%groupings_of_elem;
    cbn [fst snd].
  - intros [Hr|Hr]%elem_of_app.
    + destruct (grouped_members _ _ Gc _ _ _ Hg Hr) as [_ Hin].
      by apply list_elem_of_filter in Hin as [_ ?].
    + unfold matched_records in Hr.
      apply list_elem_of_bind in Hr as ([kf frs] & Hr & Hgf).
      apply list_elem_of_filter in Hgf as [_ Hgf].
      destruct (grouped_members _ _ Gf _ _ _ Hgf Hr) as [_ Hin].
      by apply list_elem_of_filter in Hin as [_ ?].
  - intros Hr. destruct (grouped_members _ _ Gf _ _ _ Hg Hr) as [_ Hin].
    by apply list_elem_of_filter in Hin as [_ ?].
Qed.

Lemma groupings_of_length (raw_records : list RawWeightRecord) :
  (length (groupings_of config raw_records) ≤ length raw_records)%nat.
Proof.
  unfold groupings_of, groupings. rewrite length_app, !length_fmap.
  pose proof (length_filter (unclaimed config (csv_groups_of raw_records)
                               (fit_groups_of raw_records))
                (fit_groups_of raw_records)).
  pose proof (group_by_timestamp_length (filter is_csv raw_records)).
  pose proof (group_by_timestamp_length (filter is_fit raw_records)).
  pose proof (length_filter_kinds raw_records).
  unfold csv_groups_of, fit_groups_of in *. lia.
Qed.

(** Every record of the input is in one of the groups that are merged. *)
Lemma record_in_some_grouping (raw_records : list RawWeightRecord)
    (r : RawWeightRecord) :
  r ∈ raw_records →
  ∃ g, g ∈ groupings_of config raw_records ∧ r ∈ g.1 ++ g.2.
Proof.
  intros Hr.
  pose proof (group_by_timestamp_grouped (filter is_csv raw_records)) as Gc.
  pose proof (group_by_timestamp_grouped (filter is_fit raw_records)) as Gf.
  unfold groupings_of, groupings. destruct (source_type r) eqn:Hkind.
  - destruct (grouped_cover _ _ Gc r) as (k & crs & Hk & Hcrs);
      [by apply list_elem_of_filter|].
    exists (crs, matched_records config k (fit_groups_of raw_records)). split.
    + apply elem_of_app. left. apply list_elem_of_fmap. by exists (k, crs).
    + apply elem_of_app. by left.
  - destruct (grouped_cover _ _ Gf r) as (kf & frs & Hkf & Hfrs);
      [by apply list_elem_of_filter|].
    destruct (decide (unclaimed config (csv_groups_of raw_records)
                        (fit_groups_of raw_records) (kf, frs))) as [Hfree|Hclaimed].
    + exists ([], frs). split; [|done].
      apply elem_of_app. right. apply list_elem_of_fmap. exists (kf, frs).
      split; [done|]. by apply list_elem_of_filter.
    + unfold unclaimed in Hclaimed. apply dec_stable in Hclaimed.
      unfold claimed_instants in Hclaimed.
      apply elem_of_union_list in Hclaimed as (X & HX & Hx).
      apply list_elem_of_fmap in HX as ([kc crs] & -> & Hgc).
      unfold matched_instants in Hx.
      apply elem_of_list_to_set, list_elem_of_fmap in Hx as ([kf' frs'] & Heq & Hgf).
      apply list_elem_of_filter in Hgf as [Hmatch Hgf]. simpl in *.
      assert ((kf', frs') = (kf, frs)) as [= -> ->].
      { apply (NoDup_fmap_elem_inj (λ g, epoch_us g.1) (fit_groups_of raw_records));
          [apply (grouped_NoDup _ _ Gf)|done..]. }
      exists (crs, matched_records config kc (fit_groups_of raw_records)). split.
      * apply elem_of_app. left. apply list_elem_of_fmap. by exists (kc, crs).
      * apply elem_of_app. right. unfold matched_records.
        apply list_elem_of_bind. exists (kf, frs). split; [done|].
        by apply list_elem_of_filter.
Qed.
End ConsolidateExtras.

Section ConsolidateGuarantees.
Variable isoformat : datetime → string.
Variable format_3f : Q → string.
Variable hexdigest : string → string → option string.
Variable config : ProcessingConfig.

Abbreviation run := (consolidate isoformat format_3f hexdigest config).
Abbreviation merge := (merge_grouping isoformat format_3f hexdigest config).

Lemma grouping_merges (raw_records : list RawWeightRecord)
    (g : list RawWeightRecord * list RawWeightRecord) :
  (∀ r, r ∈ raw_records → is_Some (weight_kg r)) →
  timestamp_rounding_seconds (record_id_config config) ≠ 0 →
  (∀ message, is_Some (hexdigest (algorithm (record_id_config config)) message)) →
  g ∈ groupings_of config raw_records →
  ∃ m, merge g = Ok m.
Proof.
  intros Hweights Hn Hdigest Hg. unfold merge_grouping.
  assert (∃ r0 rest, g.1 ++ g.2 = r0 :: rest
                     ∧ (representative_value g.1 "weight_kg" = weight_kg r0
                        ∨ representative_value g.2 "weight_kg" = weight_kg r0))
    as (r0 & rest & Hall & Hrep).
  { destruct (groupings_of_elem config _ _ Hg)
      as (k & r0 & rest' & [(-> & _)|(-> & _)]); simpl; eauto. }
  destruct (Hweights r0) as [w0 Hw0].
  { apply (groupings_of_records config raw_records g); [done|]. rewrite Hall. left. }
  destruct ((field_merge config g.1 g.2 "weight_kg").1.1) as [w|] eqn:Hw.
  - destruct (generate_record_id_total isoformat format_3f hexdigest
                (timestamp r0) w (elements (group_kinds g.1 g.2))
                (record_id_config config) Hn Hdigest) as [rid Hrid].
    by apply (merge_records_Ok _ _ _ _ _ _ r0 rest w rid).
  - apply field_merge_value_None in Hw as [Hcsv Hfit].
    destruct Hrep; congruence.
Qed.

(** X17.  When every record carries a weight and a timestamp less than
    2^34 seconds from the epoch, the bucket size is not zero and at most
    2^34 seconds, and the digest algorithm is supported, [consolidate]
    returns: one measurement for every tabular group and for every binary
    group that no tabular group claims, and never more measurements than
    records. *)
Theorem consolidate_succeeds (raw_records : list RawWeightRecord) :
  (∀ r, r ∈ raw_records →
     is_Some (weight_kg r)
     ∧ rounding_domain (timestamp r)
         (timestamp_rounding_seconds (record_id_config config))) →
  timestamp_rounding_seconds (record_id_config config) ≠ 0 →
  (∀ message, is_Some (hexdigest (algorithm (record_id_config config)) message)) →
  ∃ out, run raw_records = Ok out
         ∧ length out = length (groupings_of config raw_records)
         ∧ (length out ≤ length raw_records)%nat.
Proof.
  intros Hrecords Hn Hdigest.
  destruct (traverse_Ok_all merge (groupings_of config raw_records)) as [ms Hms].
  { intros g Hg. apply (grouping_merges raw_records); [|done..].
    intros r Hr. by destruct (Hrecords r Hr). }
  exists (sort_by_timestamp ms).
  assert (length (sort_by_timestamp ms) = length (groupings_of config raw_records))
    as Hlen.
  { rewrite sort_by_timestamp_Permutation. by apply traverse_Ok_length in Hms. }
  split; [|split; [done|]].
  - unfold consolidate. by rewrite consolidate_body_spec, Hms.
  - rewrite Hlen. apply groupings_of_length.
Qed.

Lemma grouping_lineage (g : list RawWeightRecord * list RawWeightRecord)
    (m : WeightMeasurement) (r : RawWeightRecord) :
  merge g = Ok m → r ∈ g.1 ++ g.2 →
  source_file_name r ∈ source_files m
  ∧ source_file_id r ∈ drive_file_ids m
  ∧ source_type r ∈ source_types m.
Proof.
  unfold merge_grouping.
  intros (first & rest & w & _ & _ & _ & _ & _ & Hfiles & Hids & Hkinds & _)
           %merge_records_Ok_inv Hr.
  rewrite Hfiles, Hids, Hkinds. unfold group_kinds.
  rewrite elem_of_list_to_set. repeat split; by apply list_elem_of_fmap_2.
Qed.

(** X18.  A run that returns loses no record: every raw record is named,
    by file name, file identifier and source kind, in the lineage of one
    of the measurements returned. *)
Theorem consolidate_keeps_lineage (raw_records : list RawWeightRecord)
    (out : list WeightMeasurement) (r : RawWeightRecord) :
  run raw_records = Ok out → r ∈ raw_records →
  ∃ m, m ∈ out
       ∧ source_file_name r ∈ source_files m
       ∧ source_file_id r ∈ drive_file_ids m
       ∧ source_type r ∈ source_types m.
Proof.
  intros (ms & Htr & ->)%consolidate_Ok_inv Hr.
  destruct (record_in_some_grouping config raw_records r Hr) as (g & Hg & Hin).
  destruct (traverse_Ok_elem_l _ _ _ g Htr Hg) as (m & Hm & Hmerge).
  exists m. split; [by apply sort_by_timestamp_elem|].
  by apply (grouping_lineage g).
Qed.

(** X19.  Nothing in a returned measurement is invented: it carries a
    weight, which is the weight of a raw record of the input; its
    timestamp is the timestamp of a raw record; and every file name, file
    identifier and source kind of its lineage is that of a raw record. *)
Theorem consolidate_measurements_from_input (raw_records : list RawWeightRecord)
    (out : list WeightMeasurement) (m : WeightMeasurement) :
  run raw_records = Ok out → m ∈ out →
  (∃ r, r ∈ raw_records ∧ is_Some (m_weight_kg m) ∧ m_weight_kg m = weight_kg r)
  ∧ (∃ r, r ∈ raw_records ∧ m_timestamp m = timestamp r)
  ∧ (∀ name, name ∈ source_files m →
       ∃ r, r ∈ raw_records ∧ source_file_name r = name)
  ∧ (∀ id, id ∈ drive_file_ids m →
       ∃ r, r ∈ raw_records ∧ source_file_id r = id)
  ∧ (∀ kind, kind ∈ source_types m →
       ∃ r, r ∈ raw_records ∧ source_type r = kind).
Proof.
  intros (ms & Htr & ->)%consolidate_Ok_inv Hm.
  apply (proj1 (sort_by_timestamp_elem _ _)) in Hm.
  destruct (traverse_Ok_elem_r _ _ _ _ Htr Hm) as (g & Hg & Hmerge).
  pose proof (groupings_of_records config raw_records g) as Hfrom.
  unfold merge_grouping in Hmerge.
  apply merge_records_Ok_inv in Hmerge
    as (first & rest & w & Hall & Hw & _ & Hts & Hmw & Hfiles & Hids & Hkinds & _).
  split; [|split; [|split; [|split]]].
  - rewrite Hmw.
    assert (∀ records, records ⊆ g.1 ++ g.2 →
              representative_value records "weight_kg" = Some w →
              ∃ r, r ∈ raw_records ∧ is_Some (Some w) ∧ Some w = weight_kg r)
      as Hrep.
    { intros records Hsub. unfold representative_value.
      destruct records as [|r0 records]; [done|]. simpl. intros Hr0.
      exists r0. split; [|by split]. apply Hfrom; [done|]. apply Hsub. left. }
    destruct (merge_field_value_cases config
                (representative_value g.1 "weight_kg")
                (representative_value g.2 "weight_kg") "weight_kg") as [Heq|Heq];
      unfold field_merge in Hw; rewrite Hw in Heq.
    + apply (Hrep g.1); [|done]. intros x Hx. apply elem_of_app. by left.
    + apply (Hrep g.2); [|done]. intros x Hx. apply elem_of_app. by right.
  - exists first. split; [|done]. apply Hfrom; [done|]. rewrite Hall. left.
  - intros name. rewrite Hfiles. intros (r & -> & Hr)%list_elem_of_fmap. eauto.
  - intros id. rewrite Hids. intros (r & -> & Hr)%list_elem_of_fmap. eauto.
  - intros kind. rewrite Hkinds. unfold group_kinds.
    rewrite elem_of_list_to_set. intros (r & -> & Hr)%list_elem_of_fmap. eauto.
Qed.
End ConsolidateGuarantees.

Lemma consolidate_succeeds_witness :
  ∃ out, Sample.run Sample.config Overlap.records = Ok out
         ∧ length out = length (groupings_of Sample.config Overlap.records)
         ∧ (length out ≤ length Overlap.records)%nat.
Proof.
  apply (consolidate_succeeds Sample.isoformat Sample.format_3f Sample.hexdigest).
  - intros r Hr. apply list_elem_of_In in Hr. simpl in Hr.
    destruct Hr as [<-|[<-|[<-|[]]]];
      (split; [eexists; reflexivity|split; vm_compute; done]).
  - discriminate.
  - intros message. eexists. reflexivity.
Defined.

Lemma consolidate_keeps_lineage_witness :
  ∃ out, Sample.run Sample.config Overlap.records = Ok out
    ∧ ∃ m, m ∈ out
        ∧ source_file_name Overlap.fit_between ∈ source_files m
        ∧ source_file_id Overlap.fit_between ∈ drive_file_ids m
        ∧ source_type Overlap.fit_between ∈ source_types m.
Proof.
  eexists. split; [vm_compute; reflexivity|].
  apply (consolidate_keeps_lineage Sample.isoformat Sample.format_3f Sample.hexdigest
           Sample.config Overlap.records).
  - vm_compute. reflexivity.
  - apply list_elem_of_In. simpl. tauto.
Defined.

Lemma consolidate_measurements_from_input_witness :
  ∃ m, Sample.run Sample.config [Scenario.csv_755; Scenario.fit_760] = Ok [m]
    ∧ (∃ r, r ∈ [Scenario.csv_755; Scenario.fit_760]
            ∧ is_Some (m_weight_kg m) ∧ m_weight_kg m = weight_kg r)
    ∧ (∃ r, r ∈ [Scenario.csv_755; Scenario.fit_760] ∧ m_timestamp m = timestamp r)
    ∧ (∀ name, name ∈ source_files m →
         ∃ r, r ∈ [Scenario.csv_755; Scenario.fit_760] ∧ source_file_name r = name)
    ∧ (∀ id, id ∈ drive_file_ids m →
         ∃ r, r ∈ [Scenario.csv_755; Scenario.fit_760] ∧ source_file_id r = id)
    ∧ (∀ kind, kind ∈ source_types m →
         ∃ r, r ∈ [Scenario.csv_755; Scenario.fit_760] ∧ source_type r = kind).
Proof.
  eexists. split; [vm_compute; reflexivity|].
  eapply (consolidate_measurements_from_input
            Sample.isoformat Sample.format_3f Sample.hexdigest Sample.config
            [Scenario.csv_755; Scenario.fit_760]).
  - vm_compute. reflexivity.
  - left.
Defined.

(** ** Dictionaries of lists *)

(** [d[key].append(x)] on a [defaultdict(list)], the dictionary being the
    list of its items in insertion order and [same] the equality of its
    keys. *)
Fixpoint dict_append {K A} (same : K → K → bool) (d : list (K * list A))
    (key : K) (x : A) : list (K * list A) :=
  match d with
  | [] => [(key, [x])]
  | (k, xs) :: rest =>
      if same k key then (k, xs ++ [x]) :: rest
      else (k, xs) :: dict_append same rest key x
  end.

(** All the values of the dictionary, in the order of its keys. *)
Definition dict_values {K A} (d : list (K * list A)) : list A := d ≫= snd.

Lemma dict_append_values {K A} (same : K → K → bool) (d : list (K * list A))
    (key : K) (x : A) :
  dict_values (dict_append same d key x) ≡ₚ dict_values d ++ [x].
Proof.
  unfold dict_values. induction d as [|[k xs] d IH]; simpl; [done|].
  destruct (same k key); rewrite !bind_cons; simpl.
  - rewrite <- !app_assoc. f_equiv. apply Permutation_app_comm.
  - by rewrite IH, app_assoc.
Qed.

(** Every list of the dictionary keeps the arrival order of its elements. *)
Lemma dict_append_sublist {K A} (same : K → K → bool) (d : list (K * list A))
    (key : K) (x : A) (l : list A) :
  (∀ k xs, (k, xs) ∈ d → xs `sublist_of` l) →
  ∀ k xs, (k, xs) ∈ dict_append same d key x → xs `sublist_of` l ++ [x].
Proof.
  induction d as [|[k' xs'] d IH]; simpl; intros Hd k xs.
  - intros [= -> ->]%list_elem_of_singleton. apply sublist_inserts_l. done.
  - destruct (same k' key).
    + intros [[= -> ->]|Hin]%elem_of_cons.
      * apply sublist_app; [|done]. apply (Hd k'). left.
      * apply sublist_inserts_r. apply (Hd k). by right.
    + intros [[= -> ->]|Hin]%elem_of_cons.
      * apply sublist_inserts_r. apply (Hd k'). left.
      * eapply IH; [|exact Hin]. intros k0 xs0 H0. apply (Hd k0). by right.
Qed.

Lemma group_append_dict (gs : list (datetime * list RawWeightRecord))
    (r : RawWeightRecord) :
  group_append gs r = dict_append datetime_eqb gs (timestamp r) r.
Proof.
  induction gs as [|[k rs] gs IH]; simpl; [done|].
  destruct (datetime_eqb k (timestamp r)); [done|]. by rewrite IH.
Qed.

(** X20.  The grouping by timestamp that [consolidate] performs on each
    source is a partition of the records by instant: the groups together
    hold the records of the list, each once; a group holds the records of
    one instant, in their arrival order, the first of them giving the key;
    and no two groups stand at the same instant. *)
Theorem group_by_timestamp_partition (l : list RawWeightRecord) :
  dict_values (group_by_timestamp l) ≡ₚ l
  ∧ (∀ k rs, (k, rs) ∈ group_by_timestamp l →
       rs `sublist_of` l
       ∧ (∃ r0 rest, rs = r0 :: rest ∧ timestamp r0 = k)
       ∧ ∀ r, r ∈ rs → instant r = epoch_us k)
  ∧ NoDup (group_instants (group_by_timestamp l)).
Proof.
  pose proof (group_by_timestamp_grouped l) as [Hhead Hmem Hnd _].
  split; [|split; [|done]].
  - induction l as [|r l IH] using rev_ind; [done|].
    rewrite group_by_timestamp_snoc, group_append_dict, dict_append_values.
    f_equiv. apply IH; by destruct (group_by_timestamp_grouped l).
  - intros k rs Hin. split; [|split; [by apply Hhead|]].
    + clear Hhead Hmem Hnd. revert k rs Hin.
      induction l as [|r l IH] using rev_ind.
      * by intros k rs ?%elem_of_nil.
      * rewrite group_by_timestamp_snoc, group_append_dict.
        by apply dict_append_sublist.
    + intros r Hr. by destruct (Hmem k rs r Hin Hr).
Qed.

(** [_find_matching_records]: the records grouped under the pair of their
    timestamp and their source kind.  The tolerance it is given is not
    used. *)
Definition find_key_eqb (a b : datetime * SourceType.t) : bool :=
  datetime_eqb a.1 b.1 && bool_decide (a.2 = b.2).

Definition _find_matching_records (records : list RawWeightRecord)
    (tolerance_seconds : Z)
  : list (datetime * SourceType.t * list RawWeightRecord) :=
  foldl (λ grouped record,
           dict_append find_key_eqb grouped
             (timestamp record, source_type record) record)
    [] records.

Lemma find_matching_records_snoc (l : list RawWeightRecord) (r : RawWeightRecord)
    (tolerance_seconds : Z) :
  _find_matching_records (l ++ [r]) tolerance_seconds
  = dict_append find_key_eqb (_find_matching_records l tolerance_seconds)
      (timestamp r, source_type r) r.
Proof. unfold _find_matching_records. by rewrite foldl_app. Qed.

Lemma dict_append_keyed {K A} (same : K → K → bool) (P : K → A → Prop)
    (d : list (K * list A)) (key : K) (x : A) :
  P key x → (∀ k, same k key = true → P k x) →
  (∀ k xs y, (k, xs) ∈ d → y ∈ xs → P k y) →
  ∀ k xs y, (k, xs) ∈ dict_append same d key x → y ∈ xs → P k y.
Proof.
  intros Hkey Hsame. induction d as [|[k' xs'] d IH]; simpl; intros Hd k xs y.
  - by intros [= -> ->]%list_elem_of_singleton ->%list_elem_of_singleton.
  - destruct (same k' key) eqn:Hk.
    + intros [[= -> ->]|Hin]%elem_of_cons.
      * intros [Hy| ->%list_elem_of_singleton]%elem_of_app.
        -- apply (Hd k' xs'); [left|done].
        -- by apply Hsame.
      * apply (Hd k xs). by right.
    + intros [[= -> ->]|Hin]%elem_of_cons.
      * apply (Hd k' xs'). left.
      * eapply IH; [|exact Hin]. intros k0 xs0 y0 H0. apply (Hd k0 xs0). by right.
Qed.

(** X21.  [_find_matching_records] partitions the records: its groups
    together hold every record once, and a group holds records of the
    instant and of the source kind of its key only, whatever the
    tolerance passed to it. *)
Theorem find_matching_records_partition (records : list RawWeightRecord)
    (tolerance_seconds : Z) :
  dict_values (_find_matching_records records tolerance_seconds) ≡ₚ records
  ∧ ∀ ts kind rs r,
      (ts, kind, rs) ∈ _find_matching_records records tolerance_seconds →
      r ∈ rs → instant r = epoch_us ts ∧ source_type r = kind.
Proof.
  split.
  - induction records as [|r l IH] using rev_ind; [done|].
    by rewrite find_matching_records_snoc, dict_append_values, IH.
  - induction records as [|r l IH] using rev_ind.
    + by intros ts kind rs r ?%elem_of_nil.
    + rewrite find_matching_records_snoc. intros ts kind rs r' Hin Hr'.
      apply (dict_append_keyed find_key_eqb
               (λ k y, instant y = epoch_us k.1 ∧ source_type y = k.2)
               (_find_matching_records l tolerance_seconds)
               (timestamp r, source_type r) r) with (k := (ts, kind)) (xs := rs);
        [done| | |done..].
      * intros [ts' kind']. unfold find_key_eqb, datetime_eqb. simpl.
        intros [Hts Hkind%bool_decide_eq_true]%andb_true_iff.
        apply Z.eqb_eq in Hts. by unfold instant.
      * intros [ts' kind'] xs y. apply IH.
Qed.

(** ** The comparison reporter, continued *)

Section ComparisonInvariants.
Variable config : ProcessingConfig.

Abbreviation loop := (λ fit_records, foldl (compare_step config fit_records)).

Lemma first_match_bound (c : RawWeightRecord) (fit_records : list RawWeightRecord)
    (start fit_idx : nat) (f : RawWeightRecord) :
  first_match config c fit_records start = Some (fit_idx, f) →
  (start ≤ fit_idx < start + length fit_records)%nat
  ∧ fit_records !! (fit_idx - start)%nat = Some f
  ∧ timestamps_match (timestamp c) (timestamp f)
      (timestamp_tolerance_seconds config) = true.
Proof.
  revert start. induction fit_records as [|f' rest IH]; intros start; simpl; [done|].
  destruct (timestamps_match (timestamp c) (timestamp f') _) eqn:Hmatch.
  - intros Heq. simplify_eq. rewrite Nat.sub_diag. repeat split; [lia..|done].
  - intros (Hbound & Hlookup & Hm)%IH. repeat split; [lia..| |done].
    replace (fit_idx - start)%nat with (S (fit_idx - S start)) by lia. done.
Qed.

(** What the loop maintains: every tabular record seen so far is counted
    once, as matched or as unmatched; the matched indices are indices of
    the binary records and no more numerous than the matches; there is at
    most one weight difference per match, none negative; and every
    mismatch counter belongs to a compared field and does not exceed the
    number of matches. *)
Record loop_invariant (fit_records : list RawWeightRecord) (seen : nat)
    (st : compare_state) : Prop := {
  inv_counts : (st_both_count st + st_csv_only_count st = seen)%nat;
  inv_indices : ∀ i, i ∈ st_matched_fit_indices st → (i < length fit_records)%nat;
  inv_matched : (size (st_matched_fit_indices st) ≤ st_both_count st)%nat;
  inv_some_match : (0 < st_both_count st)%nat → st_matched_fit_indices st ≠ ∅;
  inv_differences : (length (st_weight_differences st) ≤ st_both_count st)%nat
                    ∧ Forall (λ d, (0 <= d)%Q) (st_weight_differences st);
  inv_mismatches : ∀ field n, st_mismatches st !! field = Some n →
    field ∈ "weight_kg"%string :: compared_fields
    ∧ (0 < n ≤ st_both_count st)%nat;
}.

Lemma loop_invariant_initial (fit_records : list RawWeightRecord) :
  loop_invariant fit_records 0 initial_state.
Proof.
  unfold initial_state.
  split; cbn [st_both_count st_csv_only_count st_matched_fit_indices
              st_weight_differences st_mismatches].
  - done.
  - by intros i ?%not_elem_of_empty.
  - rewrite size_empty. lia.
  - lia.
  - split; [simpl; lia|constructor].
  - intros field n Hlookup. by rewrite lookup_empty in Hlookup.
Qed.

Lemma compare_fields_lookup_cases (c f : RawWeightRecord) (fields : list string)
    (m : gmap string nat) (field : string) (n : nat) :
  NoDup fields →
  foldl (compare_field config c f) m fields !! field = Some n →
  m !! field = Some n
  ∨ (field ∈ fields ∧ n = S (default 0%nat (m !! field))).
Proof.
  intros Hnd. revert m. induction Hnd as [|x fields Hx Hnd IH]; intros m; simpl;
    [by left|].
  intros [Hm|[Hin ->]]%IH.
  - unfold compare_field in Hm.
    destruct (getattr c x), (getattr f x); try by left.
    destruct (within_tolerance _ _ _); [by left|].
    unfold increment in Hm. destruct (decide (x = field)) as [->|Hne].
    + rewrite lookup_insert_eq in Hm. injection Hm as <-. right. split; [left|done].
    + rewrite lookup_insert_ne in Hm by done. by left.
  - right. split; [by right|].
    rewrite compare_field_lookup_ne; [done|]. intros ->. by apply Hx.
Qed.

Lemma compared_fields_NoDup : NoDup compared_fields.
Proof. apply (bool_decide_unpack _). by vm_compute. Qed.

Lemma loop_invariant_matched (fit_records : list RawWeightRecord) (seen : nat)
    (st : compare_state) (fit_idx : nat) (c f : RawWeightRecord) :
  (fit_idx < length fit_records)%nat →
  loop_invariant fit_records seen st →
  loop_invariant fit_records (S seen) (compare_matched config st fit_idx c f).
Proof.
  intros Hidx [Hcounts Hindices Hmatched Hsome [Hlen Hpos] Hmis].
  unfold compare_matched. split; cbn [st_both_count st_csv_only_count
    st_matched_fit_indices st_weight_differences st_mismatches].
  - lia.
  - intros i [->%elem_of_singleton|Hi]%elem_of_union; [done|by apply Hindices].
  - rewrite size_union_alt, size_singleton.
    pose proof (subseteq_size (st_matched_fit_indices st ∖ {[fit_idx]})
                  (st_matched_fit_indices st) ltac:(set_solver)). lia.
  - intros _. set_solver.
  - unfold weight_difference.
    destruct (truthy (weight_kg c) && truthy (weight_kg f)); cbn [fst snd];
      [|split; [lia|done]].
    destruct (weight_kg c), (weight_kg f); cbn [fst snd]; try (split; [lia|done]).
    rewrite length_app. cbn [length]. split; [lia|].
    apply Forall_app. split; [done|]. constructor; [apply Qabs_nonneg|constructor].
  - intros field n Hlookup.
    apply (compare_fields_lookup_cases _ _ _ _ _ _ compared_fields_NoDup) in Hlookup
      as [Hbase|[Hin ->]].
    + destruct (weight_difference c f) as [diff|]; simpl in Hbase;
        [destruct (Qle_bool diff (numeric_tolerance config))|];
        try (destruct (Hmis field n Hbase); split; [done|lia]).
      unfold increment in Hbase.
      destruct (decide ("weight_kg"%string = field)) as [<-|Hne].
      * rewrite lookup_insert_eq in Hbase. injection Hbase as <-.
        split; [left|].
        destruct (st_mismatches st !! "weight_kg"%string) as [k|] eqn:Hk; simpl;
          [destruct (Hmis _ _ Hk)|]; lia.
      * rewrite lookup_insert_ne in Hbase by done.
        destruct (Hmis field n Hbase). split; [done|lia].
    + split; [by right|].
      assert (field ≠ "weight_kg"%string) as Hne.
      { intros ->. apply list_elem_of_In in Hin. simpl in Hin. naive_solver. }
      assert (∀ m0 : gmap string nat,
                (m0 = st_mismatches st
                 ∨ m0 = increment "weight_kg" (st_mismatches st)) →
                (0 < S (default 0%nat (m0 !! field)) ≤ S (st_both_count st))%nat)
        as Hbound.
      { intros m0 Hm0.
        assert (m0 !! field = st_mismatches st !! field) as ->.
        { destruct Hm0 as [->| ->]; [done|].
          unfold increment. by rewrite lookup_insert_ne. }
        destruct (st_mismatches st !! field) as [k|] eqn:Hk; simpl;
          [destruct (Hmis _ _ Hk)|]; lia. }
      destruct (weight_difference c f) as [diff|]; simpl;
        [destruct (Qle_bool diff (numeric_tolerance config))|];
        apply Hbound; auto.
Qed.

Lemma loop_invariant_step (fit_records : list RawWeightRecord) (seen : nat)
    (st : compare_state) (c : RawWeightRecord) :
  loop_invariant fit_records seen st →
  loop_invariant fit_records (S seen) (compare_step config fit_records st c).
Proof.
  intros Hinv. unfold compare_step.
  destruct (first_match config c fit_records 0) as [[fit_idx f]|] eqn:Hfirst.
  - apply loop_invariant_matched; [|done].
    apply first_match_bound in Hfirst. lia.
  - destruct Hinv as [Hcounts Hindices Hmatched Hsome Hdiffs Hmis].
    split; simpl; try done. lia.
Qed.

Lemma loop_invariant_loop (fit_records csv_records : list RawWeightRecord)
    (seen : nat) (st : compare_state) :
  loop_invariant fit_records seen st →
  loop_invariant fit_records (seen + length csv_records)
    (loop fit_records st csv_records).
Proof.
  revert seen st. induction csv_records as [|c rest IH]; intros seen st Hinv; simpl.
  - by rewrite Nat.add_0_r.
  - replace (seen + S (length rest))%nat with (S seen + length rest)%nat by lia.
    apply IH. by apply loop_invariant_step.
Qed.

Lemma compare_pair_invariant (csv_records fit_records : list RawWeightRecord) :
  loop_invariant fit_records (length csv_records)
    (loop fit_records initial_state csv_records).
Proof. apply (loop_invariant_loop _ _ 0), loop_invariant_initial. Qed.
End ComparisonInvariants.

Lemma foldl_min_timestamp (l : list datetime) (d : datetime) :
  let low := foldl (λ acc x, if datetime_ltb x acc then x else acc) d l in
  low ∈ d :: l ∧ ∀ t, t ∈ d :: l → epoch_us low ≤ epoch_us t.
Proof.
  revert d. induction l as [|x l IH]; intros d; simpl.
  - split; [left|]. by intros t ->%list_elem_of_singleton.
  - unfold datetime_ltb at 2 4.
    destruct (Z.ltb_spec (epoch_us x) (epoch_us d)) as [Hlt|Hge].
    + destruct (IH x) as [Hin Hlow]. simpl in Hin, Hlow. split.
      * by right.
      * intros t [->|Ht]%elem_of_cons; [|by apply Hlow].
        specialize (Hlow x ltac:(left)). lia.
    + destruct (IH d) as [Hin Hlow]. simpl in Hin, Hlow. split.
      * apply elem_of_cons in Hin as [->|Hin]; [left|by do 2 right].
      * intros t [->|[->|Ht]%elem_of_cons]%elem_of_cons.
        -- apply Hlow. left.
        -- specialize (Hlow d ltac:(left)). lia.
        -- apply Hlow. by right.
Qed.

Lemma foldl_max_timestamp (l : list datetime) (d : datetime) :
  let high := foldl (λ acc x, if datetime_ltb acc x then x else acc) d l in
  high ∈ d :: l ∧ ∀ t, t ∈ d :: l → epoch_us t ≤ epoch_us high.
Proof.
  revert d. induction l as [|x l IH]; intros d; simpl.
  - split; [left|]. by intros t ->%list_elem_of_singleton.
  - unfold datetime_ltb at 2 4.
    destruct (Z.ltb_spec (epoch_us d) (epoch_us x)) as [Hlt|Hge].
    + destruct (IH x) as [Hin Hhigh]. simpl in Hin, Hhigh. split.
      * by right.
      * intros t [->|Ht]%elem_of_cons; [|by apply Hhigh].
        specialize (Hhigh x ltac:(left)). lia.
    + destruct (IH d) as [Hin Hhigh]. simpl in Hin, Hhigh. split.
      * apply elem_of_cons in Hin as [->|Hin]; [left|by do 2 right].
      * intros t [->|[->|Ht]%elem_of_cons]%elem_of_cons.
        -- apply Hhigh. left.
        -- specialize (Hhigh d ltac:(left)). lia.
        -- apply Hhigh. by right.
Qed.

Lemma foldl_Qplus_nonneg (l : list Q) (acc : Q) :
  (0 <= acc)%Q → Forall (λ d, (0 <= d)%Q) l → (0 <= foldl Qplus acc l)%Q.
Proof.
  revert acc. induction l as [|d l IH]; intros acc Hacc Hl; simpl; [done|].
  apply Forall_cons in Hl as [Hd Hl]. apply IH; [|done].
  replace 0%Q with (0 + 0)%Q by done. by apply Qplus_le_compat.
Qed.

Section ComparisonReport.
Variable config : ProcessingConfig.

Lemma compare_pair_counts_aux (csv_records fit_records : list RawWeightRecord) :
  let r := _compare_pair config csv_records fit_records in
  (both_count r + csv_only_count r = length csv_records)%nat
  ∧ (fit_only_count r ≤ length fit_records)%nat
  ∧ (length fit_records ≤ fit_only_count r + both_count r)%nat.
Proof.
  destruct (compare_pair_invariant config csv_records fit_records)
    as [Hcounts Hindices Hmatched _ _ _].
  unfold _compare_pair. cbn [both_count csv_only_count fit_only_count].
  set (st := foldl (compare_step config fit_records) initial_state csv_records) in *.
  set (free := λ i, i ∉ st_matched_fit_indices st).
  pose proof (length_filter free (seq 0 (length fit_records))) as Hle.
  rewrite length_seq in Hle.
  split; [done|]. split; [done|].
  pose proof (filter_app_complement free (seq 0 (length fit_records))) as Hsplit.
  apply Permutation_length in Hsplit. rewrite length_app, length_seq in Hsplit.
  assert (length (filter (λ i, ¬ free i) (seq 0 (length fit_records)))
          ≤ size (st_matched_fit_indices st))%nat as Hclaimed; [|lia].
  apply submseteq_length, NoDup_submseteq.
  - apply NoDup_filter, NoDup_seq.
  - intros i [Hi _]%list_elem_of_filter. apply elem_of_elements.
    unfold free in Hi. by apply dec_stable in Hi.
Qed.

(** X22.  In the report of a pair of files every tabular record is
    counted once, as matched or as tabular-only; the binary-only count is
    at most the number of binary records, and together with the number of
    matches it reaches that number: a binary record that several tabular
    records match is counted as a match several times. *)
Theorem compare_pair_counts (csv_records fit_records : list RawWeightRecord) :
  let r := _compare_pair config csv_records fit_records in
  (both_count r + csv_only_count r = length csv_records)%nat
  ∧ (fit_only_count r ≤ length fit_records)%nat
  ∧ (length fit_records ≤ fit_only_count r + both_count r)%nat.
Proof. apply compare_pair_counts_aux. Qed.

(** X23.  When nothing matches, and in particular when one of the two
    sides is empty, the report counts every record on its own side, has
    no mismatch and no mean absolute error; the names and the timestamp
    range of an empty side read "N/A" and nothing. *)
Theorem compare_pair_no_match (csv_records fit_records : list RawWeightRecord) :
  let r := _compare_pair config csv_records fit_records in
  (csv_records = [] ∨ fit_records = [] → both_count r = 0%nat)
  ∧ (both_count r = 0%nat →
     csv_only_count r = length csv_records
     ∧ fit_only_count r = length fit_records
     ∧ mismatches r = ∅
     ∧ weight_mae r = None)
  ∧ (csv_records = [] → csv_file_name r = "N/A"%string ∧ csv_drive_id r = "N/A"%string
                        ∧ csv_min_timestamp r = None ∧ csv_max_timestamp r = None)
  ∧ (fit_records = [] → fit_file_name r = "N/A"%string ∧ fit_drive_id r = "N/A"%string
                        ∧ fit_min_timestamp r = None ∧ fit_max_timestamp r = None).
Proof.
  pose proof (compare_pair_counts_aux csv_records fit_records) as Haux.
  destruct (compare_pair_invariant config csv_records fit_records)
    as [_ Hindices _ Hsome [Hlen _] Hmis].
  unfold _compare_pair in *. cbn [both_count csv_only_count fit_only_count mismatches
    weight_mae csv_file_name csv_drive_id fit_file_name fit_drive_id
    csv_min_timestamp csv_max_timestamp fit_min_timestamp fit_max_timestamp] in *.
  set (st := foldl (compare_step config fit_records) initial_state csv_records) in *.
  split; [|split; [|split]].
  - intros [Hnil|Hnil].
    + subst csv_records. done.
    + destruct (st_both_count st) as [|n] eqn:Hboth; [done|].
      destruct Hsome as []; [lia|]. apply set_eq. intros i.
      split; [|by intros ?%not_elem_of_empty].
      intros Hi%Hindices. rewrite Hnil in Hi. simpl in Hi. lia.
  - intros Hboth. rewrite Hboth in *. split; [lia|]. split; [lia|]. split.
    + apply map_empty. intros field.
      destruct (st_mismatches st !! field) as [n|] eqn:Hfield; [|done].
      destruct (Hmis field n Hfield). lia.
    + destruct (st_weight_differences st); [done|]. simpl in Hlen. lia.
  - by intros ->.
  - by intros ->.
Qed.

(** X24.  The mean absolute error of the weight, when the report has one,
    is not negative, and the report has one only if some records
    matched. *)
Theorem weight_mae_nonnegative (csv_records fit_records : list RawWeightRecord)
    (mae : Q) :
  weight_mae (_compare_pair config csv_records fit_records) = Some mae →
  (0 <= mae)%Q
  ∧ (0 < both_count (_compare_pair config csv_records fit_records))%nat.
Proof.
  destruct (compare_pair_invariant config csv_records fit_records)
    as [_ _ _ _ [Hlen Hpos] _].
  unfold _compare_pair. cbn [weight_mae both_count].
  set (st := foldl (compare_step config fit_records) initial_state csv_records) in *.
  unfold mean. destruct (st_weight_differences st) as [|d l] eqn:Hdiffs; [done|].
  intros [= <-]. split; [|simpl in Hlen; lia].
  apply Qle_shift_div_l.
  - change 0%Q with (inject_Z 0). rewrite <- Zlt_Qlt. simpl. lia.
  - rewrite Qmult_0_l. apply Forall_cons in Hpos as [Hd Hl].
    apply foldl_Qplus_nonneg; [|done]. by rewrite Qplus_0_l.
Qed.

(** X25.  The mismatch counters of a report belong to the weight and the
    four other compared fields only, and none exceeds the number of
    matched pairs. *)
Theorem mismatches_bounded (csv_records fit_records : list RawWeightRecord)
    (field : string) (n : nat) :
  mismatches (_compare_pair config csv_records fit_records) !! field = Some n →
  field ∈ "weight_kg"%string :: compared_fields
  ∧ (0 < n ≤ both_count (_compare_pair config csv_records fit_records))%nat.
Proof.
  destruct (compare_pair_invariant config csv_records fit_records)
    as [_ _ _ _ _ Hmis].
  unfold _compare_pair. cbn [mismatches both_count]. apply Hmis.
Qed.

(** X26.  The timestamp range of each side of a report is absent exactly
    when the side is empty; otherwise its two ends are timestamps of
    records of that side and every record of the side lies between them. *)
Theorem compare_pair_timestamp_range (csv_records fit_records : list RawWeightRecord) :
  let r := _compare_pair config csv_records fit_records in
  let within (low high : option datetime) (records : list RawWeightRecord) :=
    match low, high with
    | Some lo, Some hi =>
        lo ∈ timestamp <$> records ∧ hi ∈ timestamp <$> records
        ∧ ∀ x, x ∈ records → epoch_us lo ≤ instant x ≤ epoch_us hi
    | None, None => records = []
    | _, _ => False
    end in
  within (csv_min_timestamp r) (csv_max_timestamp r) csv_records
  ∧ within (fit_min_timestamp r) (fit_max_timestamp r) fit_records.
Proof.
  unfold _compare_pair. cbn [csv_min_timestamp csv_max_timestamp
    fit_min_timestamp fit_max_timestamp].
  assert (∀ records : list RawWeightRecord,
            match min_timestamp (timestamp <$> records),
                  max_timestamp (timestamp <$> records) with
            | Some lo, Some hi =>
                lo ∈ timestamp <$> records ∧ hi ∈ timestamp <$> records
                ∧ ∀ x, x ∈ records → epoch_us lo ≤ instant x ≤ epoch_us hi
            | None, None => records = []
            | _, _ => False
            end) as Hrange; [|split; apply Hrange].
  intros [|x records]; [done|]. rewrite fmap_cons. unfold min_timestamp, max_timestamp.
  destruct (foldl_min_timestamp (timestamp <$> records) (timestamp x)) as [Hlo Hlow].
  destruct (foldl_max_timestamp (timestamp <$> records) (timestamp x)) as [Hhi Hhigh].
  split; [done|]. split; [done|].
  intros y Hy. unfold instant.
  split; [apply Hlow|apply Hhigh];
    rewrite <- fmap_cons; by apply list_elem_of_fmap_2.
Qed.
End ComparisonReport.

Lemma weight_mae_nonnegative_witness :
  ∃ mae, weight_mae (_compare_pair Sample.config [Scenario.csv_755] [Scenario.fit_760])
         = Some mae
         ∧ (0 <= mae)%Q
         ∧ (0 < both_count (_compare_pair Sample.config
                              [Scenario.csv_755] [Scenario.fit_760]))%nat.
Proof.
  eexists. split; [vm_compute; reflexivity|].
  apply (weight_mae_nonnegative Sample.config). vm_compute. reflexivity.
Defined.

Lemma mismatches_bounded_witness :
  "weight_kg"%string ∈ "weight_kg"%string :: compared_fields
  ∧ (0 < 1 ≤ both_count (_compare_pair Sample.config
                           [Scenario.csv_755] [Scenario.fit_760]))%nat.
Proof.
  apply (mismatches_bounded Sample.config [Scenario.csv_755] [Scenario.fit_760]).
  vm_compute. reflexivity.
Defined.

(** ** Pairing the files of the two sources *)

(** [d[key] = v] on a [dict]: the value of a known key is replaced where
    it stands, a new key goes to the end. *)
Fixpoint dict_set {K V} (same : K → K → bool) (d : list (K * V)) (key : K) (v : V)
  : list (K * V) :=
  match d with
  | [] => [(key, v)]
  | (k, v') :: rest =>
      if same k key then (k, v) :: rest else (k, v') :: dict_set same rest key v
  end.

(** [d.get(key)] *)
Fixpoint dict_get {K V} (same : K → K → bool) (d : list (K * V)) (key : K)
  : option V :=
  match d with
  | [] => None
  | (k, v) :: rest => if same k key then Some v else dict_get same rest key
  end.

Definition month_year_eqb (a b : Z * Z) : bool := (a.1 =? b.1) && (a.2 =? b.2).

Section FilePairs.
(** The month and the year that [_extract_month_year] reads off a file
    name, or nothing when the name does not parse.  The function catches
    every exception, so it is total; which names parse is left open here,
    and what follows holds for any such function. *)
Variable _extract_month_year : string → option (Z * Z).
Variable config : ProcessingConfig.

(** The records of each file, under its name. *)
Definition by_file (records : list RawWeightRecord)
  : list (string * list RawWeightRecord) :=
  foldl (λ d record, dict_append String.eqb d (source_file_name record) record)
    [] records.

(** The file of each month and year: of two files of the same month and
    year the later one replaces the earlier one. *)
Definition by_month_year (files : list string) : list (Z * Z * string) :=
  foldl (λ d file,
           match _extract_month_year file with
           | Some month_year => dict_set month_year_eqb d month_year file
           | None => d
           end)
    [] files.

(** [by_file[name]] on the [defaultdict]. *)
Definition records_of (d : list (string * list RawWeightRecord)) (name : string)
  : list RawWeightRecord :=
  default [] (dict_get String.eqb d name).

Definition _find_file_pairs (csv_records fit_records : list RawWeightRecord)
  : list (list RawWeightRecord * list RawWeightRecord) :=
  let csv_by_file := by_file csv_records in
  let fit_by_file := by_file fit_records in
  let csv_by_month_year := by_month_year csv_by_file.*1 in
  let fit_by_month_year := by_month_year fit_by_file.*1 in
  let pairs :=
    omap (λ item : Z * Z * string,
            match dict_get month_year_eqb fit_by_month_year item.1 with
            | Some fit_file =>
                Some (records_of csv_by_file item.2, records_of fit_by_file fit_file)
            | None => None
            end)
      csv_by_month_year in
  let paired_csv_files : gset string :=
    list_to_set
      (omap (λ item : Z * Z * string,
               match dict_get month_year_eqb fit_by_month_year item.1 with
               | Some _ => Some item.2
               | None => None
               end)
         csv_by_month_year) in
  let paired_fit_files : gset string :=
    list_to_set
      (omap (λ item : Z * Z * string,
               dict_get month_year_eqb fit_by_month_year item.1)
         csv_by_month_year) in
  pairs
  ++ ((λ fit_file, ([], records_of fit_by_file fit_file))
        <$> filter (λ fit_file, fit_file ∉ paired_fit_files) fit_by_file.*1)
  ++ ((λ csv_file, (records_of csv_by_file csv_file, []))
        <$> filter (λ csv_file, csv_file ∉ paired_csv_files) csv_by_file.*1).

Definition compare (csv_records fit_records : list RawWeightRecord)
  : list ComparisonResult :=
  (λ pair, _compare_pair config pair.1 pair.2)
    <$> _find_file_pairs csv_records fit_records.
End FilePairs.

Section DictLemmas.
Context {K : Type} `{EqDecision K}.
Variable same : K → K → bool.
Hypothesis same_eq : ∀ a b, same a b = true ↔ a = b.

Lemma same_refl (k : K) : same k k = true.
Proof. by apply same_eq. Qed.

Lemma same_ne (a b : K) : a ≠ b → same a b = false.
Proof. intros Hne. apply not_true_is_false. by rewrite same_eq. Qed.

Lemma dict_append_keys {A} (d : list (K * list A)) (key : K) (x : A) :
  (dict_append same d key x).*1
  = if decide (key ∈ d.*1) then d.*1 else d.*1 ++ [key].
Proof.
  induction d as [|[k xs] d IH].
  - case_decide as Hin; [by apply elem_of_nil in Hin|done].
  - cbn [dict_append]. destruct (decide (k = key)) as [->|Hne].
    + clear IH. rewrite same_refl. case_decide as Hin; [reflexivity|].
      exfalso. apply Hin. rewrite fmap_cons. left.
    + rewrite same_ne by done. rewrite !fmap_cons, IH. clear IH. cbn [fst].
      case_decide as Hin; case_decide as Hin'; try reflexivity.
      * exfalso. apply Hin'. by right.
      * apply elem_of_cons in Hin' as [->|?]; done.
Qed.

Lemma dict_set_keys {V} (d : list (K * V)) (key : K) (v : V) :
  (dict_set same d key v).*1
  = if decide (key ∈ d.*1) then d.*1 else d.*1 ++ [key].
Proof.
  induction d as [|[k v'] d IH].
  - case_decide as Hin; [by apply elem_of_nil in Hin|done].
  - cbn [dict_set]. destruct (decide (k = key)) as [->|Hne].
    + clear IH. rewrite same_refl. case_decide as Hin; [reflexivity|].
      exfalso. apply Hin. rewrite fmap_cons. left.
    + rewrite same_ne by done. rewrite !fmap_cons, IH. clear IH. cbn [fst].
      case_decide as Hin; case_decide as Hin'; try reflexivity.
      * exfalso. apply Hin'. by right.
      * apply elem_of_cons in Hin' as [->|?]; done.
Qed.

Lemma dict_set_elem {V} (d : list (K * V)) (key : K) (v : V) (k' : K) (v' : V) :
  (k', v') ∈ dict_set same d key v → (k', v') = (key, v) ∨ (k', v') ∈ d.
Proof.
  induction d as [|[k v0] d IH]; simpl.
  - intros ->%list_elem_of_singleton. by left.
  - destruct (same k key) eqn:Hk.
    + apply same_eq in Hk as ->.
      intros [->|Hin]%elem_of_cons; [by left|right; by right].
    + intros [->|Hin]%elem_of_cons; [right; left|].
      destruct (IH Hin); [by left|right; by right].
Qed.

Lemma dict_get_Some {V} (d : list (K * V)) (key : K) (v : V) :
  dict_get same d key = Some v → (key, v) ∈ d.
Proof.
  induction d as [|[k v0] d IH]; simpl; [done|].
  destruct (same k key) eqn:Hk.
  - apply same_eq in Hk as ->. intros [= ->]. left.
  - intros Hget. right. by apply IH.
Qed.

Lemma dict_get_elem {V} (d : list (K * V)) (key : K) (v : V) :
  NoDup d.*1 → (key, v) ∈ d → dict_get same d key = Some v.
Proof.
  induction d as [|[k v0] d IH]; simpl; [by intros _ ?%elem_of_nil|].
  intros [Hk Hnd]%NoDup_cons [[= <- <-]|Hin]%elem_of_cons.
  - by rewrite same_refl.
  - rewrite same_ne; [by apply IH|].
    intros ->. apply Hk. by apply (list_elem_of_fmap_2 fst _ (key, v)).
Qed.

Lemma dict_get_None {V} (d : list (K * V)) (key : K) :
  dict_get same d key = None ↔ key ∉ d.*1.
Proof.
  induction d as [|[k v0] d IH]; simpl.
  - split; [intros _; apply not_elem_of_nil|done].
  - destruct (decide (k = key)) as [->|Hne].
    + rewrite same_refl. split; [done|]. intros []. left.
    + rewrite same_ne by done. rewrite IH, not_elem_of_cons. naive_solver.
Qed.
End DictLemmas.

Lemma bind_fmap_list {A B C} (f : A → B) (g : B → list C) (l : list A) :
  (f <$> l) ≫= g = l ≫= (g ∘ f).
Proof.
  induction l as [|x l IH]; [done|].
  by rewrite fmap_cons, !bind_cons, IH.
Qed.

Lemma bind_ext_elem {A B} (f g : A → list B) (l : list A) :
  (∀ x, x ∈ l → f x = g x) → l ≫= f = l ≫= g.
Proof.
  induction l as [|x l IH]; intros Hext; [done|].
  rewrite !bind_cons, Hext, IH; [done| |left].
  intros y Hy. apply Hext. by right.
Qed.

Lemma bind_nil_const {A B} (l : list A) : l ≫= (λ _, @nil B) = [].
Proof. induction l as [|x l IH]; [done|]. by rewrite bind_cons, IH. Qed.

Lemma NoDup_omap_inj {A B} (g : A → option B) (l : list A) :
  NoDup l →
  (∀ x1 x2 y, x1 ∈ l → x2 ∈ l → g x1 = Some y → g x2 = Some y → x1 = x2) →
  NoDup (omap g l).
Proof.
  induction l as [|x l IH]; simpl; [constructor|].
  intros [Hx Hnd]%NoDup_cons Hinj.
  assert (NoDup (omap g l)) as Hrest.
  { apply IH; [done|]. intros x1 x2 y H1 H2. apply Hinj; by right. }
  destruct (g x) as [y|] eqn:Hgx; [|done].
  constructor; [|done].
  intros (x' & Hx' & Hgx')%list_elem_of_omap.
  assert (x = x') as -> by (apply (Hinj x x' y); [left|by right|done..]).
  done.
Qed.

(** The chosen keys followed by the keys that were not chosen are all
    the keys, each once. *)
Lemma chosen_and_others `{Countable A} (chosen keys : list A) :
  NoDup chosen → NoDup keys → (∀ x, x ∈ chosen → x ∈ keys) →
  chosen ++ filter (λ x, x ∉ (list_to_set chosen : gset A)) keys ≡ₚ keys.
Proof.
  intros Hc Hk Hsub. apply NoDup_Permutation; [|done|].
  - apply NoDup_app. split; [done|]. split; [|by apply NoDup_filter].
    intros x Hx [Hout _]%list_elem_of_filter. apply Hout.
    by apply elem_of_list_to_set.
  - intros x. rewrite elem_of_app, list_elem_of_filter, not_elem_of_list_to_set.
    split; [intros [?|[_ ?]]; auto|].
    intros Hx. destruct (decide (x ∈ chosen)); auto.
Qed.

Lemma dict_append_nonempty {K A} (same : K → K → bool) (d : list (K * list A))
    (key : K) (x : A) :
  (∀ k xs, (k, xs) ∈ d → xs ≠ []) →
  ∀ k xs, (k, xs) ∈ dict_append same d key x → xs ≠ [].
Proof.
  induction d as [|[k' xs'] d IH]; simpl; intros Hd k xs.
  - by intros [= -> ->]%list_elem_of_singleton.
  - destruct (same k' key).
    + intros [[= -> ->]|Hin]%elem_of_cons.
      * by destruct xs'.
      * apply (Hd k). by right.
    + intros [[= -> ->]|Hin]%elem_of_cons.
      * apply (Hd k'). left.
      * eapply IH; [|exact Hin]. intros k0 xs0 H0. apply (Hd k0). by right.
Qed.

Lemma month_year_eqb_eq (a b : Z * Z) : month_year_eqb a b = true ↔ a = b.
Proof.
  destruct a as [m y], b as [m' y']. unfold month_year_eqb. cbn [fst snd].
  rewrite andb_true_iff, !Z.eqb_eq. split; [by intros [-> ->]|by intros [= -> ->]].
Qed.

(** ** The files and their pairs *)

Section FilePairsProperties.
Variable _extract_month_year : string → option (Z * Z).

Lemma by_file_snoc (records : list RawWeightRecord) (r : RawWeightRecord) :
  by_file (records ++ [r])
  = dict_append String.eqb (by_file records) (source_file_name r) r.
Proof. unfold by_file. by rewrite foldl_app. Qed.

Lemma by_file_keys_NoDup (records : list RawWeightRecord) :
  NoDup (by_file records).*1.
Proof.
  induction records as [|r records IH] using rev_ind; [constructor|].
  rewrite by_file_snoc, (dict_append_keys String.eqb String.eqb_eq).
  case_decide as Hin; [done|].
  apply NoDup_app. split; [done|]. split; [|apply NoDup_singleton].
  by intros x Hx ->%list_elem_of_singleton.
Qed.

Lemma by_file_values (records : list RawWeightRecord) :
  dict_values (by_file records) ≡ₚ records.
Proof.
  induction records as [|r records IH] using rev_ind; [done|].
  by rewrite by_file_snoc, dict_append_values, IH.
Qed.

(** The list of a file is not empty and holds records of that file. *)
Lemma by_file_entry (records : list RawWeightRecord) (name : string)
    (rs : list RawWeightRecord) :
  (name, rs) ∈ by_file records →
  rs ≠ [] ∧ ∀ r, r ∈ rs → source_file_name r = name.
Proof.
  revert name rs.
  induction records as [|r records IH] using rev_ind; intros name rs.
  - by intros ?%elem_of_nil.
  - rewrite by_file_snoc. intros Hin. split.
    + eapply dict_append_nonempty; [|exact Hin].
      intros k xs Hk. by apply (IH k xs).
    + intros y Hy.
      eapply (dict_append_keyed String.eqb (λ k y, source_file_name y = k));
        [| | |exact Hin|exact Hy].
      * done.
      * intros k Hk. by apply String.eqb_eq in Hk.
      * intros k xs z Hk Hz. by apply (IH k xs).
Qed.

Lemma records_of_entry (d : list (string * list RawWeightRecord)) (name : string)
    (rs : list RawWeightRecord) :
  NoDup d.*1 → (name, rs) ∈ d → records_of d name = rs.
Proof.
  intros Hnd Hin. unfold records_of.
  by rewrite (dict_get_elem String.eqb String.eqb_eq d name rs).
Qed.

Lemma records_of_key (d : list (string * list RawWeightRecord)) (name : string) :
  NoDup d.*1 → name ∈ d.*1 → (name, records_of d name) ∈ d.
Proof.
  intros Hnd ([k rs] & -> & Hin)%list_elem_of_fmap. cbn [fst].
  by rewrite (records_of_entry d k rs).
Qed.

(** Reading the dictionary at each of its keys gives back its values. *)
Lemma records_of_keys (d : list (string * list RawWeightRecord)) :
  NoDup d.*1 → d.*1 ≫= records_of d = dict_values d.
Proof.
  intros Hnd. unfold dict_values. rewrite bind_fmap_list.
  apply bind_ext_elem. intros [k rs] Hin. cbn [compose fst snd].
  by apply records_of_entry.
Qed.

Lemma by_month_year_snoc (files : list string) (file : string) :
  by_month_year _extract_month_year (files ++ [file])
  = match _extract_month_year file with
    | Some month_year =>
        dict_set month_year_eqb (by_month_year _extract_month_year files)
          month_year file
    | None => by_month_year _extract_month_year files
    end.
Proof. unfold by_month_year. by rewrite foldl_app. Qed.

Lemma by_month_year_keys_NoDup (files : list string) :
  NoDup (by_month_year _extract_month_year files).*1.
Proof.
  induction files as [|file files IH] using rev_ind; [constructor|].
  rewrite by_month_year_snoc. destruct (_extract_month_year file) as [my|]; [|done].
  rewrite (dict_set_keys month_year_eqb month_year_eqb_eq).
  case_decide as Hin; [done|].
  apply NoDup_app. split; [done|]. split; [|apply NoDup_singleton].
  by intros x Hx ->%list_elem_of_singleton.
Qed.

(** An entry of the dictionary is a file of the list, under the month and
    the year read off its name. *)
Lemma by_month_year_entry (files : list string) (month_year : Z * Z)
    (file : string) :
  (month_year, file) ∈ by_month_year _extract_month_year files →
  _extract_month_year file = Some month_year ∧ file ∈ files.
Proof.
  revert month_year file.
  induction files as [|f files IH] using rev_ind; intros my file.
  - by intros ?%elem_of_nil.
  - rewrite by_month_year_snoc, elem_of_app, list_elem_of_singleton.
    destruct (_extract_month_year f) as [my'|] eqn:Hf.
    + intros [[= -> ->]|Hin]%(dict_set_elem month_year_eqb month_year_eqb_eq).
      * auto.
      * destruct (IH _ _ Hin); auto.
    + intros Hin. destruct (IH _ _ Hin); auto.
Qed.

Lemma by_month_year_NoDup (files : list string) :
  NoDup (by_month_year _extract_month_year files).
Proof. eapply NoDup_fmap_1, by_month_year_keys_NoDup. Qed.

(** The tabular files that found a partner, and the partners. *)
Definition paired_csv (csv_files fit_files : list string) : list string :=
  omap (λ item : Z * Z * string,
          match dict_get month_year_eqb
                  (by_month_year _extract_month_year fit_files) item.1 with
          | Some _ => Some item.2
          | None => None
          end)
    (by_month_year _extract_month_year csv_files).

Definition paired_fit (csv_files fit_files : list string) : list string :=
  omap (λ item : Z * Z * string,
          dict_get month_year_eqb
            (by_month_year _extract_month_year fit_files) item.1)
    (by_month_year _extract_month_year csv_files).

Lemma paired_csv_spec (csv_files fit_files : list string) :
  NoDup (paired_csv csv_files fit_files)
  ∧ ∀ file, file ∈ paired_csv csv_files fit_files → file ∈ csv_files.
Proof.
  split.
  - apply NoDup_omap_inj; [apply by_month_year_NoDup|].
    intros [my1 f1] [my2 f2] y H1 H2. cbn [fst snd].
    destruct (dict_get _ _ my1); [|done]. destruct (dict_get _ _ my2); [|done].
    intros [= <-] [= <-].
    apply by_month_year_entry in H1 as [H1 _].
    apply by_month_year_entry in H2 as [H2 _]. congruence.
  - intros file ([my f] & Hin & Hsome)%list_elem_of_omap. cbn [fst snd] in Hsome.
    destruct (dict_get _ _ my); [|done]. injection Hsome as <-.
    by apply by_month_year_entry in Hin as [_ Hin].
Qed.

Lemma paired_fit_spec (csv_files fit_files : list string) :
  NoDup (paired_fit csv_files fit_files)
  ∧ ∀ file, file ∈ paired_fit csv_files fit_files → file ∈ fit_files.
Proof.
  split.
  - apply NoDup_omap_inj; [apply by_month_year_NoDup|].
    intros [my1 f1] [my2 f2] y H1 H2. cbn [fst snd].
    intros G1%(dict_get_Some month_year_eqb month_year_eqb_eq)
           G2%(dict_get_Some month_year_eqb month_year_eqb_eq).
    apply by_month_year_entry in G1 as [G1 _].
    apply by_month_year_entry in G2 as [G2 _].
    assert (my1 = my2) as -> by congruence.
    f_equal.
    pose proof (by_month_year_keys_NoDup csv_files) as Hnd.
    pose proof (dict_get_elem month_year_eqb month_year_eqb_eq _ _ _ Hnd H1) as E1.
    pose proof (dict_get_elem month_year_eqb month_year_eqb_eq _ _ _ Hnd H2) as E2.
    congruence.
  - intros file ([my f] & Hin & Hsome)%list_elem_of_omap. cbn [fst snd] in Hsome.
    apply (dict_get_Some month_year_eqb month_year_eqb_eq) in Hsome.
    by apply by_month_year_entry in Hsome as [_ Hsome].
Qed.

(** The three parts of the list that [_find_file_pairs] returns. *)
Lemma find_file_pairs_parts (csv_records fit_records : list RawWeightRecord) :
  let csv_by_file := by_file csv_records in
  let fit_by_file := by_file fit_records in
  let csv_files := csv_by_file.*1 in
  let fit_files := fit_by_file.*1 in
  ∃ together,
    _find_file_pairs _extract_month_year csv_records fit_records
    = together
      ++ ((λ fit_file, ([], records_of fit_by_file fit_file))
            <$> filter (λ fit_file,
                          fit_file ∉ (list_to_set (paired_fit csv_files fit_files)
                                        : gset string))
                 fit_files)
      ++ ((λ csv_file, (records_of csv_by_file csv_file, []))
            <$> filter (λ csv_file,
                          csv_file ∉ (list_to_set (paired_csv csv_files fit_files)
                                        : gset string))
                 csv_files)
    ∧ together ≫= fst = paired_csv csv_files fit_files ≫= records_of csv_by_file
    ∧ together ≫= snd = paired_fit csv_files fit_files ≫= records_of fit_by_file
    ∧ ∀ c f, (c, f) ∈ together →
        ∃ month_year csv_file fit_file,
          (month_year, csv_file) ∈ by_month_year _extract_month_year csv_files
          ∧ (month_year, fit_file) ∈ by_month_year _extract_month_year fit_files
          ∧ c = records_of csv_by_file csv_file
          ∧ f = records_of fit_by_file fit_file.
Proof.
  intros csv_by_file fit_by_file csv_files fit_files.
  eexists. split; [reflexivity|].
  unfold paired_csv, paired_fit.
  fold csv_by_file fit_by_file. fold csv_files fit_files.
  generalize (by_month_year _extract_month_year csv_files) as d.
  intros d. split; [|split].
  - induction d as [|[my f] d IH]; [done|]. cbn [omap list_omap fst snd].
    destruct (dict_get _ _ my); [|done].
    by rewrite !bind_cons, IH.
  - induction d as [|[my f] d IH]; [done|]. cbn [omap list_omap fst snd].
    destruct (dict_get _ _ my); [|done].
    by rewrite !bind_cons, IH.
  - intros c f ([my file] & Hin & Hsome)%list_elem_of_omap.
    cbn [fst snd] in Hsome.
    destruct (dict_get _ _ my) as [fit_file|] eqn:Hget; [|done].
    injection Hsome as <- <-.
    apply (dict_get_Some month_year_eqb month_year_eqb_eq) in Hget.
    by exists my, file, fit_file.
Qed.

(** The records of each source, shared out among the pairs. *)
Lemma find_file_pairs_sides (csv_records fit_records : list RawWeightRecord) :
  _find_file_pairs _extract_month_year csv_records fit_records ≫= fst
    ≡ₚ csv_records
  ∧ _find_file_pairs _extract_month_year csv_records fit_records ≫= snd
    ≡ₚ fit_records.
Proof.
  destruct (find_file_pairs_parts csv_records fit_records)
    as (together & -> & Hfst & Hsnd & _).
  pose proof (by_file_keys_NoDup csv_records) as Hcsv.
  pose proof (by_file_keys_NoDup fit_records) as Hfit.
  destruct (paired_csv_spec (by_file csv_records).*1 (by_file fit_records).*1)
    as [Hpc Hpc'].
  destruct (paired_fit_spec (by_file csv_records).*1 (by_file fit_records).*1)
    as [Hpf Hpf'].
  rewrite !bind_app, Hfst, Hsnd, !bind_fmap_list.
  split.
  - rewrite (bind_ext_elem _ (λ _, []) (filter _ (by_file fit_records).*1)) by done.
    rewrite bind_nil_const, app_nil_l.
    rewrite (bind_ext_elem _ (records_of (by_file csv_records))
               (filter _ (by_file csv_records).*1)) by done.
    rewrite <- bind_app, (chosen_and_others _ _ Hpc Hcsv Hpc').
    rewrite records_of_keys by done. apply by_file_values.
  - rewrite (bind_ext_elem _ (records_of (by_file fit_records))
               (filter _ (by_file fit_records).*1)) by done.
    rewrite (bind_ext_elem _ (λ _, []) (filter _ (by_file csv_records).*1)) by done.
    rewrite bind_nil_const, app_nil_r.
    rewrite <- bind_app, (chosen_and_others _ _ Hpf Hfit Hpf').
    rewrite records_of_keys by done. apply by_file_values.
Qed.

(** X27.  [_find_file_pairs] shares out the records without losing or
    repeating any: the tabular sides of the pairs together hold every
    tabular record once, and the binary sides every binary record once,
    however the file names parse and also when several files of a source
    fall in the same month. *)
Theorem find_file_pairs_partition (csv_records fit_records : list RawWeightRecord) :
  _find_file_pairs _extract_month_year csv_records fit_records ≫= fst
    ≡ₚ csv_records
  ∧ _find_file_pairs _extract_month_year csv_records fit_records ≫= snd
    ≡ₚ fit_records.
Proof. exact (find_file_pairs_sides csv_records fit_records). Qed.

(** X28.  A pair never mixes files: no pair is empty on both sides, the
    records of a side come from one file, and when both sides have
    records the names of the two files give the same month and year. *)
Theorem find_file_pairs_files (csv_records fit_records : list RawWeightRecord)
    (c f : list RawWeightRecord) :
  (c, f) ∈ _find_file_pairs _extract_month_year csv_records fit_records →
  (c ≠ [] ∨ f ≠ [])
  ∧ (∀ r r', r ∈ c → r' ∈ c → source_file_name r = source_file_name r')
  ∧ (∀ r r', r ∈ f → r' ∈ f → source_file_name r = source_file_name r')
  ∧ (∀ r r', r ∈ c → r' ∈ f →
       ∃ month_year,
         _extract_month_year (source_file_name r) = Some month_year
         ∧ _extract_month_year (source_file_name r') = Some month_year).
Proof.
  destruct (find_file_pairs_parts csv_records fit_records)
    as (together & -> & _ & _ & Htogether).
  pose proof (by_file_keys_NoDup csv_records) as Hcsv.
  pose proof (by_file_keys_NoDup fit_records) as Hfit.
  assert (∀ records name, name ∈ (by_file records).*1 →
            records_of (by_file records) name ≠ []
            ∧ ∀ r, r ∈ records_of (by_file records) name →
                   source_file_name r = name) as Hfile.
  { intros records name Hname. apply (by_file_entry records).
    apply records_of_key; [apply by_file_keys_NoDup|done]. }
  rewrite !elem_of_app. intros [Hin|[Hin|Hin]].
  - destruct (Htogether c f Hin) as (my & cf & ff & Hc & Hf & -> & ->).
    apply by_month_year_entry in Hc as [Hc Hc'].
    apply by_month_year_entry in Hf as [Hf Hf'].
    destruct (Hfile csv_records cf Hc') as [Hne Hnames].
    destruct (Hfile fit_records ff Hf') as [Hne' Hnames'].
    split; [by left|]. split; [|split].
    + intros r r' Hr Hr'. by rewrite (Hnames r), (Hnames r').
    + intros r r' Hr Hr'. by rewrite (Hnames' r), (Hnames' r').
    + intros r r' Hr Hr'. exists my. by rewrite (Hnames r), (Hnames' r').
  - apply list_elem_of_fmap in Hin as (ff & [= -> ->] & [_ Hff]%list_elem_of_filter).
    destruct (Hfile fit_records ff Hff) as [Hne' Hnames'].
    split; [by right|]. split; [|split].
    + by intros r r' ?%elem_of_nil.
    + intros r r' Hr Hr'. by rewrite (Hnames' r), (Hnames' r').
    + by intros r r' ?%elem_of_nil.
  - apply list_elem_of_fmap in Hin as (cf & [= -> ->] & [_ Hcf]%list_elem_of_filter).
    destruct (Hfile csv_records cf Hcf) as [Hne Hnames].
    split; [by left|]. split; [|split].
    + intros r r' Hr Hr'. by rewrite (Hnames r), (Hnames r').
    + by intros r r' ?%elem_of_nil.
    + by intros r r' _ ?%elem_of_nil.
Qed.
End FilePairsProperties.

Section CompareAll.
Variable _extract_month_year : string → option (Z * Z).
Variable config : ProcessingConfig.

Lemma compare_pairs_counts
    (pairs : list (list RawWeightRecord * list RawWeightRecord)) :
  let results := (λ pair, _compare_pair config pair.1 pair.2) <$> pairs in
  sum_list ((λ r, both_count r + csv_only_count r)%nat <$> results)
  = length (pairs ≫= fst)
  ∧ (sum_list (fit_only_count <$> results) ≤ length (pairs ≫= snd))%nat
  ∧ (length (pairs ≫= snd)
     ≤ sum_list ((λ r, fit_only_count r + both_count r)%nat <$> results))%nat.
Proof.
  induction pairs as [|[c f] pairs IH]; [done|].
  destruct IH as (IH1 & IH2 & IH3).
  destruct (compare_pair_counts_aux config c f) as (H1 & H2 & H3).
  cbv zeta in *. rewrite !fmap_cons, !bind_cons, !length_app.
  cbn [sum_list sum_list_with fst snd] in *. unfold id in *. lia.
Qed.

(** X29.  [compare] accounts for every record of every file: it returns
    one report for each pair; over all reports together every tabular
    record is counted once, as matched or as tabular-only, and the binary
    records are all covered by the binary-only and the matched counts;
    and there is no report at all exactly when there is no record. *)
Theorem compare_counts_every_record (csv_records fit_records : list RawWeightRecord) :
  let results := compare _extract_month_year config csv_records fit_records in
  length results
  = length (_find_file_pairs _extract_month_year csv_records fit_records)
  ∧ sum_list ((λ r, both_count r + csv_only_count r)%nat <$> results)
    = length csv_records
  ∧ (sum_list (fit_only_count <$> results) ≤ length fit_records)%nat
  ∧ (length fit_records
     ≤ sum_list ((λ r, fit_only_count r + both_count r)%nat <$> results))%nat
  ∧ (results = [] ↔ csv_records = [] ∧ fit_records = []).
Proof.
  destruct (find_file_pairs_sides _extract_month_year csv_records fit_records)
    as [Hcsv Hfit].
  destruct (compare_pairs_counts
              (_find_file_pairs _extract_month_year csv_records fit_records))
    as (H1 & H2 & H3).
  unfold compare. cbv zeta.
  rewrite Hcsv in H1. rewrite Hfit in H2, H3.
  split; [apply length_fmap|]. split; [done|]. split; [done|]. split; [done|].
  split.
  - intros Hnil%fmap_nil_inv. rewrite Hnil in Hcsv, Hfit.
    split; apply Permutation_nil; by symmetry.
  - by intros [-> ->].
Qed.
End CompareAll.

(** Two files of January 2024 and a binary file whose name does not
    parse. *)
Module Pairing.
Definition january_csv : string := "Peso 1-2024 Huawei Health.csv".
Definition january_fit : string := "Peso 1-2024 Huawei Health.fit".

Definition month_year (name : string) : option (Z * Z) :=
  if decide (name = january_csv ∨ name = january_fit) then Some (1, 2024) else None.

Definition csv_records : list RawWeightRecord :=
  [Sample.record SourceType.CSV 0 (Some 75%Q) january_csv;
   Sample.record SourceType.CSV 86400 (Some 76%Q) january_csv].

Definition fit_records : list RawWeightRecord :=
  [Sample.record SourceType.FIT 30 (Some 75%Q) january_fit;
   Sample.record SourceType.FIT 50 (Some 80%Q) "export.fit"].
End Pairing.

Lemma find_file_pairs_files_witness :
  let c := Pairing.csv_records in
  let f := [Sample.record SourceType.FIT 30 (Some 75%Q) Pairing.january_fit] in
  (c, f) ∈ _find_file_pairs Pairing.month_year Pairing.csv_records Pairing.fit_records
  ∧ (c ≠ [] ∨ f ≠ [])
  ∧ (∀ r r', r ∈ c → r' ∈ c → source_file_name r = source_file_name r')
  ∧ (∀ r r', r ∈ f → r' ∈ f → source_file_name r = source_file_name r')
  ∧ (∀ r r', r ∈ c → r' ∈ f →
       ∃ month_year,
         Pairing.month_year (source_file_name r) = Some month_year
         ∧ Pairing.month_year (source_file_name r') = Some month_year).
Proof.
  intros c f.
  assert ((c, f) ∈ _find_file_pairs Pairing.month_year Pairing.csv_records
                     Pairing.fit_records) as Hin.
  { assert (_find_file_pairs Pairing.month_year Pairing.csv_records
              Pairing.fit_records
            = [(c, f);
               ([], [Sample.record SourceType.FIT 50 (Some 80%Q) "export.fit"])])
      as -> by (vm_compute; reflexivity).
    left. }
  split; [exact Hin|].
  exact (find_file_pairs_files Pairing.month_year Pairing.csv_records
           Pairing.fit_records c f Hin).
Defined.

(** ** Absorption of binary groups: lineage and values *)

Lemma head_app_eq {A} (l1 l2 l3 : list A) :
  head l1 = head l2 → head (l1 ++ l3) = head (l2 ++ l3).
Proof. destruct l1, l2; simpl; congruence. Qed.

Lemma head_app_Some {A} (l1 l2 : list A) (x : A) :
  head l1 = Some x → head (l1 ++ l2) = Some x.
Proof. by destruct l1. Qed.

(** The first record of a group is the first record of the list at the
    instant of the group. *)
Lemma group_head_first (l : list RawWeightRecord) (k : datetime)
    (rs : list RawWeightRecord) :
  (k, rs) ∈ group_by_timestamp l →
  head rs = head (filter (λ r, instant r = epoch_us k) l).
Proof.
  revert k rs. induction l as [|r l IH] using rev_ind; intros k rs.
  - by intros ?%elem_of_nil.
  - pose proof (group_by_timestamp_grouped l) as G.
    assert (∀ k rs, (k, rs) ∈ group_by_timestamp l →
              head rs = head (filter (λ r, instant r = epoch_us k) (l ++ [r])))
      as Hold.
    { intros k' rs' Hin. rewrite filter_app.
      destruct (grouped_head _ _ G _ _ Hin) as (r0 & rest & -> & _).
      symmetry. apply head_app_Some. by rewrite <- (IH _ _ Hin). }
    rewrite group_by_timestamp_snoc.
    destruct (decide (instant r ∈ group_instants (group_by_timestamp l)))
      as [Hknown|Hfresh].
    + destruct (group_append_known _ _ Hknown)
        as (gs1 & k0 & rs0 & gs2 & Hgs & Hk0 & _ & ->).
      assert ((k0, rs0) ∈ group_by_timestamp l) as Hin0.
      { rewrite Hgs. apply elem_of_app. right. left. }
      intros [Hin|[[= -> ->]|Hin]%elem_of_cons]%elem_of_app.
      * apply Hold. rewrite Hgs. apply elem_of_app. by left.
      * rewrite <- (Hold _ _ Hin0).
        destruct (grouped_head _ _ G _ _ Hin0) as (r0 & rest & -> & _). done.
      * apply Hold. rewrite Hgs. apply elem_of_app. right. by right.
    + rewrite (group_append_fresh _ _ Hfresh).
      intros [Hin|[= -> ->]%list_elem_of_singleton]%elem_of_app; [by apply Hold|].
      rewrite filter_app.
      assert (filter (λ x, instant x = epoch_us (timestamp r)) l = []) as ->.
      { apply elem_of_nil_inv. intros x [Hx Hxl]%list_elem_of_filter.
        destruct (grouped_cover _ _ G x Hxl) as (k' & rs' & Hg & Hxrs).
        destruct (grouped_members _ _ G _ _ _ Hg Hxrs) as [Hxk _].
        apply Hfresh. unfold group_instants. apply list_elem_of_fmap.
        exists (k', rs'). split; [|done]. cbn [fst]. unfold instant. congruence. }
      by rewrite filter_cons_True.
Qed.

Section AbsorbedValues.
Variable isoformat : datetime → string.
Variable format_3f : Q → string.
Variable hexdigest : string → string → option string.
Variable config : ProcessingConfig.

Abbreviation run := (consolidate isoformat format_3f hexdigest config).
Abbreviation merge_records := (_merge_records isoformat format_3f hexdigest config).
Abbreviation tolerance := (timestamp_tolerance_seconds config).

(** [csv_recs[0]] for the group of a tabular record: the first tabular
    record of the input at its instant. *)
Definition first_csv_at (raw_records : list RawWeightRecord) (c : RawWeightRecord)
  : option RawWeightRecord :=
  head (filter (λ r, instant r = instant c) (filter is_csv raw_records)).

(** [matched_fit_recs[0]] for the group of a tabular record: the first
    binary record of the input within tolerance of it. *)
Definition first_fit_within (raw_records : list RawWeightRecord) (c : RawWeightRecord)
  : option RawWeightRecord :=
  head (filter (λ r, timestamps_match (timestamp c) (timestamp r) tolerance = true)
          (filter is_fit raw_records)).

(** Each of the fourteen values of the measurement is the field merge of
    the values of the two records, where there is one. *)
Definition merged_from (m : WeightMeasurement) (c0 f0 : option RawWeightRecord)
  : Prop :=
  ∀ field, field ∈ numeric_fields →
    measurement_value m field
    = (_merge_field config (c0 ≫= λ r, getattr r field)
         (f0 ≫= λ r, getattr r field) field).1.1.

(** The first binary record a tabular group absorbs is the first binary
    record of the list within tolerance of the group. *)
Lemma matched_records_head (k : datetime) (l : list RawWeightRecord) :
  head (matched_records config k (group_by_timestamp l))
  = head (filter (λ r, timestamps_match k (timestamp r) tolerance = true) l).
Proof.
  induction l as [|r l IH] using rev_ind; [done|].
  pose proof (group_by_timestamp_grouped l) as G.
  rewrite group_by_timestamp_snoc, filter_app.
  unfold matched_records in *.
  destruct (decide (instant r ∈ group_instants (group_by_timestamp l)))
    as [Hknown|Hfresh].
  - destruct (group_append_known _ _ Hknown)
      as (gs1 & k0 & rs0 & gs2 & Hgs & Hk0 & _ & ->).
    assert ((k0, rs0) ∈ group_by_timestamp l) as Hin0.
    { rewrite Hgs. apply elem_of_app. right. left. }
    destruct (grouped_head _ _ G _ _ Hin0) as (r0 & rest & -> & Hr0).
    rewrite Hgs in IH. rewrite !filter_app, !bind_app in *.
    assert (timestamps_match k (timestamp r) tolerance = timestamps_match k k0 tolerance)
      as Hsame.
    { apply timestamps_match_instants; [done|]. by unfold instant in Hk0. }
    destruct (decide (matches config k (k0, r0 :: rest))) as [Hm|Hm].
    + rewrite !filter_cons_True in * by done.
      rewrite !bind_cons in *. cbn [snd] in *.
      set (A := filter (matches config k) gs1 ≫= snd) in *.
      set (B := filter (matches config k) gs2 ≫= snd) in *.
      assert (head (A ++ ((r0 :: rest) ++ [r]) ++ B) = head (A ++ (r0 :: rest) ++ B))
        as -> by (by destruct A).
      rewrite IH.
      destruct (filter _ l) as [|x xs] eqn:Hf; [|done].
      by destruct A.
    + rewrite !filter_cons_False in * by done.
      rewrite IH. rewrite filter_cons_False, filter_nil, app_nil_r; [done|].
      unfold matches in Hm. cbn [fst] in Hm. by rewrite Hsame.
  - rewrite (group_append_fresh _ _ Hfresh), filter_app, bind_app.
    destruct (decide (timestamps_match k (timestamp r) tolerance = true)) as [Hm|Hm].
    + rewrite (filter_cons_True (matches config k)) by done.
      rewrite (filter_cons_True _ r) by done.
      rewrite !filter_nil.
      change ([(timestamp r, [r])] ≫= snd) with [r].
      by apply head_app_eq.
    + rewrite (filter_cons_False (matches config k)) by done.
      rewrite (filter_cons_False _ r) by done.
      rewrite !filter_nil.
      change (@nil (datetime * list RawWeightRecord) ≫= snd)
        with (@nil RawWeightRecord).
      by rewrite !app_nil_r.
Qed.

(** A merged group names every one of its binary records in its lineage. *)
Lemma merged_group_absorbs (csv_records fit_records : list RawWeightRecord)
    (m : WeightMeasurement) (f : RawWeightRecord) :
  merge_records csv_records fit_records = Ok m →
  csv_records ≠ [] → f ∈ fit_records → source_type f = SourceType.FIT →
  absorbed isoformat format_3f hexdigest config f m.
Proof.
  intros Hmerge Hne Hf Hfit. exists csv_records, fit_records.
  pose proof Hmerge as Hinv.
  apply merge_records_Ok_inv in Hinv
    as (first & rest' & w & _ & _ & _ & _ & _ & Hfiles & Hids & Hkinds & _).
  repeat split; try done.
  - rewrite Hfiles. apply list_elem_of_fmap. exists f. split; [done|].
    apply elem_of_app. by right.
  - rewrite Hids. apply list_elem_of_fmap. exists f. split; [done|].
    apply elem_of_app. by right.
  - rewrite Hkinds. unfold group_kinds. apply elem_of_list_to_set, list_elem_of_fmap.
    exists f. split; [done|]. apply elem_of_app. by right.
Qed.

(** The measurement of the tabular group of a record: it stands at the
    instant of the record, names every binary record within tolerance in
    its lineage, and takes its values from the first tabular record at
    that instant and the first binary record within tolerance. *)
Lemma csv_group_measurement (raw_records : list RawWeightRecord)
    (out : list WeightMeasurement) (c : RawWeightRecord) :
  run raw_records = Ok out →
  c ∈ raw_records → source_type c = SourceType.CSV →
  ∃ m, m ∈ out
       ∧ epoch_us (m_timestamp m) = instant c
       ∧ merged_from m (first_csv_at raw_records c) (first_fit_within raw_records c)
       ∧ ∀ f, f ∈ raw_records → source_type f = SourceType.FIT →
              timestamps_match (timestamp c) (timestamp f) tolerance = true →
              absorbed isoformat format_3f hexdigest config f m.
Proof.
  intros (ms & Htr & ->)%consolidate_Ok_inv Hc Hcsv.
  pose proof (group_by_timestamp_grouped (filter is_csv raw_records)) as Gc.
  pose proof (group_by_timestamp_grouped (filter is_fit raw_records)) as Gf.
  destruct (grouped_cover _ _ Gc c) as (k & crs & Hk & Hcrs);
    [by apply list_elem_of_filter|].
  destruct (grouped_members _ _ Gc _ _ _ Hk Hcrs) as [Hck _].
  destruct (grouped_head _ _ Gc _ _ Hk) as (r0 & rest & -> & Hr0).
  destruct (traverse_Ok_elem_l _ _ _
              (r0 :: rest, matched_records config k (fit_groups_of raw_records)) Htr)
    as (m & Hm & Hmerge).
  { unfold groupings_of, groupings. apply elem_of_app. left.
    apply list_elem_of_fmap. by exists (k, r0 :: rest). }
  unfold merge_grouping in Hmerge. cbn [fst snd] in Hmerge.
  exists m. split; [by apply sort_by_timestamp_elem|]. split; [|split].
  - pose proof Hmerge as Hinv.
    apply merge_records_Ok_inv in Hinv as (first & rest' & w & Hall & _ & _ & Hts & _).
    simpl in Hall. injection Hall as <- _. by rewrite Hts, Hr0.
  - intros field Hfield.
    destruct (merge_records_fields isoformat format_3f hexdigest config
                _ _ m field Hmerge Hfield) as [-> _].
    unfold field_merge, representative_value, first_csv_at, first_fit_within.
    rewrite (group_head_first _ _ _ Hk).
    unfold fit_groups_of. rewrite matched_records_head.
    unfold timestamps_match, instant in *. by rewrite Hck.
  - intros f Hf Hfit Hmatch.
    apply (merged_group_absorbs _ _ _ _ Hmerge); [done| |done].
    destruct (grouped_cover _ _ Gf f) as (kf & frs & Hkf & Hfrs);
      [by apply list_elem_of_filter|].
    destruct (grouped_members _ _ Gf _ _ _ Hkf Hfrs) as [Hfk _].
    apply (elem_of_matched_records config k kf frs _ f Hkf Hfrs).
    by rewrite <- (timestamps_match_instants _ _ _ _ _ Hck Hfk).
Qed.

(** C10.  A binary record within tolerance of two tabular records at
    different instants is merged into the measurement of each of the two
    tabular groups: both name it in their lineage, and no measurement made
    of binary records alone stands at its instant.  The values of each of
    the two measurements are the field merges of two records only, the
    first tabular record at the instant of the group and the first binary
    record of the input within tolerance of it: an absorbed record that
    is not that first one gives lineage and no value. *)
Theorem fit_group_absorbed_by_every_match (raw_records : list RawWeightRecord)
    (out : list WeightMeasurement) (c1 c2 f : RawWeightRecord) :
  run raw_records = Ok out →
  c1 ∈ raw_records → c2 ∈ raw_records → f ∈ raw_records →
  source_type c1 = SourceType.CSV → source_type c2 = SourceType.CSV →
  source_type f = SourceType.FIT →
  instant c1 ≠ instant c2 →
  timestamps_match (timestamp c1) (timestamp f) tolerance = true →
  timestamps_match (timestamp c2) (timestamp f) tolerance = true →
  (∃ m1 m2, m1 ∈ out ∧ m2 ∈ out ∧ m1 ≠ m2
            ∧ epoch_us (m_timestamp m1) = instant c1
            ∧ epoch_us (m_timestamp m2) = instant c2
            ∧ absorbed isoformat format_3f hexdigest config f m1
            ∧ absorbed isoformat format_3f hexdigest config f m2
            ∧ merged_from m1 (first_csv_at raw_records c1)
                (first_fit_within raw_records c1)
            ∧ merged_from m2 (first_csv_at raw_records c2)
                (first_fit_within raw_records c2))
  ∧ (∀ m, m ∈ out → source_types m = {[SourceType.FIT]} →
          epoch_us (m_timestamp m) ≠ instant f).
Proof.
  intros Hrun Hc1 Hc2 Hf Hcsv1 Hcsv2 Hfit Hne Hmatch1 Hmatch2. split.
  - destruct (csv_group_measurement _ _ c1 Hrun Hc1 Hcsv1)
      as (m1 & Hm1 & Hts1 & Hvalues1 & Habs1).
    destruct (csv_group_measurement _ _ c2 Hrun Hc2 Hcsv2)
      as (m2 & Hm2 & Hts2 & Hvalues2 & Habs2).
    exists m1, m2.
    split; [done|]. split; [done|]. split; [intros ->; congruence|].
    split; [done|]. split; [done|].
    split; [by apply Habs1|]. split; [by apply Habs2|]. done.
  - intros m Hm Hkinds.
    by eapply (claimed_not_fit_only isoformat format_3f hexdigest config _ _ c1 f).
Qed.
End AbsorbedValues.

Module Crowded.
Import Sample.

(** Two tabular records 100 seconds apart and two binary records between
    them, each within the 60-second tolerance of both.  Only the second
    binary record carries a fat mass. *)
Definition csv_early : RawWeightRecord :=
  record SourceType.CSV 1705314600 (Some (151 # 2)%Q) "early.csv".
Definition fit_first : RawWeightRecord :=
  record SourceType.FIT 1705314645 (Some (151 # 2)%Q) "first.fit".
Definition fit_second : RawWeightRecord :=
  with_fat_mass (record SourceType.FIT 1705314655 (Some (80 # 1)%Q) "second.fit")
    (Some (20 # 1)%Q).
Definition csv_late : RawWeightRecord :=
  record SourceType.CSV 1705314700 (Some (152 # 2)%Q) "late.csv".

Definition records : list RawWeightRecord :=
  [csv_early; fit_first; fit_second; csv_late].

(** The same input, the second binary record with no value at all. *)
Definition records_without_values : list RawWeightRecord :=
  [csv_early; fit_first;
   record SourceType.FIT 1705314655 None "second.fit"; csv_late].
End Crowded.

Lemma fit_group_absorbed_by_every_match_witness :
  ∃ out, Sample.run Sample.config Crowded.records = Ok out
    ∧ (∃ m1 m2, m1 ∈ out ∧ m2 ∈ out ∧ m1 ≠ m2
         ∧ epoch_us (m_timestamp m1) = instant Crowded.csv_early
         ∧ epoch_us (m_timestamp m2) = instant Crowded.csv_late
         ∧ absorbed Sample.isoformat Sample.format_3f Sample.hexdigest Sample.config
             Crowded.fit_second m1
         ∧ absorbed Sample.isoformat Sample.format_3f Sample.hexdigest Sample.config
             Crowded.fit_second m2
         ∧ merged_from Sample.config m1
             (first_csv_at Crowded.records Crowded.csv_early)
             (first_fit_within Sample.config Crowded.records Crowded.csv_early)
         ∧ merged_from Sample.config m2
             (first_csv_at Crowded.records Crowded.csv_late)
             (first_fit_within Sample.config Crowded.records Crowded.csv_late))
    ∧ (∀ m, m ∈ out → source_types m = {[SourceType.FIT]} →
            epoch_us (m_timestamp m) ≠ instant Crowded.fit_second).
Proof.
  eexists. split; [vm_compute; reflexivity|].
  apply (fit_group_absorbed_by_every_match
           Sample.isoformat Sample.format_3f Sample.hexdigest Sample.config
           Crowded.records _ Crowded.csv_early Crowded.csv_late Crowded.fit_second).
  - vm_compute. reflexivity.
  - apply list_elem_of_In. simpl. tauto.
  - apply list_elem_of_In. simpl. tauto.
  - apply list_elem_of_In. simpl. tauto.
  - reflexivity.
  - reflexivity.
  - reflexivity.
  - discriminate.
  - reflexivity.
  - reflexivity.
Defined.

(** The second binary record lies within tolerance of both tabular
    records and both measurements name its file, yet its weight of 80 kg
    and its fat mass of 20 kg are in neither: the binary values of both
    measurements are those of the first binary record, and the run returns
    the same two measurements when the second binary record carries no
    value at all. *)
Lemma absorbed_record_gives_no_value :
  ∃ m1 m2,
    Sample.run Sample.config Crowded.records = Ok [m1; m2]
    ∧ timestamps_match (timestamp Crowded.csv_early) (timestamp Crowded.fit_second)
        (timestamp_tolerance_seconds Sample.config) = true
    ∧ timestamps_match (timestamp Crowded.csv_late) (timestamp Crowded.fit_second)
        (timestamp_tolerance_seconds Sample.config) = true
    ∧ source_file_name Crowded.fit_second ∈ source_files m1
    ∧ source_file_name Crowded.fit_second ∈ source_files m2
    ∧ fat_mass_kg Crowded.fit_second = Some (20 # 1)%Q
    ∧ m_fat_mass_kg m1 = None ∧ m_fat_mass_kg m2 = None
    ∧ field_sources m1 !! "weight_kg"%string = Some FieldSource.MERGED
    ∧ field_sources m2 !! "weight_kg"%string = Some FieldSource.CONFLICT
    ∧ m_weight_kg m2 = Some (152 # 2)%Q
    ∧ weight_kg_fit m2 = Some (151 # 2)%Q
    ∧ Sample.run Sample.config Crowded.records_without_values = Ok [m1; m2].
Proof.
  eexists _, _. split; [vm_compute; reflexivity|].
  repeat split; try reflexivity.
  - apply list_elem_of_In. simpl. tauto.
  - apply list_elem_of_In. simpl. tauto.
Qed.
